(** * claim_batch: batch valuation / payment orchestration

    A shallow embedding of [claim_batch/services.py] and of the report view
    [claim_batch/report_views.py] (openIMIS claim batch module) together
    with the properties of its natural-language specification.

    Conventions of the embedding:
    - Python exceptions are an inductive type [exn]; a computation that may
      raise returns a [result]; code that also reads or writes the database
      lives in the state-and-exception monad [M].
    - [datetime.date] values are records of year, month and day; the
      arithmetic of [datetime] (validation of the constructor, ordinals,
      comparison) is written out after CPython's [datetime] module.
    - Django query sets are lazy: they are embedded as functions from the
      database to the rows they select.
    - Amounts held by Python ([Premium.amount]) are kept abstract in a type
      class [PyNum]; amounts summed inside the database (DECIMAL(18,2)
      columns) are integers in hundredths. *)

From Stdlib Require Import ZArith Lia List Bool QArith Qcanon.
From Stdlib Require OrderedTypeEx.
From stdpp Require Import gmap strings list fin_maps pretty sorting.

Local Open Scope string_scope.
Local Open Scope Z_scope.

(** ** Exceptions and results *)

Inductive exn : Type :=
| KeyboardInterrupt
| SystemExit
| ValueError (msg : string)
| ArithmeticError (msg : string)
| KeyError (msg : string)
| IndexError (msg : string)
| TypeError (msg : string)
| RuleError (msg : string).

(** [except Exception] catches everything but the two exceptions that
    [process_batch] re-raises. *)
Definition is_Exception (e : exn) : bool :=
  match e with
  | KeyboardInterrupt | SystemExit => false
  | _ => true
  end.

(** [str(exc)] *)
Definition str_exn (e : exn) : string :=
  match e with
  | KeyboardInterrupt | SystemExit => ""
  | ValueError m | ArithmeticError m | KeyError m
  | IndexError m | TypeError m | RuleError m => m
  end.

Inductive result (A : Type) : Type :=
| Ok (a : A)
| Raise (e : exn).
Arguments Ok {A} a.
Arguments Raise {A} e.

Definition rbind {A B} (r : result A) (k : A -> result B) : result B :=
  match r with
  | Ok a => k a
  | Raise e => Raise e
  end.

Definition rmap {A B} (f : A -> B) (r : result A) : result B :=
  rbind r (fun a => Ok (f a)).

(** ** Calendar dates (CPython [datetime.date]) *)

Module PyDate.

Record date : Type := mkdate { year : Z; month : Z; day : Z }.

Definition MINYEAR : Z := 1.
Definition MAXYEAR : Z := 9999.

Definition is_leap (y : Z) : bool :=
  (y mod 4 =? 0) && (negb (y mod 100 =? 0) || (y mod 400 =? 0)).

(** [calendar.mdays] *)
Definition mdays (m : Z) : Z :=
  match m with
  | 1 => 31 | 2 => 28 | 3 => 31 | 4 => 30 | 5 => 31 | 6 => 30
  | 7 => 31 | 8 => 31 | 9 => 30 | 10 => 31 | 11 => 30 | 12 => 31
  | _ => 0
  end.

Definition days_in_month (y m : Z) : Z :=
  if (m =? 2) && is_leap y then 29 else mdays m.

Definition year_length (y : Z) : Z := if is_leap y then 366 else 365.

Definition days_before_year (y : Z) : Z :=
  let y' := y - 1 in y' * 365 + y' / 4 - y' / 100 + y' / 400.

Definition days_before_month (y m : Z) : Z :=
  (match m with
   | 1 => 0 | 2 => 31 | 3 => 59 | 4 => 90 | 5 => 120 | 6 => 151
   | 7 => 181 | 8 => 212 | 9 => 243 | 10 => 273 | 11 => 304 | 12 => 334
   | _ => 0
   end) + (if (2 <? m) && is_leap y then 1 else 0).

Definition valid (d : date) : Prop :=
  MINYEAR <= year d <= MAXYEAR /\ 1 <= month d <= 12 /\
  1 <= day d <= days_in_month (year d) (month d).

Definition validb (d : date) : bool :=
  (MINYEAR <=? year d) && (year d <=? MAXYEAR) &&
  (1 <=? month d) && (month d <=? 12) &&
  (1 <=? day d) && (day d <=? days_in_month (year d) (month d)).

(** [datetime.date(y, m, d)]: the constructor checks its fields. *)
Definition new (y m d : Z) : result date :=
  if negb ((MINYEAR <=? y) && (y <=? MAXYEAR)) then
    Raise (ValueError ("year " +:+ pretty y +:+ " is out of range"))
  else if negb ((1 <=? m) && (m <=? 12)) then
    Raise (ValueError "month must be in 1..12")
  else if negb ((1 <=? d) && (d <=? days_in_month y m)) then
    Raise (ValueError "day is out of range for month")
  else Ok (mkdate y m d).

(** [d.toordinal()]: 1 is January 1 of year 1. *)
Definition toordinal (d : date) : Z :=
  days_before_year (year d) + days_before_month (year d) (month d) + day d.

(** [(a - b).days] *)
Definition sub_days (a b : date) : Z := toordinal a - toordinal b.

(** Comparison of dates is the comparison of (year, month, day). *)
Definition ltb (a b : date) : bool :=
  (year a <? year b) ||
  ((year a =? year b) &&
   ((month a <? month b) || ((month a =? month b) && (day a <? day b)))).

Definition leb (a b : date) : bool := negb (ltb b a).

(** [max(a, b)] keeps [a] unless [b > a]; [min(a, b)] keeps [a] unless
    [b < a]. *)
Definition max (a b : date) : date := if ltb a b then b else a.
Definition min (a b : date) : date := if ltb b a then b else a.

Definition two_digits (n : Z) : string :=
  if n <? 10 then "0" +:+ pretty n else pretty n.

Definition four_digits (n : Z) : string :=
  (if n <? 10 then "000" else if n <? 100 then "00"
   else if n <? 1000 then "0" else "") +:+ pretty n.

(** [str(d)], the ISO form YYYY-MM-DD. *)
Definition str (d : date) : string :=
  four_digits (year d) +:+ "-" +:+ two_digits (month d) +:+ "-" +:+
  two_digits (day d).

End PyDate.

Export PyDate.

Global Instance date_eq_dec : EqDecision date.
Proof. solve_decision. Defined.

(** ** PeriodResolver: [get_start_date] *)

Definition get_start_date (end_date : date) (periodicity : Z)
  : result (option date) :=
  let year := year end_date in
  let month := month end_date in
  if periodicity =? 12 then
    if month =? 12 then rmap Some (PyDate.new year 1 1) else Ok None
  else if periodicity =? 6 then
    if month mod 6 =? 0 then rmap Some (PyDate.new year (month - 5) 1)
    else Ok None
  else if periodicity =? 4 then
    if month mod 4 =? 0 then rmap Some (PyDate.new year (month - 4) 1)
    else Ok None
  else if periodicity =? 3 then
    if month mod 3 =? 0 then rmap Some (PyDate.new year (month - 2) 1)
    else Ok None
  else if periodicity =? 2 then
    if month mod 2 =? 0 then rmap Some (PyDate.new year (month - 1) 1)
    else Ok None
  else if periodicity =? 1 then
    rmap Some (PyDate.new year month 1)
  else Ok None.

(** ** Numbers held by Python

    [Premium.amount] is a [Decimal]; the allocation arithmetic is written
    against the operations it uses, so that what is proved holds for any
    numeric type Python may put there.  Division by the integer zero raises
    and is handled where it is used. *)

Class PyNum (num : Type) : Type := {
  of_int : Z -> num;
  add : num -> num -> num;
  mul_int : num -> Z -> num;
  div_int : num -> Z -> num
}.

(** Exact rationals. *)
#[export] Instance Qc_PyNum : PyNum Qc := {
  of_int := fun z => Q2Qc (inject_Z z);
  add := Qcplus;
  mul_int := fun x n => Qcmult x (Q2Qc (inject_Z n));
  div_int := fun x n => Qcdiv x (Q2Qc (inject_Z n))
}.

(** ** Data model (the Django models read or written by the module)

    Columns holding a timestamp are kept at day granularity. *)

Record BatchRun : Type := mkBatchRun {
  run_id : Z;
  location_id : option Z;
  run_year : Z;
  run_month : Z;
  run_date : Z;
  audit_user_id : Z;
  validity_from : Z;
  validity_to : option Z
}.

Record Product : Type := mkProduct {
  product_id : Z;
  product_location_id : option Z;
  date_from : date;
  date_to : option date;
  product_validity_to : option Z
}.

Record PaymentPlan : Type := mkPaymentPlan {
  plan_id : Z;
  benefit_plan : Z;
  periodicity : Z;
  calculation : string;
  date_valid_from : date;
  date_valid_to : date;
  is_deleted : bool
}.

Record Policy : Type := mkPolicy {
  policy_product : Z;
  effective_date : date;
  expiry_date : date
}.

Record Premium (num : Type) : Type := mkPremium {
  policy : Policy;
  amount : num;
  premium_validity_to : option Z
}.
Arguments mkPremium {num} _ _ _.
Arguments policy {num} _.
Arguments amount {num} _.
Arguments premium_validity_to {num} _.

(** Modelled from the spec: the lifecycle statuses of [claim.models.Claim],
    which is declared outside this module; the module only writes
    [STATUS_VALUATED] and filters on it. *)
Inductive ClaimStatus : Type :=
| STATUS_REJECTED
| STATUS_ENTERED
| STATUS_CHECKED
| STATUS_PROCESSED
| STATUS_VALUATED.

Record Claim : Type := mkClaim {
  claim_pk : Z;
  status : ClaimStatus;
  batch_run : option Z;
  remunerated : option Z;
  claim_validity_from : date;
  claim_validity_to : option Z;
  process_stamp : option date
}.

(** [ClaimItem] and [ClaimService] share the columns used here. *)
Record ClaimDetail : Type := mkClaimDetail {
  detail_pk : Z;
  claim_id : Z;
  detail_product : option Z;
  price_valuated : option Z;
  legacy_id : option Z;
  detail_validity_to : option Z
}.

(** The tables a calculation rule may write. *)
Record ClaimStore : Type := mkClaimStore {
  Claim_objects : list Claim;
  ClaimItem_objects : list ClaimDetail;
  ClaimService_objects : list ClaimDetail
}.

Global Instance BatchRun_eq_dec : EqDecision BatchRun.
Proof. solve_decision. Defined.
Global Instance ClaimStatus_eq_dec : EqDecision ClaimStatus.
Proof. solve_decision. Defined.
Global Instance Claim_eq_dec : EqDecision Claim.
Proof. solve_decision. Defined.

(** ** Query sets *)

Definition is_null {A} (o : option A) : bool :=
  match o with None => true | Some _ => false end.

Definition opt_Z_eqb (a b : option Z) : bool := bool_decide (a = b).

Definition get_payment_plan_queryset (product : Product) (end_date : date)
    (PaymentPlan_objects : list PaymentPlan) : list PaymentPlan :=
  List.filter (fun p =>
    PyDate.leb end_date (date_valid_to p) &&
    PyDate.leb (date_valid_from p) end_date &&
    (benefit_plan p =? product_id product) &&
    negb (is_deleted p)) PaymentPlan_objects.

Definition claim_of (s : ClaimStore) (d : ClaimDetail) : option Claim :=
  List.find (fun c => claim_pk c =? claim_id d) (Claim_objects s).

Definition stamp_between (start_date end_date : date) (c : option Claim)
  : bool :=
  match c with
  | Some c =>
      match process_stamp c with
      | Some t => PyDate.leb t end_date && PyDate.leb start_date t
      | None => false
      end
  | None => false
  end.

Definition detail_in_window (product : Product) (start_date end_date : date)
    (s : ClaimStore) (d : ClaimDetail) : bool :=
  is_null (detail_validity_to d) &&
  stamp_between start_date end_date (claim_of s d) &&
  opt_Z_eqb (detail_product d) (Some (product_id product)).

(** [.order_by('claim__health_facility').order_by('claim')]: the second
    [order_by] replaces the first. *)
Definition claim_le (a b : ClaimDetail) : Prop := claim_id a <= claim_id b.

Global Instance claim_le_dec : RelDecision claim_le.
Proof. intros a b. unfold claim_le. apply _. Defined.

Definition order_by_claim (rows : list ClaimDetail) : list ClaimDetail :=
  merge_sort claim_le rows.

Definition get_items_queryset (product : Product) (start_date end_date : date)
    (s : ClaimStore) : list ClaimDetail :=
  order_by_claim
    (List.filter (detail_in_window product start_date end_date s)
       (ClaimItem_objects s)).

Definition get_services_queryset (product : Product)
    (start_date end_date : date) (s : ClaimStore) : list ClaimDetail :=
  order_by_claim
    (List.filter (detail_in_window product start_date end_date s)
       (ClaimService_objects s)).

Definition touches_product (product : Product) (s : ClaimStore) (c : Claim)
  : bool :=
  let of_claim d :=
    (claim_id d =? claim_pk c) &&
    opt_Z_eqb (detail_product d) (Some (product_id product)) in
  existsb of_claim (ClaimItem_objects s) ||
  existsb of_claim (ClaimService_objects s).

Definition get_claim_queryset (product : Product) (start_date end_date : date)
    (s : ClaimStore) : list Claim :=
  List.filter (fun c =>
    PyDate.leb (claim_validity_from c) end_date &&
    PyDate.leb start_date (claim_validity_from c) &&
    is_null (claim_validity_to c) &&
    match process_stamp c with
    | Some t => PyDate.leb t end_date
    | None => false
    end &&
    touches_product product s c) (Claim_objects s).

Definition get_contribution_queryset {num} (product : Product)
    (start_date end_date : date) (Premium_objects : list (Premium num))
  : list (Premium num) :=
  List.filter (fun p =>
    PyDate.leb (effective_date (policy p)) end_date &&
    PyDate.leb start_date (expiry_date (policy p)) &&
    is_null (premium_validity_to p) &&
    (policy_product (policy p) =? product_id product)) Premium_objects.

Definition get_product_queryset (end_date : date) (location_id : option Z)
    (Product_objects : list Product) : list Product :=
  let queryset := List.filter (fun p =>
    is_null (product_validity_to p) &&
    PyDate.leb (date_from p) end_date &&
    match date_to p with
    | Some t => PyDate.leb end_date t
    | None => true
    end) Product_objects in
  match location_id with
  | Some l =>
      List.filter (fun p => opt_Z_eqb (product_location_id p) (Some l))
        queryset
  | None => List.filter (fun p => is_null (product_location_id p)) queryset
  end.

(** ** Allocated contribution: [get_allocated_premium]

    [start_date] and [end_date] are handed over as dates: the
    [isinstance(..., datetime.datetime)] branches only drop a time of day. *)

Section AllocatedPremium.
Context {num : Type} `{PyNum num}.

Definition allocation_diff (premium : Premium num)
    (start_date end_date : date) : Z :=
  let allocation_start :=
    PyDate.max (effective_date (policy premium)) start_date in
  let allocation_stop :=
    PyDate.min end_date (expiry_date (policy premium)) in
  sub_days allocation_stop allocation_start + 1.

Definition policy_duration (premium : Premium num) : Z :=
  sub_days (expiry_date (policy premium)) (effective_date (policy premium))
  + 1.

(** The body of the [for] loop, with the accumulator made explicit.
    Dividing by a duration of 0 raises: [ZeroDivisionError] for a float,
    [decimal.DivisionByZero] or [decimal.InvalidOperation] for a [Decimal],
    all of them arithmetic errors. *)
Fixpoint allocate (premiums : list (Premium num))
    (start_date end_date : date) (allocated_premiums : num) : result num :=
  match premiums with
  | [] => Ok allocated_premiums
  | premium :: rest =>
      let allocation_diff := allocation_diff premium start_date end_date in
      let policy_duration := policy_duration premium in
      if policy_duration =? 0 then
        Raise (ArithmeticError "division by zero")
      else
        allocate rest start_date end_date
          (add allocated_premiums
             (div_int (mul_int (amount premium) allocation_diff)
                policy_duration))
  end.

Definition get_allocated_premium (premiums : list (Premium num))
    (start_date end_date : date) : result num :=
  allocate premiums start_date end_date (of_int 0).

End AllocatedPremium.

(** ** Claim finalization: [update_claim_valuated] *)

(** SQL [SUM]: nulls are skipped; the sum of no value is null. *)
Definition sql_sum (values : list (option Z)) : option Z :=
  fold_left (fun acc v =>
    match acc, v with
    | None, _ => v
    | Some a, None => Some a
    | Some a, Some b => Some (a + b)
    end) values None.

Definition Coalesce (v : option Z) (d : Z) : Z :=
  match v with Some x => x | None => d end.

(** [Model.objects.filter(claim=OuterRef('pk')).filter(legacy_id__isnull=True)
    .values('claim_id').annotate(s=Sum('price_valuated')).values('s')
    .order_by()[:1]]: the one group of the rows of claim [pk], or no row. *)
Definition price_valuated_subquery (objects : list ClaimDetail) (pk : Z)
  : option Z :=
  match List.filter (fun d => (claim_id d =? pk) && is_null (legacy_id d))
          objects with
  | [] => None
  | group => sql_sum (map price_valuated group)
  end.

(** [claims] is the query set to update, a selection of rows of the claim
    table; [claim_based_value_subquery] is an expression over the claim
    (the default [0] is [fun _ => Some 0]). *)
Definition update_claim_valuated (claims : Claim -> bool)
    (batch_run : BatchRun) (claim_based_value_subquery : Claim -> option Z)
    (s : ClaimStore) : ClaimStore :=
  let service_subquery := price_valuated_subquery (ClaimItem_objects s) in
  let item_subquery := price_valuated_subquery (ClaimService_objects s) in
  let update (c : Claim) : Claim :=
    mkClaim (claim_pk c) STATUS_VALUATED (Some (run_id batch_run))
      (Some (Coalesce (service_subquery (claim_pk c)) 0
             + Coalesce (item_subquery (claim_pk c)) 0
             + Coalesce (claim_based_value_subquery c) 0))
      (claim_validity_from c) (claim_validity_to c) (process_stamp c) in
  mkClaimStore
    (map (fun c => if claims c then update c else c) (Claim_objects s))
    (ClaimItem_objects s) (ClaimService_objects s).

(** ** The world of a batch run *)

Inductive Context : Type := BatchValuate | BatchPayment.

(** One call of a calculation rule: the context and the (product, plan,
    window) it is called for. *)
Record Dispatch : Type := mkDispatch {
  d_context : Context;
  d_product : Z;
  d_plan : Z;
  d_start : date;
  d_end : date
}.

(** The history of a run: a rule is called, and it returns. *)
Inductive Event : Type :=
| Called (d : Dispatch)
| Completed (d : Dispatch).

Global Instance Context_eq_dec : EqDecision Context.
Proof. solve_decision. Defined.
Global Instance Dispatch_eq_dec : EqDecision Dispatch.
Proof. solve_decision. Defined.
Global Instance Event_eq_dec : EqDecision Event.
Proof. solve_decision. Defined.

Record World (num : Type) : Type := mkWorld {
  BatchRun_objects : list BatchRun;
  BatchRun_sequence : Z;
  now : Z;
  Product_objects : list Product;
  PaymentPlan_objects : list PaymentPlan;
  Premium_objects : list (Premium num);
  claim_store : ClaimStore;
  events : list Event
}.
Arguments mkWorld {num} _ _ _ _ _ _ _ _.
Arguments BatchRun_objects {num} _.
Arguments BatchRun_sequence {num} _.
Arguments now {num} _.
Arguments Product_objects {num} _.
Arguments PaymentPlan_objects {num} _.
Arguments Premium_objects {num} _.
Arguments claim_store {num} _.
Arguments events {num} _.

(** The six entries [update_work_data] writes into [work_data]; the item,
    service and claim query sets stay lazy. *)
Record Window (num : Type) : Type := mkWindow {
  start_date : date;
  items : ClaimStore -> list ClaimDetail;
  services : ClaimStore -> list ClaimDetail;
  contributions : list (Premium num);
  claims : ClaimStore -> list Claim;
  allocated_contributions : num
}.
Arguments mkWindow {num} _ _ _ _ _ _.

Record WorkData (num : Type) : Type := mkWorkData {
  created_run : BatchRun;
  wd_product : Product;
  wd_end_date : date;
  payment_plans : list PaymentPlan;
  window : option (Window num)
}.
Arguments mkWorkData {num} _ _ _ _ _.
Arguments created_run {num} _.
Arguments wd_product {num} _.
Arguments wd_end_date {num} _.
Arguments payment_plans {num} _.
Arguments window {num} _.

(** A registered calculation (the interface of [calculation.services]): it
    works on the claim tables and returns its list of results, or raises. *)
Record Calculation (num : Type) : Type := mkCalculation {
  calculate_if_active_for_object :
    PaymentPlan -> Context -> WorkData num -> Z -> option Z -> date -> date ->
    ClaimStore -> result (list (list string)) * ClaimStore
}.
Arguments mkCalculation {num} _.
Arguments calculate_if_active_for_object {num} _.

(** ** Errors reported to the caller *)

Definition ERROR_CODES (code : Z) : option string :=
  match code with
  | 1 => Some "General fault"
  | 2 => Some "Already run before"
  | _ => None
  end.

Record ProcessBatchSubmitError : Type := mkError { code : Z; msg : string }.

(** [ProcessBatchSubmitError(code, msg)]; [msg or "Unknown exception"]
    replaces a missing or empty message. *)
Definition new_ProcessBatchSubmitError (code : Z) (msg : option string)
  : ProcessBatchSubmitError :=
  mkError code
    match ERROR_CODES code with
    | Some m => m
    | None =>
        match msg with
        | None | Some "" => "Unknown exception"
        | Some m => m
        end
    end.

Definition str_error (e : ProcessBatchSubmitError) : string :=
  "ProcessBatchSubmitError " +:+ pretty (code e) +:+ ": " +:+ msg e.

(** What [process_batch] and [do_process_batch] may hand back. *)
Inductive pyvalue : Type :=
| PyNone
| PyBatchRun (r : BatchRun)
| PyList (l : list string).

(** [calendar.monthrange(year, month)], second component. *)
Definition monthrange_days (year month : Z) : result Z :=
  if negb ((1 <=? month) && (month <=? 12)) then
    Raise (ValueError ("bad month number " +:+ pretty month +:+
                       "; must be 1-12"))
  else Ok (mdays month + (if (month =? 2) && is_leap year then 1 else 0)).

(** ** The run-identity check *)

Definition nn_location_id (r : BatchRun) : Z := Coalesce (location_id r) (-1).

Definition location_key (location_id : option Z) : Z :=
  match location_id with None => -1 | Some l => l end.

(** The query both [process_batch] and [batch_run_already_executed] build. *)
Definition active_runs (year month : Z) (location_id : option Z)
    (objects : list BatchRun) : list BatchRun :=
  List.filter (fun r =>
    (run_year r =? year) && (run_month r =? month) &&
    (nn_location_id r =? location_key location_id) &&
    is_null (validity_to r)) objects.

(** [ProcessBatchService.batch_run_already_executed]: [.exists()] *)
Definition batch_run_already_executed (year month : Z)
    (location_id : option Z) (objects : list BatchRun) : bool :=
  match active_runs year month location_id objects with
  | [] => false
  | _ :: _ => true
  end.

(** ** State and exceptions *)

Section Engine.
Context {num : Type} `{PyNum num}.

(** The calculation registry, [calculation.services.get_calculation_object]. *)
Variable get_calculation_object : string -> option (Calculation num).

Definition M (A : Type) : Type := World num -> result A * World num.

Definition ret {A} (a : A) : M A := fun w => (Ok a, w).

Definition raise {A} (e : exn) : M A := fun w => (Raise e, w).

Definition bind {A B} (m : M A) (k : A -> M B) : M B :=
  fun w =>
    match m w with
    | (Ok a, w') => k a w'
    | (Raise e, w') => (Raise e, w')
    end.

Definition lift {A} (r : result A) : M A := fun w => (r, w).

Definition gets {A} (f : World num -> A) : M A := fun w => (Ok (f w), w).

Notation "'let*' x := c1 'in' c2" := (bind c1 (fun x => c2))
  (at level 10, x pattern, c1 at level 100, c2 at level 200).

(** [try: m except Exception as exc: handler(exc)], with
    [KeyboardInterrupt] and [SystemExit] raised again. *)
Definition try_except {A} (m : M A) (handler : exn -> M A) : M A :=
  fun w =>
    match m w with
    | (Ok a, w') => (Ok a, w')
    | (Raise e, w') =>
        if is_Exception e then handler e w' else (Raise e, w')
    end.

(** [@transaction.atomic]: a normal return commits; an exception that
    leaves the block rolls the tables back.  Time, the key sequence and
    the history of calls are not part of the transaction. *)
Definition rollback (w w' : World num) : World num :=
  mkWorld (BatchRun_objects w) (BatchRun_sequence w') (now w')
    (Product_objects w) (PaymentPlan_objects w) (Premium_objects w)
    (claim_store w) (events w').

Definition atomic {A} (m : M A) : M A :=
  fun w =>
    match m w with
    | (Ok a, w') => (Ok a, w')
    | (Raise e, w') => (Raise e, rollback w w')
    end.

Definition TimeUtils_now : M Z := gets now.

Definition log (e : Event) : M unit :=
  fun w =>
    (Ok tt,
     mkWorld (BatchRun_objects w) (BatchRun_sequence w) (now w)
       (Product_objects w) (PaymentPlan_objects w) (Premium_objects w)
       (claim_store w) (events w ++ [e])).

(** The world after some calls of rules: the claim tables are [s], the
    history has grown by [h], all else is as it was. *)
Definition advance (w : World num) (s : ClaimStore) (h : list Event)
  : World num :=
  mkWorld (BatchRun_objects w) (BatchRun_sequence w) (now w)
    (Product_objects w) (PaymentPlan_objects w) (Premium_objects w)
    s (events w ++ h).

(** Running a rule on the claim tables. *)
Definition on_claim_store {A}
    (f : ClaimStore -> result A * ClaimStore) : M A :=
  fun w =>
    let '(r, s) := f (claim_store w) in
    (r,
     mkWorld (BatchRun_objects w) (BatchRun_sequence w) (now w)
       (Product_objects w) (PaymentPlan_objects w) (Premium_objects w)
       s (events w)).

(** [BatchRun.objects.create(...)] *)
Definition BatchRun_objects_create (location_id : option Z)
    (run_year run_month run_date audit_user_id validity_from : Z)
  : M BatchRun :=
  fun w =>
    let r := mkBatchRun (BatchRun_sequence w) location_id run_year run_month
               run_date audit_user_id validity_from None in
    (Ok r,
     mkWorld (BatchRun_objects w ++ [r]) (BatchRun_sequence w + 1) (now w)
       (Product_objects w) (PaymentPlan_objects w) (Premium_objects w)
       (claim_store w) (events w)).

(** ** WindowDataAssembler: [update_work_data]

    [work_data] and [allocated_contribution] are dictionaries changed in
    place; both are handed back, as the source does. *)
Definition update_work_data (work_data : WorkData num) (product : Product)
    (start_date end_date : date) (allocated_contribution : gmap string num)
  : M (gmap string num * WorkData num) :=
  let* contributions := gets (fun w =>
    get_contribution_queryset product start_date end_date
      (Premium_objects w)) in
  let assemble v :=
    mkWorkData (created_run work_data) (wd_product work_data)
      (wd_end_date work_data) (payment_plans work_data)
      (Some (mkWindow start_date
               (get_items_queryset product start_date end_date)
               (get_services_queryset product start_date end_date)
               contributions
               (get_claim_queryset product start_date end_date)
               v)) in
  let start_date_str := PyDate.str start_date in
  match allocated_contribution !! start_date_str with
  | Some v => ret (allocated_contribution, assemble v)
  | None =>
      let* v :=
        lift (get_allocated_premium contributions start_date end_date) in
      ret (<[start_date_str := v]> allocated_contribution, assemble v)
  end.

(** ** CalculationDispatcher

    The registry lookup and the call, lines 238 to 246 of
    [trigger_calculation_based_on_context]. *)
Definition dispatch_calculation (context : Context)
    (payment_plan : PaymentPlan) (work_data : WorkData num) (user_id : Z)
    (location_id : option Z) (start_date end_date : date) : M unit :=
  match get_calculation_object (calculation payment_plan) with
  | Some calculation =>
      let d := mkDispatch context (product_id (wd_product work_data))
                 (plan_id payment_plan) start_date end_date in
      let* _ := log (Called d) in
      let* rcr := on_claim_store
        (calculate_if_active_for_object calculation payment_plan context
           work_data user_id location_id start_date end_date) in
      let* _ := log (Completed d) in
      match rcr with
      | [] => ret tt
      | [] :: _ => raise (IndexError "list index out of range")
      | (_ :: _) :: _ => ret tt
      end
  | None => ret tt
  end.

(** The [for payment_plan in work_data["payment_plans"]] loop. *)
Fixpoint trigger_plans (plans : list PaymentPlan) (context : Context)
    (work_data : WorkData num) (end_date : date) (product : Product)
    (location_id : option Z) (allocated_contribution : gmap string num)
    (user_id : Z) : M (gmap string num * WorkData num) :=
  match plans with
  | [] => ret (allocated_contribution, work_data)
  | payment_plan :: rest =>
      let* start_date :=
        lift (get_start_date end_date (periodicity payment_plan)) in
      match start_date with
      | Some start_date =>
          let* (allocated_contribution, work_data) :=
            update_work_data work_data product start_date end_date
              allocated_contribution in
          let* _ :=
            dispatch_calculation context payment_plan work_data user_id
              location_id start_date end_date in
          trigger_plans rest context work_data end_date product location_id
            allocated_contribution user_id
      | None =>
          trigger_plans rest context work_data end_date product location_id
            allocated_contribution user_id
      end
  end.

Definition trigger_calculation_based_on_context (context : Context)
    (work_data : WorkData num) (end_date : date) (product : Product)
    (location_id : option Z) (allocated_contribution : gmap string num)
    (user_id : Z) : M (gmap string num * WorkData num) :=
  match payment_plans work_data with
  | [] => ret (allocated_contribution, work_data)
  | plans =>
      trigger_plans plans context work_data end_date product location_id
        allocated_contribution user_id
  end.

(** ** BatchRunOrchestrator *)

(** The body of [for product in products]. *)
Definition process_product (created_run : BatchRun) (end_date : date)
    (location_id : option Z) (audit_user_id : Z) (product : Product)
  : M unit :=
  let* plans := gets (fun w =>
    get_payment_plan_queryset product end_date (PaymentPlan_objects w)) in
  let work_data := mkWorkData created_run product end_date plans None in
  let allocated_contribution : gmap string num := ∅ in
  let* (allocated_contribution, work_data) :=
    trigger_calculation_based_on_context BatchValuate work_data end_date
      product location_id allocated_contribution audit_user_id in
  let* _ :=
    trigger_calculation_based_on_context BatchPayment work_data end_date
      product location_id allocated_contribution audit_user_id in
  ret tt.

Fixpoint process_products (products : list Product) (created_run : BatchRun)
    (end_date : date) (location_id : option Z) (audit_user_id : Z)
  : M unit :=
  match products with
  | [] => ret tt
  | product :: rest =>
      let* _ :=
        process_product created_run end_date location_id audit_user_id
          product in
      process_products rest created_run end_date location_id audit_user_id
  end.

Definition do_process_batch (audit_user_id : Z) (location_id : option Z)
    (end_date : date) : M BatchRun :=
  let period := month end_date in
  let year := year end_date in
  let* run_date := TimeUtils_now in
  let* validity_from := TimeUtils_now in
  let* created_run :=
    BatchRun_objects_create location_id year period run_date audit_user_id
      validity_from in
  let* products := gets (fun w =>
    get_product_queryset end_date location_id (Product_objects w)) in
  let* _ :=
    process_products products created_run end_date location_id
      audit_user_id in
  ret created_run.

(** [if location_id == -1: location_id = None] *)
Definition normalize_location (location_id : option Z) : option Z :=
  match location_id with
  | Some l => if l =? -1 then None else Some l
  | None => None
  end.

(** The value of [do_process_batch] is dropped: a run that succeeds falls
    off the end of [process_batch]. *)
Definition process_batch (audit_user_id : Z) (location_id : option Z)
    (period year : Z) : M pyvalue :=
  atomic (
    let location_id := normalize_location location_id in
    let* already_run_batch := gets (fun w =>
      head (map run_id
              (active_runs year period location_id (BatchRun_objects w)))) in
    match already_run_batch with
    | Some _ =>
        ret (PyList [str_error (new_ProcessBatchSubmitError 2 None)])
    | None =>
        let* days_in_month := lift (monthrange_days year period) in
        let* end_date := lift (PyDate.new year period days_in_month) in
        try_except
          (let* _ := do_process_batch audit_user_id location_id end_date in
           ret PyNone)
          (fun exc =>
             ret (PyList [str_error
                            (new_ProcessBatchSubmitError (-1)
                               (Some (str_exn exc)))]))
    end).

(** [ProcessBatchService.submit] *)
Record ProcessBatchSubmit : Type := mkSubmit {
  submit_location_id : option Z;
  submit_year : Z;
  submit_month : Z
}.

Definition submit (user_id : Z) (s : ProcessBatchSubmit) : M pyvalue :=
  process_batch user_id (submit_location_id s) (submit_month s)
    (submit_year s).

End Engine.

(** ** Report data: [ReportDataService.fetch] and the aggregation *)

Module Report.

(** A cell of a result set or of a report row. *)
Inductive value : Type :=
| VNone
| VStr (s : string)
| VNum (z : Z)
| VDate (d : date).

Global Instance value_eq_dec : EqDecision value.
Proof. solve_decision. Defined.

Global Instance date_countable : Countable date.
Proof.
  refine (inj_countable' (fun d => (year d, month d, day d))
            (fun t => mkdate t.1.1 t.1.2 t.2) _).
  by intros [].
Defined.

Global Instance value_countable : Countable value.
Proof.
  refine (inj_countable'
    (fun v => match v with
              | VNone => inl tt
              | VStr s => inr (inl s)
              | VNum z => inr (inr (inl z))
              | VDate d => inr (inr (inr d))
              end)
    (fun x => match x with
              | inl _ => VNone
              | inr (inl s) => VStr s
              | inr (inr (inl z)) => VNum z
              | inr (inr (inr d)) => VDate d
              end) _).
  by intros [].
Defined.

(** A report row is a Python [dict]; a result set is a list of tuples. *)
Abbreviation row := (gmap string value).
Abbreviation tuple := (list value).

(** What a cursor holds after [execute]: the result sets of the stored
    procedure, in order; [None] is a set on which [fetchall] raises. *)
Abbreviation cursor := (list (option (list tuple))).

(** [sums] is what [groupby(...)[...].sum().to_dict()] gives: a dictionary
    from group to sum for one column, a dictionary of those for several. *)
Inductive sums : Type :=
| Series (m : gmap (list value) Z)
| Frame (m : gmap string (gmap (list value) Z)).

Definition getitem (r : row) (k : string) : result value :=
  match r !! k with
  | Some v => Ok v
  | None => Raise (KeyError k)
  end.

(** [row[i]] *)
Definition index (r : tuple) (i : nat) : result value :=
  match r !! i with
  | Some v => Ok v
  | None => Raise (IndexError "tuple index out of range")
  end.

(** [row[i].strftime("%Y-%m-%d") if row[i] is not None else None] *)
Definition strftime_or_none (r : tuple) (i : nat) : result value :=
  rbind (index r i) (fun v =>
    match v with
    | VNone => Ok VNone
    | VDate d => Ok (VStr (PyDate.str d))
    | _ => Raise (TypeError "object has no attribute 'strftime'")
    end).

(** The [while next] loop: the last result set that could be fetched. *)
Definition last_result_set (cur : cursor) : option (list tuple) :=
  fold_left (fun data set =>
    match set with
    | Some rows => Some rows
    | None => data
    end) cur None.

(** [[f(row) for row in data]], stopping at the first exception. *)
Fixpoint comprehension {A B} (f : A -> result B) (data : list A)
  : result (list B) :=
  match data with
  | [] => Ok []
  | x :: rest =>
      rbind (f x) (fun y =>
      rbind (comprehension f rest) (fun ys => Ok (y :: ys)))
  end.

(** A dictionary display [{k1: e1, ..., kn: en}], evaluated left to
    right. *)
Fixpoint dict_of (entries : list (string * result value)) (acc : row)
  : result row :=
  match entries with
  | [] => Ok acc
  | (k, e) :: rest => rbind e (fun v => dict_of rest (<[k := v]> acc))
  end.

Definition with_claims_row (r : tuple) : result row :=
  dict_of
    [("ClaimCode", index r 0); ("DateClaimed", strftime_or_none r 1);
     ("OtherNamesAdmin", index r 2); ("LastNameAdmin", index r 3);
     ("DateFrom", strftime_or_none r 4); ("DateTo", strftime_or_none r 5);
     ("CHFID", index r 6); ("OtherNames", index r 7);
     ("LastName", index r 8); ("HFID", index r 9); ("HFCode", index r 10);
     ("HFName", index r 11); ("AccCode", index r 12); ("ProdID", index r 13);
     ("ProductCode", index r 14); ("ProductName", index r 15);
     ("PriceAsked", index r 16); ("PriceApproved", index r 17);
     ("PriceAdjusted", index r 18); ("RemuneratedAmount", index r 19);
     ("DistrictID", index r 20); ("DistrictName", index r 21);
     ("RegionID", index r 22); ("RegionName", index r 23)]%nat ∅.

Definition summary_row (r : tuple) : result row :=
  dict_of
    [("RegionName", index r 0); ("DistrictName", index r 1);
     ("HFCode", index r 2); ("HFName", index r 3);
     ("ProductCode", index r 4); ("ProductName", index r 5);
     ("RemuneratedAmount", index r 6); ("AccCodeRemuneration", index r 7);
     ("AccCode", index r 8)]%nat ∅.

(** [prms.get(k, d)] *)
Definition prms_get (prms : gmap string string) (k : string) (d : value)
  : value :=
  match prms !! k with
  | Some s => VStr s
  | None => d
  end.

Definition procedure_arguments (prms : gmap string string) : tuple :=
  [prms_get prms "locationId" (VNum 0); prms_get prms "prodId" (VNum 0);
   prms_get prms "runId" (VNum 0); prms_get prms "hfId" (VNum 0);
   prms_get prms "hfLevel" (VStr ""); prms_get prms "dateFrom" (VStr "");
   prms_get prms "dateTo" (VStr "")].

(** *** Group sums (pandas) *)

(** The group of a row: rows with a null in a grouping column belong to no
    group. *)
Definition group_key (by_ : list string) (r : row) : option (list value) :=
  mapM (fun c =>
    match r !! c with
    | None | Some VNone => None
    | Some v => Some v
    end) by_.

Definition add_to_group (k : list value) (z : Z) (m : gmap (list value) Z)
  : gmap (list value) Z :=
  <[k := default 0 (m !! k) + z]> m.

(** [df.groupby(by)[col].sum().to_dict()]; null cells are skipped. *)
Fixpoint groupby_sum (by_ : list string) (col : string) (df : list row)
  : result (gmap (list value) Z) :=
  match df with
  | [] => Ok ∅
  | r :: rest =>
      rbind (groupby_sum by_ col rest) (fun m =>
        match group_key by_ r with
        | None => Ok m
        | Some k =>
            match r !! col with
            | Some (VNum z) => Ok (add_to_group k z m)
            | None | Some VNone => Ok (add_to_group k 0 m)
            | Some _ => Raise (TypeError "unsupported operand type(s) for +")
            end
        end)
  end.

Definition has_column (df : list row) (c : string) : bool :=
  existsb (fun r => negb (is_null (r !! c))) df.

Definition money_columns : list string :=
  ["PriceAsked"; "PriceApproved"; "PriceAdjusted"; "RemuneratedAmount"].

Fixpoint groupby_sum_columns (by_ : list string) (cols : list string)
    (df : list row) : result (gmap string (gmap (list value) Z)) :=
  match cols with
  | [] => Ok ∅
  | c :: rest =>
      if negb (has_column df c) then Raise (KeyError c)
      else
        rbind (groupby_sum by_ c df) (fun m =>
        rbind (groupby_sum_columns by_ rest df) (fun f =>
        Ok (<[c := m]> f)))
  end.

Definition groupby_sums (by_ : list string) (df : list row)
    (show_claims : bool) : result sums :=
  match List.find (fun c => negb (has_column df c)) by_ with
  | Some c => Raise (KeyError c)
  | None =>
      if show_claims then
        rmap Frame (groupby_sum_columns by_ money_columns df)
      else if negb (has_column df "RemuneratedAmount") then
        Raise (KeyError "RemuneratedAmount")
      else rmap Series (groupby_sum by_ "RemuneratedAmount" df)
  end.

Definition regions_sum (df : list row) (show_claims : bool) : result sums :=
  groupby_sums ["RegionName"] df show_claims.

Definition districts_sum (df : list row) (show_claims : bool) : result sums :=
  groupby_sums ["RegionName"; "DistrictName"] df show_claims.

Definition health_facilities_sum (df : list row) (show_claims : bool)
  : result sums :=
  groupby_sums ["RegionName"; "DistrictName"; "HFCode"] df show_claims.

Definition products_sum (df : list row) (show_claims : bool) : result sums :=
  groupby_sums ["RegionName"; "DistrictName"; "ProductCode"] df show_claims.

(** [s[col][key]] and [s[key]]; the key is evaluated after [s[col]]. *)
Definition group_at (m : gmap (list value) Z) (key : list (result value))
  : result value :=
  rbind (comprehension (fun v => v) key) (fun k =>
    match m !! k with
    | Some z => Ok (VNum z)
    | None => Raise (KeyError "group")
    end).

Definition frame_at (s : sums) (col : string) (key : list (result value))
  : result value :=
  match s with
  | Frame f =>
      match f !! col with
      | Some m => group_at m key
      | None => Raise (KeyError col)
      end
  | Series _ => Raise (KeyError col)
  end.

Definition series_at (s : sums) (key : list (result value)) : result value :=
  match s with
  | Series m => group_at m key
  | Frame _ =>
      rbind (comprehension (fun v => v) key) (fun _ =>
        Raise (KeyError "group"))
  end.

Definition region_key (r : row) : list (result value) :=
  [getitem r "RegionName"].

Definition district_key (r : row) : list (result value) :=
  [getitem r "RegionName"; getitem r "DistrictName"].

Definition third_key (code : string) (r : row) : list (result value) :=
  [getitem r "RegionName"; getitem r "DistrictName"; getitem r code].

Definition region_and_district_sums (r : row) (regions_sum districts_sum : sums)
    (show_claims : bool) : result row :=
  if show_claims then
    dict_of
      [("SUMR_PriceAsked", frame_at regions_sum "PriceAsked" (region_key r));
       ("SUMR_PriceApproved",
        frame_at regions_sum "PriceApproved" (region_key r));
       ("SUMR_PriceAdjusted",
        frame_at regions_sum "PriceAdjusted" (region_key r));
       ("SUMR_RemuneratedAmount",
        frame_at regions_sum "RemuneratedAmount" (region_key r));
       ("SUMD_PriceAsked",
        frame_at districts_sum "PriceAsked" (district_key r));
       ("SUMD_PriceApproved",
        frame_at districts_sum "PriceApproved" (district_key r));
       ("SUMD_PriceAdjusted",
        frame_at districts_sum "PriceAdjusted" (district_key r));
       ("SUMD_RemuneratedAmount",
        frame_at districts_sum "RemuneratedAmount" (district_key r))] ∅
  else
    dict_of
      [("SUMR_RemuneratedAmount", series_at regions_sum (region_key r));
       ("SUMD_RemuneratedAmount", series_at districts_sum (district_key r))]
      ∅.

(** *** [sorted(data, key=...)] *)

Definition value_lt (a b : value) : result bool :=
  match a, b with
  | VStr x, VStr y => Ok (String.ltb x y)
  | VNum x, VNum y => Ok (x <? y)
  | VDate x, VDate y => Ok (PyDate.ltb x y)
  | _, _ => Raise (TypeError "'<' not supported between instances")
  end.

(** Tuples compare at the first position where they differ. *)
Fixpoint tuple_lt (a b : list value) : result bool :=
  match a, b with
  | x :: a', y :: b' =>
      if decide (x = y) then tuple_lt a' b' else value_lt x y
  | [], _ :: _ => Ok true
  | _, [] => Ok false
  end.

(** Stable insertion: [x] goes before the first element that is not
    smaller.  With keys that cannot be compared, which comparison raises
    first is the sorting algorithm's business; the order of the result is
    not. *)
Fixpoint insert_by_key {A} (x : list value * A) (l : list (list value * A))
  : result (list (list value * A)) :=
  match l with
  | [] => Ok [x]
  | y :: l' =>
      rbind (tuple_lt y.1 x.1) (fun lt =>
        if (lt : bool) then rmap (cons y) (insert_by_key x l')
        else Ok (x :: y :: l'))
  end.

Fixpoint sort_by_key {A} (l : list (list value * A))
  : result (list (list value * A)) :=
  match l with
  | [] => Ok []
  | x :: l' => rbind (sort_by_key l') (insert_by_key x)
  end.

(** The keys are computed once, before any comparison. *)
Definition sorted (data : list row) (key : row -> list (result value))
  : result (list row) :=
  rbind (comprehension (fun r =>
           rmap (fun k => (k, r)) (comprehension (fun v => v) (key r)))
           data) (fun decorated =>
  rmap (map snd) (sort_by_key decorated)).

(** *** Enrichment *)

Definition third_level_sums (prefix code : string) (r : row) (third : sums)
    (show_claims : bool) : list (string * result value) :=
  if show_claims then
    [(prefix +:+ "PriceAsked", frame_at third "PriceAsked" (third_key code r));
     (prefix +:+ "PriceApproved",
      frame_at third "PriceApproved" (third_key code r));
     (prefix +:+ "PriceAdjusted",
      frame_at third "PriceAdjusted" (third_key code r));
     (prefix +:+ "RemuneratedAmount",
      frame_at third "RemuneratedAmount" (third_key code r))]
  else
    [(prefix +:+ "RemuneratedAmount", series_at third (third_key code r))].

(** [{**row, **region_and_district_sums(...), 'SUM..': ...}] *)
Definition enrich (prefix code : string)
    (regions_sum districts_sum third : sums)
    (show_claims : bool) (r : row) : result row :=
  rbind (region_and_district_sums r regions_sum districts_sum show_claims)
    (fun s => dict_of (third_level_sums prefix code r third show_claims)
                (s ∪ r)).

Definition add_sums_by_hf (data : list row)
    (regions_sum districts_sum health_facilities_sum : sums)
    (show_claims : bool) : result (list row) :=
  rbind (comprehension
           (enrich "SUMHF_" "HFCode" regions_sum districts_sum
              health_facilities_sum show_claims) data) (fun data =>
  sorted data (third_key "HFCode")).

Definition add_sums_by_prod (data : list row)
    (regions_sum districts_sum products_sum : sums) (show_claims : bool)
  : result (list row) :=
  rbind (comprehension
           (enrich "SUMP_" "ProductCode" regions_sum districts_sum
              products_sum show_claims) data) (fun data =>
  sorted data (third_key "ProductCode")).

Section Fetch.
(** The translation of a message and the two stored procedures of the
    reporting database are outside the module. *)
Variable gettext : string -> string.
Variable uspSSRSProcessBatchWithClaim : tuple -> result cursor.
Variable uspSSRSProcessBatch : tuple -> result cursor.

Definition fetchall_last (cur : result cursor) : result (list tuple) :=
  rbind cur (fun cur =>
    match last_result_set cur with
    | Some data => Ok data
    | None => Raise (TypeError "'NoneType' object is not iterable")
    end).

Definition process_batch_report_data_with_claims
    (prms : gmap string string) : result (list row) :=
  rbind (fetchall_last
           (uspSSRSProcessBatchWithClaim (procedure_arguments prms)))
    (comprehension with_claims_row).

Definition process_batch_report_data (prms : gmap string string)
  : result (list row) :=
  rbind (fetchall_last (uspSSRSProcessBatch (procedure_arguments prms)))
    (comprehension summary_row).

Definition nodata : exn := ValueError (gettext "claim_batch.reports.nodata").

(** [prms.get("showClaims", "false") == "true"] *)
Definition show_claims_of (prms : gmap string string) : bool :=
  bool_decide (default "false" (prms !! "showClaims") = "true").

(** The row list the report query returns for [prms]. *)
Definition report_rows (prms : gmap string string) : result (list tuple) :=
  fetchall_last
    (if show_claims_of prms
     then uspSSRSProcessBatchWithClaim (procedure_arguments prms)
     else uspSSRSProcessBatch (procedure_arguments prms)).

Definition fetch (prms : gmap string string) : result (list row) :=
  let show_claims := show_claims_of prms in
  let group := default "H" (prms !! "group") in
  rbind (if show_claims then process_batch_report_data_with_claims prms
         else process_batch_report_data prms) (fun data =>
  match data with
  | [] => Raise nodata
  | _ :: _ =>
      let df := data in
      if bool_decide (group = "H") then
        rbind (regions_sum df show_claims) (fun rs =>
        rbind (districts_sum df show_claims) (fun ds =>
        rbind (health_facilities_sum df show_claims) (fun hs =>
        add_sums_by_hf data rs ds hs show_claims)))
      else
        rbind (regions_sum df show_claims) (fun rs =>
        rbind (districts_sum df show_claims) (fun ds =>
        rbind (products_sum df show_claims) (fun ps =>
        add_sums_by_prod data rs ds ps show_claims)))
  end).

End Fetch.

(** *** Rows as the report query returns them

    Names of regions, districts, facilities and products are strings,
    amounts are numbers, dates are dates or null. *)








Definition row_of (show_claims : bool) (t : tuple) : result row :=
  if show_claims then with_claims_row t else summary_row t.

(** The fields the aggregation adds to a row. *)
Definition summed_columns (show_claims : bool) : list string :=
  if show_claims then money_columns else ["RemuneratedAmount"].

Definition added_keys (prefix : string) (show_claims : bool) : list string :=
  map (String.append "SUMR_") (summed_columns show_claims) ++
  map (String.append "SUMD_") (summed_columns show_claims) ++
  map (String.append prefix) (summed_columns show_claims).





(** [s[col][key]] or [s[key]], as [show_claims] has it. *)
Definition sum_at (show_claims : bool) (s : sums) (col : string)
    (key : list (result value)) : result value :=
  if show_claims then frame_at s col key else series_at s key.



Definition prefix_of_group (prms : gmap string string) : string :=
  if bool_decide (default "H" (prms !! "group") = "H") then "SUMHF_"
  else "SUMP_".

End Report.

(** ** The specification's own wording, to compare the code with *)

Module Spec.

(** Section 4.1: the table of window starts. *)
Definition first_day (y m : Z) : date := mkdate y m 1.

Definition resolve (end_date : date) (periodicity : Z) : option date :=
  let y := year end_date in
  let m := month end_date in
  if periodicity =? 1 then Some (first_day y m)
  else if periodicity =? 2 then
    if m mod 2 =? 0 then Some (first_day y (m - 1)) else None
  else if periodicity =? 3 then
    if m mod 3 =? 0 then Some (first_day y (m - 2)) else None
  else if periodicity =? 4 then
    if m mod 4 =? 0 then Some (first_day y (m - 4)) else None
  else if periodicity =? 6 then
    if m mod 6 =? 0 then Some (first_day y (m - 5)) else None
  else if periodicity =? 12 then
    if m =? 12 then Some (first_day y 1) else None
  else None.

(** Section 4.2: days are counted, both ends included. *)
Definition days_of (first last : date) : list Z :=
  seqZ (toordinal first) (toordinal last - toordinal first + 1).

Definition covered_by (p : Policy) (day : Z) : Prop :=
  toordinal (effective_date p) <= day <= toordinal (expiry_date p).

Global Instance covered_by_dec p day : Decision (covered_by p day).
Proof. unfold covered_by. apply _. Defined.

(** The days of the window that the policy covers. *)
Definition overlap_days (start_date end_date : date) (p : Policy) : Z :=
  Z.of_nat (length (filter (covered_by p) (days_of start_date end_date))).

Definition policy_total_days (p : Policy) : Z :=
  Z.of_nat (length (days_of (effective_date p) (expiry_date p))).

Definition allocated_contribution {num} `{PyNum num}
    (premiums : list (Premium num)) (start_date end_date : date) : num :=
  fold_left (fun total premium =>
    add total
      (div_int
         (mul_int (amount premium)
            (overlap_days start_date end_date (policy premium)))
         (policy_total_days (policy premium))))
    premiums (of_int 0).

(** The contributions of a window: the policy overlaps it, which is the
    filter of [get_contribution_queryset], and does not end before it
    starts. *)
Definition in_window {num} (start_date end_date : date) (p : Premium num)
  : Prop :=
  valid (effective_date (policy p)) /\ valid (expiry_date (policy p)) /\
  PyDate.leb (effective_date (policy p)) end_date = true /\
  PyDate.leb start_date (expiry_date (policy p)) = true /\
  PyDate.leb (effective_date (policy p)) (expiry_date (policy p)) = true.

(** Section 4.4, step 6: the items and services of a claim, and what they
    add up to.  Rows with a [legacy_id] are archived copies of earlier
    versions of a row, not items of the claim. *)
Definition details_of (objects : list ClaimDetail) (c : Claim)
  : list ClaimDetail :=
  List.filter (fun d => (claim_id d =? claim_pk c) && is_null (legacy_id d))
    objects.

Definition carries_price (d : ClaimDetail) : Prop :=
  price_valuated d <> None.

Definition fully_valuated (s : ClaimStore) (c : Claim) : Prop :=
  Forall carries_price (details_of (ClaimItem_objects s) c) /\
  Forall carries_price (details_of (ClaimService_objects s) c).

Fixpoint total_price (details : list ClaimDetail) : Z :=
  match details with
  | [] => 0
  | d :: rest => Coalesce (price_valuated d) 0 + total_price rest
  end.

(** Section 3: at most one active run for a (year, month, location). *)
Definition one_active_run_per_key (objects : list BatchRun) : Prop :=
  forall (year month : Z) (location_id : option Z),
    (length (active_runs year month location_id objects) <= 1)%nat.

(** Section 4.3 as worded: a plan gets its valuation and its payment
    before the next plan is looked at. *)
Definition plan_by_plan (product : Z) (window : PaymentPlan -> date * date)
    (plans : list PaymentPlan) : list Event :=
  flat_map (fun plan =>
    let d c := mkDispatch c product (plan_id plan) (window plan).1
                 (window plan).2 in
    [Called (d BatchValuate); Completed (d BatchValuate);
     Called (d BatchPayment); Completed (d BatchPayment)]) plans.

(** What holds of a history: a payment is called only after the valuation
    for the same product, plan and window has returned. *)
Definition valuate_before_payment (history : list Event) : Prop :=
  forall (i : nat) (d : Dispatch),
    history !! i = Some (Called d) -> d_context d = BatchPayment ->
    exists j : nat,
      (j < i)%nat /\
      history !! j =
        Some (Completed (mkDispatch BatchValuate (d_product d) (d_plan d)
                           (d_start d) (d_end d))).

End Spec.

(** ** The history a run leaves, in closed form *)

Section History.
Context {num : Type}.
Variable get_calculation_object : string -> option (Calculation num).

(** The events of one plan in one pass: none unless its period resolves
    and its calculation is registered. *)
Definition plan_events (context : Context) (product : Z) (end_date : date)
    (plan : PaymentPlan) : list Event :=
  match get_start_date end_date (periodicity plan),
        get_calculation_object (calculation plan) with
  | Ok (Some start_date), Some _ =>
      let d := mkDispatch context product (plan_id plan) start_date
                 end_date in
      [Called d; Completed d]
  | _, _ => []
  end.

(** The events of one call of the dispatcher. *)
Definition dispatched (context : Context) (plan : PaymentPlan)
    (wd : WorkData num) (sd ed : date) : list Event :=
  match get_calculation_object (calculation plan) with
  | Some _ =>
      let d := mkDispatch context (product_id (wd_product wd))
                 (plan_id plan) sd ed in
      [Called d; Completed d]
  | None => []
  end.

(** The run that [do_process_batch] creates. *)
Definition created_by (audit_user_id : Z) (location_id : option Z)
    (end_date : date) (w : World num) : BatchRun :=
  mkBatchRun (BatchRun_sequence w) location_id (year end_date)
    (month end_date) (now w) audit_user_id (now w) None.

Definition pass_events (context : Context) (product : Z) (end_date : date)
    (plans : list PaymentPlan) : list Event :=
  flat_map (plan_events context product end_date) plans.

(** One product: the valuation pass over all its plans, then the payment
    pass over all its plans. *)
Definition product_events (end_date : date)
    (PaymentPlan_objects : list PaymentPlan) (product : Product)
  : list Event :=
  let plans :=
    get_payment_plan_queryset product end_date PaymentPlan_objects in
  pass_events BatchValuate (product_id product) end_date plans ++
  pass_events BatchPayment (product_id product) end_date plans.

Definition run_events (end_date : date) (location_id : option Z)
    (Product_objects : list Product)
    (PaymentPlan_objects : list PaymentPlan) : list Event :=
  flat_map (product_events end_date PaymentPlan_objects)
    (get_product_queryset end_date location_id Product_objects).

End History.

(** ** Report periods: [get_period] *)

(** What [period_id] holds: an [int], the [float] of a true division, or the
    string of the yearly branch. *)
Inductive period_id : Type :=
| IdInt (n : Z)
| IdFloat (q : Qc)
| IdStr (s : string).

(** [a / b] on integers.  The branches of [get_period] divide a month by 3
    or by 6 only when it is a multiple of it, where the float is the
    quotient itself. *)
Definition true_div (a : Z) (b : positive) : Qc := Q2Qc (a # b).

Definition get_period (start_date end_date : date)
  : option string * option period_id :=
  if month start_date =? month end_date then
    (Some "12", Some (IdInt (month end_date)))
  else if (month start_date mod 3 =? 1) && (month end_date mod 3 =? 0) then
    (Some "4", Some (IdFloat (true_div (month end_date) 3)))
  else if (month start_date mod 6 =? 1) && (month end_date mod 6 =? 0) then
    (Some "2", Some (IdFloat (true_div (month end_date) 6)))
  else if (month start_date =? 1) && (month end_date =? 12) then
    (Some "1", Some (IdStr "12"))
  else (None, None).

(** ** Reading a date back from its string

    [update_work_data] keys its cache by [str(start_date)]; the reading
    below, the inverse of the ISO form, states that the key loses nothing
    of the date. *)

Definition digit (c : Ascii.ascii) : Z := Z.of_N (Ascii.N_of_ascii c) - 48.

Fixpoint number (s : string) (acc : Z) : Z :=
  match s with
  | EmptyString => acc
  | String c s' => number s' (10 * acc + digit c)
  end.

Definition date_of_str (s : string) : date :=
  mkdate (number (String.substring 0 4 s) 0)
    (number (String.substring 5 2 s) 0)
    (number (String.substring 8 2 s) 0).

(** ** The share of one contribution

    What the loop of [get_allocated_premium] adds for a contribution,
    [premium.amount * allocation_diff / policy_duration], on exact
    rationals. *)
Definition share (premium : Premium Qc) (start_date end_date : date) : Qc :=
  div_int (mul_int (amount premium)
             (allocation_diff premium start_date end_date))
    (policy_duration premium).

(** ** Capitation: the region and district of a location *)

(** The columns of [location.models.Location] that are read here; [parent]
    is the key of the parent location, which the database keeps pointing at
    a row. *)
Record Location : Type := mkLocation {
  loc_id : Z;
  loc_type : string;
  loc_parent : option Z
}.

(** What the lookup may raise: [Location.DoesNotExist] from [objects.get],
    [AttributeError] from [location.parent.id] on a location without
    parent. *)
Inductive location_exn : Type :=
| DoesNotExist
| AttributeError (msg : string).

Definition Location_objects_get (Location_objects : list Location) (pk : Z)
  : location_exn + Location :=
  match List.find (fun l => loc_id l =? pk) Location_objects with
  | Some l => inr l
  | None => inl DoesNotExist
  end.

Definition _get_capitation_region_and_district
    (Location_objects : list Location) (location_id : option Z)
  : location_exn + (option Z * option Z) :=
  match location_id with
  | None => inr (None, None)
  | Some l =>
      if l =? 0 then inr (None, None)
      else
        match Location_objects_get Location_objects l with
        | inl e => inl e
        | inr location =>
            if String.eqb (loc_type location) "D" then
              match loc_parent location with
              | Some parent => inr (Some parent, Some l)
              | None =>
                  inl (AttributeError
                         "'NoneType' object has no attribute 'id'")
              end
            else if String.eqb (loc_type location) "R" then
              inr (Some (loc_id location), None)
            else inr (None, None)
        end
  end.

(** ** The report view: [_report] *)

(** The templates of [claim_batch.reports], by the module that holds
    them. *)
Inductive template : Type := pbh | pbp | pbc_H | pbc_P.

Definition _report (prms : gmap string string) : string * template :=
  let show_claims :=
    bool_decide (default "false" (prms !! "showClaims") = "true") in
  let group := default "H" (prms !! "group") in
  if show_claims then
    ("claim_batch_pbc_" +:+ group,
     if bool_decide (group = "H") then pbc_H else pbc_P)
  else if bool_decide (group = "H") then ("claim_batch_pbh", pbh)
  else ("claim_batch_pbp", pbp).

(** ** What the sums of a report are measured against *)

Module ReportTotals.
Import Report.

(** The number in a cell; a null or missing cell counts for nothing. *)
Definition amount_of (col : string) (r : row) : Z :=
  match r !! col with
  | Some (VNum z) => z
  | _ => 0
  end.

(** The rows of [df] that have [k] in the columns [by_]. *)
Definition rows_of_group (by_ : list string) (k : list value)
    (df : list row) : list row :=
  List.filter (fun r => bool_decide (group_key by_ r = Some k)) df.

(** The total of column [col] over the rows of the group [k]. *)
Definition group_total (by_ : list string) (col : string) (k : list value)
    (df : list row) : Z :=
  foldr (fun r t => amount_of col r + t) 0 (rows_of_group by_ k df).

(** The cells of [r] in the columns [cols]. *)
Definition cells (r : row) (cols : list string) : list value :=
  map (fun c => default VNone (r !! c)) cols.


(** The column of the third level of a report: the facility for the group
    "H", the product for any other. *)
Definition third_column (prms : gmap string string) : string :=
  if bool_decide (default "H" (prms !! "group") = "H") then "HFCode"
  else "ProductCode".





End ReportTotals.

(** ** Sample data *)

Module Sample.

Definition march_first : date := mkdate 2020 3 1.
Definition march_last : date := mkdate 2020 3 31.

(** A policy for the year 2020, paid 366: one unit a day. *)
Definition year_premium : Premium Qc :=
  mkPremium (mkPolicy 1 (mkdate 2020 1 1) (mkdate 2020 12 31)) (Q2Qc 366)
    None.

(** A policy that ended before March. *)
Definition january_premium : Premium Qc :=
  mkPremium (mkPolicy 1 (mkdate 2020 1 1) (mkdate 2020 1 31)) (Q2Qc 31) None.

(** A policy whose expiry is five days before its start. *)
Definition inverted_premium : Premium Qc :=
  mkPremium (mkPolicy 1 (mkdate 2020 3 10) (mkdate 2020 3 5)) (Q2Qc 100) None.

(** A policy whose expiry is the day before its start. *)
Definition empty_premium : Premium Qc :=
  mkPremium (mkPolicy 1 (mkdate 2020 3 10) (mkdate 2020 3 9)) (Q2Qc 100) None.

(** The value of a result over the rationals. *)
Definition as_Q (r : result Qc) : option Q :=
  match r with
  | Ok q => Some (this q)
  | Raise _ => None
  end.

(** Claim 1 has an item valued 300 and a service valued 200; claim 2 has
    an item without a price. *)
Definition claim_1 : Claim :=
  mkClaim 1 STATUS_PROCESSED None None (mkdate 2020 3 10) None
    (Some (mkdate 2020 3 30)).

Definition claim_2 : Claim :=
  mkClaim 2 STATUS_PROCESSED None None (mkdate 2020 3 11) None
    (Some (mkdate 2020 3 30)).

Definition claim_store_0 : ClaimStore :=
  mkClaimStore [claim_1; claim_2]
    [mkClaimDetail 1 1 (Some 1) (Some 30000) None None;
     mkClaimDetail 2 2 (Some 1) None None None]
    [mkClaimDetail 1 1 (Some 1) (Some 20000) None None].

Definition run_1 : BatchRun := mkBatchRun 1 None 2020 3 1000 7 1000 None.

(** The claims of the store that are fully valuated. *)
Definition valuated_claims (c : Claim) : bool := claim_pk c =? 1.

(** One product without location, with two plans whose calculation is
    registered and one whose calculation is not. *)
Definition product_1 : Product :=
  mkProduct 1 None (mkdate 2019 1 1) None None.

Definition plan_10 : PaymentPlan :=
  mkPaymentPlan 10 1 1 "fee-for-service" (mkdate 2019 1 1) (mkdate 2050 1 1)
    false.

Definition plan_11 : PaymentPlan :=
  mkPaymentPlan 11 1 1 "fee-for-service" (mkdate 2019 1 1) (mkdate 2050 1 1)
    false.

Definition plan_12 : PaymentPlan :=
  mkPaymentPlan 12 1 1 "not-registered" (mkdate 2019 1 1) (mkdate 2050 1 1)
    false.

(** A rule that finalizes the valuated claims in the valuation context. *)
Definition fee_for_service : Calculation Qc :=
  mkCalculation (fun plan context work_data user location start_date
                     end_date s =>
    (Ok [["done"]],
     match context with
     | BatchValuate =>
         update_claim_valuated valuated_claims (created_run work_data)
           (fun _ => Some 0) s
     | BatchPayment => s
     end)).

(** A rule that fails. *)
Definition failing_rule : Calculation Qc :=
  mkCalculation (fun plan context work_data user location start_date
                     end_date s =>
    (Raise (RuleError "no price list"), s)).

Definition registry (calculation : string) : option (Calculation Qc) :=
  if String.eqb calculation "fee-for-service" then Some fee_for_service
  else if String.eqb calculation "failing" then Some failing_rule
  else None.

Definition world_0 : World Qc :=
  mkWorld [] 1 1000 [product_1] [plan_10; plan_11; plan_12] [year_premium]
    claim_store_0 [].

(** The same, with a run of March 2020 recorded. *)
Definition world_1 : World Qc :=
  mkWorld [run_1] 2 1000 [product_1] [plan_10; plan_11; plan_12]
    [year_premium] claim_store_0 [].

Definition work_data_0 : WorkData Qc :=
  mkWorkData run_1 product_1 march_last [plan_10; plan_11; plan_12] None.

(** The product with one plan, whose rule fails. *)
Definition plan_13 : PaymentPlan :=
  mkPaymentPlan 13 1 1 "failing" (mkdate 2019 1 1) (mkdate 2050 1 1) false.

Definition world_2 : World Qc :=
  mkWorld [] 1 1000 [product_1] [plan_13] [year_premium] claim_store_0 [].

Definition march_dispatch (context : Context) (plan : Z) : Dispatch :=
  mkDispatch context 1 plan march_first march_last.

(** A reporting database with one summary line. *)
Definition summary_line : list Report.value :=
  [Report.VStr "Ultha"; Report.VStr "Rapta"; Report.VStr "RAHOS001";
   Report.VStr "Rapta Hospital"; Report.VStr "BCUL0001";
   Report.VStr "Basic Cover Ultha"; Report.VNum 50000; Report.VStr "R-1";
   Report.VStr "A-1"].

Definition usp_summary (args : list Report.value)
  : result (list (option (list (list Report.value)))) :=
  Ok [None; Some [summary_line]].

Definition usp_nothing (args : list Report.value)
  : result (list (option (list (list Report.value)))) :=
  Ok [Some []].

Definition no_translation (message : string) : string := message.

End Sample.

(** ** More sample data *)

Module SampleX.

Definition january_last : date := mkdate 2020 1 31.

(** A rule that writes the claim table and is interrupted. *)
Definition interrupted_rule : Calculation Qc :=
  mkCalculation (fun plan context work_data user location start_date
                     end_date s =>
    (Raise KeyboardInterrupt,
     update_claim_valuated (fun _ => true) (created_run work_data)
       (fun _ => Some 0) s)).

(** A rule that writes the claim table and fails. *)
Definition writing_rule : Calculation Qc :=
  mkCalculation (fun plan context work_data user location start_date
                     end_date s =>
    (Raise (RuleError "no price list"),
     update_claim_valuated (fun _ => true) (created_run work_data)
       (fun _ => Some 0) s)).

Definition faulty_registry (calculation : string) : option (Calculation Qc) :=
  if String.eqb calculation "interrupted" then Some interrupted_rule
  else if String.eqb calculation "writing" then Some writing_rule
  else Sample.registry calculation.


Definition plan_16 : PaymentPlan :=
  mkPaymentPlan 16 1 1 "writing" (mkdate 2019 1 1) (mkdate 2050 1 1) false.


Definition world_5 : World Qc :=
  mkWorld [] 1 1000 [Sample.product_1] [plan_16] [Sample.year_premium]
    Sample.claim_store_0 [].

(** A quarterly plan, in a database whose only policy has no day. *)
Definition plan_15 : PaymentPlan :=
  mkPaymentPlan 15 1 3 "fee-for-service" (mkdate 2019 1 1) (mkdate 2050 1 1)
    false.

Definition world_4 : World Qc :=
  mkWorld [] 1 1000 [Sample.product_1] [plan_15] [Sample.empty_premium]
    Sample.claim_store_0 [].

(** Policies of the first quarter of 2020: the whole quarter, February
    only, and from mid-March into April. *)
Definition quarter_premium : Premium Qc :=
  mkPremium (mkPolicy 1 (mkdate 2020 1 1) (mkdate 2020 3 31)) (Q2Qc 91) None.

Definition february_premium : Premium Qc :=
  mkPremium (mkPolicy 1 (mkdate 2020 2 1) (mkdate 2020 2 29)) (Q2Qc 58) None.

Definition spring_premium : Premium Qc :=
  mkPremium (mkPolicy 1 (mkdate 2020 3 15) (mkdate 2020 4 14)) (Q2Qc 62) None.

(** Locations: a region, a district of it, a ward of the district, and a
    district without region. *)
Definition Location_objects : list Location :=
  [mkLocation 1 "R" None; mkLocation 2 "D" (Some 1);
   mkLocation 3 "W" (Some 2); mkLocation 4 "D" None].

(** Two summary lines of one region, in two districts, out of order. *)
Definition summary_lines : list (list Report.value) :=
  [[Report.VStr "Ultha"; Report.VStr "Rapta"; Report.VStr "RAHOS001";
    Report.VStr "Rapta Hospital"; Report.VStr "BCUL0001";
    Report.VStr "Basic Cover Ultha"; Report.VNum 50000; Report.VStr "R-1";
    Report.VStr "A-1"];
   [Report.VStr "Ultha"; Report.VStr "Jamu"; Report.VStr "JMHOS001";
    Report.VStr "Jamu Hospital"; Report.VStr "BCUL0001";
    Report.VStr "Basic Cover Ultha"; Report.VNum 20000; Report.VStr "R-1";
    Report.VStr "A-1"]].

Definition usp_lines (args : list Report.value)
  : result (list (option (list (list Report.value)))) :=
  Ok [None; Some summary_lines; None].

(** A procedure that leaves no result set to fetch. *)
Definition usp_silent (args : list Report.value)
  : result (list (option (list (list Report.value)))) :=
  Ok [None].



(** The claims of the March window of the product, as
    [get_claim_queryset] selects them. *)
Definition window_claims (c : Claim) : bool :=
  existsb (fun c' => claim_pk c' =? claim_pk c)
    (get_claim_queryset Sample.product_1 Sample.march_first
       Sample.march_last Sample.claim_store_0).

(** What [fetch] makes of the two lines, and the rows it builds first. *)
Definition report_data : list (gmap string Report.value) :=
  match Report.comprehension Report.summary_row summary_lines with
  | Ok data => data
  | Raise _ => []
  end.

Definition report_out : list (gmap string Report.value) :=
  match Report.fetch Sample.no_translation Sample.usp_nothing usp_lines ∅ with
  | Ok out => out
  | Raise _ => []
  end.

End SampleX.

(** * Properties *)

(** ** Facts about dates *)

Module PyDateFacts.

Lemma month_cases (m : Z) :
  1 <= m <= 12 ->
  m = 1 \/ m = 2 \/ m = 3 \/ m = 4 \/ m = 5 \/ m = 6 \/
  m = 7 \/ m = 8 \/ m = 9 \/ m = 10 \/ m = 11 \/ m = 12.
Proof. lia. Qed.

Ltac month_split H :=
  apply month_cases in H;
  repeat (destruct H as [H | H]); subst.

Lemma days_before_year_next (y : Z) :
  days_before_year (y + 1) = days_before_year y + year_length y.
Proof.
  unfold days_before_year, year_length, is_leap.
  replace (y + 1 - 1) with y by lia.
  destruct (Z.eqb_spec (y mod 4) 0), (Z.eqb_spec (y mod 100) 0),
    (Z.eqb_spec (y mod 400) 0); cbn [andb orb negb];
    Z.div_mod_to_equations; lia.
Qed.

Lemma year_length_pos (y : Z) : 365 <= year_length y.
Proof. unfold year_length. destruct (is_leap y); lia. Qed.

Lemma days_before_year_mono (y1 y2 : Z) :
  y1 <= y2 -> days_before_year y1 <= days_before_year y2.
Proof.
  intros Hle. replace y2 with (y1 + Z.of_nat (Z.to_nat (y2 - y1))) by lia.
  induction (Z.to_nat (y2 - y1)) as [|n IH].
  - replace (y1 + Z.of_nat 0) with y1 by lia. lia.
  - replace (y1 + Z.of_nat (S n)) with (y1 + Z.of_nat n + 1) by lia.
    rewrite days_before_year_next.
    pose proof (year_length_pos (y1 + Z.of_nat n)). lia.
Qed.

Lemma days_in_month_ge (y m : Z) : 1 <= m <= 12 -> 28 <= days_in_month y m.
Proof.
  intros Hm. unfold days_in_month.
  month_split Hm; destruct (is_leap y); cbn; lia.
Qed.

Lemma day_of_year_bounds (y m d : Z) :
  1 <= m <= 12 -> 1 <= d <= days_in_month y m ->
  1 <= days_before_month y m + d <= year_length y.
Proof.
  intros Hm Hd. unfold days_before_month, days_in_month, year_length in *.
  month_split Hm; destruct (is_leap y); cbn in *; lia.
Qed.

Lemma days_before_month_lt (y m1 m2 d : Z) :
  1 <= m1 -> m1 < m2 -> m2 <= 12 -> d <= days_in_month y m1 ->
  days_before_month y m1 + d <= days_before_month y m2.
Proof.
  intros H1 H12 H2 Hd. unfold days_before_month, days_in_month in *.
  assert (Hm1 : 1 <= m1 <= 12) by lia.
  assert (Hm2 : 1 <= m2 <= 12) by lia.
  month_split Hm1; month_split Hm2; try lia;
    destruct (is_leap y); cbn in *; lia.
Qed.

(** The order of dates is the order of their ordinals. *)
Lemma toordinal_lt (a b : date) :
  valid a -> valid b -> PyDate.ltb a b = true -> toordinal a < toordinal b.
Proof.
  intros (Hya & Hma & Hda) (Hyb & Hmb & Hdb) Hlt.
  unfold PyDate.ltb in Hlt. unfold toordinal.
  pose proof (day_of_year_bounds _ _ _ Hma Hda) as Ba.
  pose proof (day_of_year_bounds _ _ _ Hmb Hdb) as Bb.
  destruct (Z.ltb_spec (year a) (year b)) as [Hy | Hy].
  - pose proof (days_before_year_mono (year a + 1) (year b) ltac:(lia))
      as Hmono.
    rewrite days_before_year_next in Hmono. lia.
  - cbn [orb] in Hlt. apply andb_true_iff in Hlt as [Hy' Hlt].
    apply Z.eqb_eq in Hy'. rewrite Hy'.
    destruct (Z.ltb_spec (month a) (month b)) as [Hm | Hm].
    + pose proof (days_before_month_lt (year b) (month a) (month b) (day a)
                    ltac:(lia) ltac:(lia) ltac:(lia)) as Hn.
      rewrite Hy' in Hda. specialize (Hn ltac:(lia)). lia.
    + cbn [orb] in Hlt. apply andb_true_iff in Hlt as [Hm' Hlt].
      apply Z.eqb_eq in Hm'. apply Z.ltb_lt in Hlt. rewrite Hm'. lia.
Qed.

Lemma ltb_total (a b : date) :
  PyDate.ltb a b = false -> PyDate.ltb b a = false -> a = b.
Proof.
  unfold PyDate.ltb. destruct a as [ya ma da], b as [yb mb db]; cbn.
  intros H1 H2.
  destruct (Z.ltb_spec ya yb), (Z.ltb_spec yb ya),
    (Z.eqb_spec ya yb), (Z.eqb_spec yb ya),
    (Z.ltb_spec ma mb), (Z.ltb_spec mb ma),
    (Z.eqb_spec ma mb), (Z.eqb_spec mb ma),
    (Z.ltb_spec da db), (Z.ltb_spec db da);
    cbn in *; try discriminate; try lia; f_equal; lia.
Qed.

Lemma toordinal_ltb (a b : date) :
  valid a -> valid b -> PyDate.ltb a b = (toordinal a <? toordinal b).
Proof.
  intros Ha Hb. destruct (PyDate.ltb a b) eqn:Hab.
  - symmetry. apply Z.ltb_lt. by apply toordinal_lt.
  - symmetry. apply Z.ltb_ge. destruct (PyDate.ltb b a) eqn:Hba.
    + apply toordinal_lt in Hba; [lia | done | done].
    + rewrite (ltb_total a b Hab Hba). lia.
Qed.

Lemma toordinal_max (a b : date) :
  valid a -> valid b ->
  toordinal (PyDate.max a b) = Z.max (toordinal a) (toordinal b).
Proof.
  intros Ha Hb. unfold PyDate.max. rewrite (toordinal_ltb a b Ha Hb).
  destruct (Z.ltb_spec (toordinal a) (toordinal b)); lia.
Qed.

Lemma toordinal_min (a b : date) :
  valid a -> valid b ->
  toordinal (PyDate.min a b) = Z.min (toordinal a) (toordinal b).
Proof.
  intros Ha Hb. unfold PyDate.min. rewrite (toordinal_ltb b a Hb Ha).
  destruct (Z.ltb_spec (toordinal b) (toordinal a)); lia.
Qed.

Lemma toordinal_leb (a b : date) :
  valid a -> valid b -> PyDate.leb a b = true -> toordinal a <= toordinal b.
Proof.
  intros Ha Hb. unfold PyDate.leb. rewrite (toordinal_ltb b a Hb Ha).
  destruct (Z.ltb_spec (toordinal b) (toordinal a)); cbn; [done | lia].
Qed.

Lemma validb_valid (d : date) : validb d = true <-> valid d.
Proof.
  unfold validb, valid. rewrite !andb_true_iff, !Z.leb_le. tauto.
Qed.

Lemma new_valid (y m d : Z) :
  valid (mkdate y m d) -> PyDate.new y m d = Ok (mkdate y m d).
Proof.
  unfold valid, PyDate.new, MINYEAR, MAXYEAR. cbn.
  intros (Hy & Hm & Hd).
  repeat match goal with
         | |- context [?a <=? ?b] => destruct (Z.leb_spec a b); try lia
         end.
  reflexivity.
Qed.

Lemma new_bad_month (y m d : Z) :
  MINYEAR <= y <= MAXYEAR -> ~ 1 <= m <= 12 ->
  PyDate.new y m d = Raise (ValueError "month must be in 1..12").
Proof.
  unfold PyDate.new, MINYEAR, MAXYEAR. intros Hy Hm.
  destruct (Z.leb_spec 1 y), (Z.leb_spec y 9999); try lia. cbn.
  destruct (Z.leb_spec 1 m), (Z.leb_spec m 12); try lia; reflexivity.
Qed.

Lemma first_day_valid (y m : Z) :
  MINYEAR <= y <= MAXYEAR -> 1 <= m <= 12 -> valid (mkdate y m 1).
Proof.
  intros Hy Hm. repeat split; cbn; try lia.
  pose proof (days_in_month_ge y m Hm). lia.
Qed.

End PyDateFacts.

(** Closes a goal [valid d] for a concrete date. *)
Ltac valid_date := apply PyDateFacts.validb_valid; vm_compute; reflexivity.

(** ** PeriodResolver *)

(** Away from April with periodicity 4, [get_start_date] is the table of
    section 4.1. *)
Lemma get_start_date_table (end_date : date) (periodicity : Z) :
  valid end_date ->
  ~ (periodicity = 4 /\ month end_date = 4) ->
  get_start_date end_date periodicity = Ok (Spec.resolve end_date periodicity).
Proof.
  intros (Hy & Hm & Hd) Hnot.
  assert (Hfirst : forall m, 1 <= m <= 12 ->
            rmap Some (PyDate.new (year end_date) m 1)
            = Ok (Some (Spec.first_day (year end_date) m))).
  { intros m Hm'. rewrite PyDateFacts.new_valid; [done|].
    by apply PyDateFacts.first_day_valid. }
  unfold get_start_date, Spec.resolve.
  repeat match goal with
         | |- context [periodicity =? ?k] =>
             destruct (Z.eqb_spec periodicity k); subst; try lia
         end;
  repeat match goal with
         | |- context [?a =? 0] => destruct (Z.eqb_spec a 0)
         | |- context [?a =? 12] => destruct (Z.eqb_spec a 12)
         end;
  try reflexivity; apply Hfirst;
  try (Z.div_mod_to_equations; lia).
Qed.

(** The boundaries of the table, on the year 2021. *)
Lemma get_start_date_examples :
  get_start_date (mkdate 2021 12 31) 12 = Ok (Some (mkdate 2021 1 1)) /\
  get_start_date (mkdate 2021 6 30) 6 = Ok (Some (mkdate 2021 1 1)) /\
  get_start_date (mkdate 2021 8 31) 4 = Ok (Some (mkdate 2021 4 1)) /\
  get_start_date (mkdate 2021 9 30) 3 = Ok (Some (mkdate 2021 7 1)) /\
  get_start_date (mkdate 2021 2 28) 2 = Ok (Some (mkdate 2021 1 1)) /\
  get_start_date (mkdate 2021 2 28) 1 = Ok (Some (mkdate 2021 2 1)) /\
  get_start_date (mkdate 2021 5 31) 3 = Ok None /\
  get_start_date (mkdate 2021 5 31) 5 = Ok None.
Proof. vm_compute. repeat split. Qed.

(** C3: on an end date in April with periodicity 4 the table asks for the
    first day of month 0; [get_start_date] evaluates
    [datetime.date(year, 0, 1)] and raises [ValueError] instead of returning
    a start date. *)
Theorem get_start_date_april_periodicity_4 (end_date : date) :
  valid end_date -> month end_date = 4 ->
  get_start_date end_date 4 = Raise (ValueError "month must be in 1..12") /\
  Spec.resolve end_date 4 = Some (Spec.first_day (year end_date) 0).
Proof.
  intros (Hy & Hm & Hd) H4. unfold get_start_date, Spec.resolve.
  rewrite H4. cbn. rewrite PyDateFacts.new_bad_month; [done | done | lia].
Qed.

Lemma get_start_date_april_2021 :
  get_start_date (mkdate 2021 4 30) 4
    = Raise (ValueError "month must be in 1..12") /\
  Spec.resolve (mkdate 2021 4 30) 4 = Some (mkdate 2021 0 1).
Proof.
  apply (get_start_date_april_periodicity_4 (mkdate 2021 4 30));
    [valid_date | reflexivity].
Defined.

(** ** Allocated contribution *)

Section AllocationFacts.
Context {num : Type} `{PyNum num}.

(** Counting the days of [s, s + n - 1] that a policy covers. *)
Lemma covered_days_count (p : Policy) (s : Z) (n : nat) :
  Z.of_nat (length (filter (Spec.covered_by p) (seqZ s (Z.of_nat n))))
  = Z.max 0
      (Z.min (s + Z.of_nat n - 1) (toordinal (expiry_date p))
       - Z.max s (toordinal (effective_date p)) + 1).
Proof.
  induction n as [|n IH].
  - rewrite seqZ_nil by lia. cbn. lia.
  - rewrite seqZ_S, filter_app, length_app, Nat2Z.inj_add, IH.
    rewrite filter_cons, filter_nil.
    destruct (decide (Spec.covered_by p (s + Z.of_nat n))) as [Hc | Hc];
      unfold Spec.covered_by in Hc; cbn [length]; lia.
Qed.

Lemma days_of_length (a b : date) :
  Z.of_nat (length (Spec.days_of a b))
  = Z.max 0 (toordinal b - toordinal a + 1).
Proof. unfold Spec.days_of. rewrite length_seqZ. lia. Qed.

Lemma allocation_diff_overlap (p : Premium num) (start_date end_date : date) :
  valid start_date -> valid end_date ->
  PyDate.leb start_date end_date = true ->
  Spec.in_window start_date end_date p ->
  allocation_diff p start_date end_date
  = Spec.overlap_days start_date end_date (policy p).
Proof.
  intros Hs He Hse (Hf & Hx & Hfe & Hsx & Hfx).
  apply PyDateFacts.toordinal_leb in Hse, Hfe, Hsx, Hfx; try done.
  unfold allocation_diff, Spec.overlap_days, Spec.days_of, sub_days.
  rewrite PyDateFacts.toordinal_max, PyDateFacts.toordinal_min by done.
  replace (toordinal end_date - toordinal start_date + 1)
    with (Z.of_nat (Z.to_nat
            (toordinal end_date - toordinal start_date + 1))) by lia.
  rewrite covered_days_count. lia.
Qed.

Lemma policy_duration_total (p : Premium num) :
  valid (effective_date (policy p)) -> valid (expiry_date (policy p)) ->
  PyDate.leb (effective_date (policy p)) (expiry_date (policy p)) = true ->
  policy_duration p = Spec.policy_total_days (policy p) /\
  policy_duration p <> 0.
Proof.
  intros Hf Hx Hfx. apply PyDateFacts.toordinal_leb in Hfx; try done.
  unfold policy_duration, Spec.policy_total_days, sub_days.
  rewrite days_of_length. lia.
Qed.

Lemma allocate_overlap (premiums : list (Premium num))
    (start_date end_date : date) (acc : num) :
  valid start_date -> valid end_date ->
  PyDate.leb start_date end_date = true ->
  Forall (Spec.in_window start_date end_date) premiums ->
  allocate premiums start_date end_date acc
  = Ok (fold_left (fun total premium =>
          add total
            (div_int
               (mul_int (amount premium)
                  (Spec.overlap_days start_date end_date (policy premium)))
               (Spec.policy_total_days (policy premium))))
          premiums acc).
Proof.
  intros Hs He Hse Hall. revert acc.
  induction Hall as [|p rest Hp _ IH]; intros acc; [done|].
  cbn [allocate fold_left].
  rewrite (allocation_diff_overlap p start_date end_date Hs He Hse Hp).
  destruct Hp as (Hf & Hx & _ & _ & Hfx).
  destruct (policy_duration_total p Hf Hx Hfx) as [Hd Hnz].
  destruct (Z.eqb_spec (policy_duration p) 0); [done|].
  rewrite Hd. apply IH.
Qed.

(** The loop stops at the first policy whose duration is zero, and only
    there. *)
Lemma allocate_raises (premiums : list (Premium num))
    (start_date end_date : date) (acc : num) :
  Exists (fun p => policy_duration p = 0) premiums ->
  allocate premiums start_date end_date acc
  = Raise (ArithmeticError "division by zero").
Proof.
  revert acc. induction premiums as [|p rest IH]; intros acc Hex.
  - by apply Exists_nil in Hex.
  - cbn [allocate]. destruct (Z.eqb_spec (policy_duration p) 0); [done|].
    apply IH. apply Exists_cons in Hex as [? | ?]; [lia | done].
Qed.

Lemma allocate_returns (premiums : list (Premium num))
    (start_date end_date : date) (acc : num) :
  Forall (fun p => policy_duration p <> 0) premiums ->
  exists v, allocate premiums start_date end_date acc = Ok v.
Proof.
  intros Hall. revert acc.
  induction Hall as [|p rest Hp _ IH]; intros acc; [by eexists|].
  cbn [allocate]. destruct (Z.eqb_spec (policy_duration p) 0); [done|].
  apply IH.
Qed.

End AllocationFacts.

(** C4 (as amended): for a window with start before or on its end and
    contributions whose policies overlap the window, as
    [get_contribution_queryset] selects them, and end no earlier than they
    start, [get_allocated_premium] is the sum of
    [amount * overlap_days / policy_total_days], the days being counted
    with both ends included; it is 0 for no contribution. *)
Theorem get_allocated_premium_overlap {num : Type} `{PyNum num}
    (premiums : list (Premium num)) (start_date end_date : date) :
  valid start_date -> valid end_date ->
  PyDate.leb start_date end_date = true ->
  Forall (Spec.in_window start_date end_date) premiums ->
  get_allocated_premium premiums start_date end_date
  = Ok (Spec.allocated_contribution premiums start_date end_date) /\
  get_allocated_premium (@nil (Premium num)) start_date end_date
  = Ok (of_int 0).
Proof.
  intros Hs He Hse Hall. split; [|reflexivity].
  unfold get_allocated_premium, Spec.allocated_contribution.
  by apply allocate_overlap.
Qed.

Lemma get_allocated_premium_march :
  get_allocated_premium [Sample.year_premium] Sample.march_first
    Sample.march_last
  = Ok (Spec.allocated_contribution [Sample.year_premium] Sample.march_first
          Sample.march_last) /\
  get_allocated_premium (@nil (Premium Qc)) Sample.march_first
    Sample.march_last = Ok (of_int 0).
Proof.
  apply (get_allocated_premium_overlap [Sample.year_premium]
           Sample.march_first Sample.march_last);
    [valid_date | valid_date | reflexivity |].
  repeat constructor; try valid_date.
Defined.

(** C4 as stated fails: for a policy that ended before the window the code
    allocates a negative amount, where no day overlaps; and for a policy of
    no day it returns nothing at all. *)
Lemma get_allocated_premium_disjoint_policy :
  Sample.as_Q (get_allocated_premium [Sample.january_premium]
                 Sample.march_first Sample.march_last)
  = Some (-29 # 1)%Q /\
  Spec.overlap_days Sample.march_first Sample.march_last
    (policy Sample.january_premium) = 0 /\
  get_allocated_premium [Sample.january_premium] Sample.march_first
    Sample.march_last
  <> Ok (Spec.allocated_contribution [Sample.january_premium]
           Sample.march_first Sample.march_last) /\
  get_allocated_premium [Sample.empty_premium] Sample.march_first
    Sample.march_last
  <> Ok (Spec.allocated_contribution [Sample.empty_premium]
           Sample.march_first Sample.march_last).
Proof.
  split; [vm_compute; reflexivity|]. split; [vm_compute; reflexivity|].
  split; intros E; apply (f_equal Sample.as_Q) in E; vm_compute in E;
    discriminate.
Qed.

(** C6 (as amended): the allocation fails exactly when some policy expires
    on the day before it starts, the denominator then being zero, and the
    failure is the division by zero; with every other policy, inverted or
    not, a value is returned. *)
Theorem get_allocated_premium_zero_duration {num : Type} `{PyNum num}
    (premiums : list (Premium num)) (start_date end_date : date) :
  (Exists (fun p => toordinal (expiry_date (policy p))
                    = toordinal (effective_date (policy p)) - 1) premiums ->
   get_allocated_premium premiums start_date end_date
   = Raise (ArithmeticError "division by zero")) /\
  (Forall (fun p => toordinal (expiry_date (policy p))
                    <> toordinal (effective_date (policy p)) - 1) premiums ->
   exists v, get_allocated_premium premiums start_date end_date = Ok v).
Proof.
  unfold get_allocated_premium. split; intros Hp.
  - apply allocate_raises. eapply Exists_impl; [exact Hp|].
    intros p. unfold policy_duration, sub_days. cbn. lia.
  - apply allocate_returns. eapply Forall_impl; [exact Hp|].
    intros p. unfold policy_duration, sub_days. cbn. lia.
Qed.

Lemma get_allocated_premium_empty_policy :
  get_allocated_premium [Sample.empty_premium] Sample.march_first
    Sample.march_last = Raise (ArithmeticError "division by zero").
Proof.
  apply (get_allocated_premium_zero_duration [Sample.empty_premium]
           Sample.march_first Sample.march_last).
  apply Exists_cons_hd. vm_compute. reflexivity.
Defined.

(** C6 as stated fails: a policy whose expiry is five days before its start
    gives a negative denominator, and a value is returned. *)
Lemma get_allocated_premium_inverted_policy :
  PyDate.ltb (expiry_date (policy Sample.inverted_premium))
    (effective_date (policy Sample.inverted_premium)) = true /\
  policy_duration Sample.inverted_premium = -4 /\
  Sample.as_Q (get_allocated_premium [Sample.inverted_premium]
                 Sample.march_first Sample.march_last)
  = Some (100 # 1)%Q.
Proof. vm_compute. repeat split. Qed.

(** ** Claim finalization *)

Lemma sql_sum_from (values : list (option Z)) (acc : option Z) :
  Coalesce
    (fold_left (fun acc v =>
       match acc, v with
       | None, _ => v
       | Some a, None => Some a
       | Some a, Some b => Some (a + b)
       end) values acc) 0
  = Coalesce acc 0 + fold_right (fun v t => Coalesce v 0 + t) 0 values.
Proof.
  revert acc. induction values as [|v values IH]; intros acc; cbn.
  - lia.
  - rewrite IH. destruct acc as [a|], v as [b|]; cbn; lia.
Qed.

Lemma total_price_fold (details : list ClaimDetail) :
  Spec.total_price details
  = fold_right (fun v t => Coalesce v 0 + t) 0 (map price_valuated details).
Proof. induction details as [|d rest IH]; cbn; [done | by rewrite IH]. Qed.

(** A subtotal, a missing one counting for zero, is the total of the prices
    of the claim's rows. *)
Lemma price_valuated_subquery_total (objects : list ClaimDetail) (c : Claim) :
  Coalesce (price_valuated_subquery objects (claim_pk c)) 0
  = Spec.total_price (Spec.details_of objects c).
Proof.
  unfold price_valuated_subquery, Spec.details_of.
  destruct (List.filter _ objects) as [|d group] eqn:E; [done|].
  unfold sql_sum. rewrite sql_sum_from, total_price_fold. cbn. lia.
Qed.

(** C1: [update_claim_valuated] sets every claim of the query set it is
    given to VALUATED, attaches the batch run and sets [remunerated] to the
    total of its items' prices plus the total of its services' prices plus
    the claim-level value, a null price and a missing subtotal counting for
    zero; a claim outside the query set keeps its row.  The function tests
    nothing: a claim of the query set with an item or service without a
    price is transitioned like the others, which the claim, and the
    comment that opens the function, rule out. *)
Theorem update_claim_valuated_no_guard (claims : Claim -> bool)
    (run : BatchRun) (claim_based_value : Claim -> option Z)
    (s : ClaimStore) (i : nat) (c : Claim) :
  Claim_objects s !! i = Some c ->
  exists c',
    Claim_objects (update_claim_valuated claims run claim_based_value s)
      !! i = Some c' /\
    claim_pk c' = claim_pk c /\
    (claims c = true ->
     status c' = STATUS_VALUATED /\
     batch_run c' = Some (run_id run) /\
     remunerated c'
     = Some (Spec.total_price (Spec.details_of (ClaimItem_objects s) c)
             + Spec.total_price (Spec.details_of (ClaimService_objects s) c)
             + Coalesce (claim_based_value c) 0)) /\
    (claims c = false -> c' = c).
Proof.
  intros Hi. unfold update_claim_valuated. cbn [Claim_objects].
  rewrite list_lookup_fmap, Hi. cbn [fmap option_fmap option_map].
  eexists. split; [reflexivity|].
  destruct (claims c) eqn:Hc; cbn [claim_pk status batch_run remunerated].
  - split; [done|]. split; [|discriminate].
    intros _. rewrite !price_valuated_subquery_total. done.
  - split; [done|]. split; [discriminate | done].
Qed.

(** The failing input: the claims of the March window, as
    [get_claim_queryset] hands them over.  Claim 2 is among them and has an
    item without a price; it is set to VALUATED all the same, remunerated
    0. *)
Lemma update_claim_valuated_unpriced_claim :
  In Sample.claim_2
    (get_claim_queryset Sample.product_1 Sample.march_first
       Sample.march_last Sample.claim_store_0) /\
  ~ Spec.fully_valuated Sample.claim_store_0 Sample.claim_2 /\
  exists c',
    Claim_objects
      (update_claim_valuated SampleX.window_claims Sample.run_1
         (fun _ => Some 0) Sample.claim_store_0) !! 1%nat = Some c' /\
    claim_pk c' = 2 /\
    status c' = STATUS_VALUATED /\
    batch_run c' = Some 1 /\
    remunerated c' = Some 0 /\
    c' <> Sample.claim_2.
Proof.
  split; [right; left; reflexivity|]. split.
  - intros [Hitems _]. cbn in Hitems. apply Forall_cons in Hitems as [Hp _].
    by apply Hp.
  - destruct (update_claim_valuated_no_guard SampleX.window_claims
                Sample.run_1 (fun _ => Some 0) Sample.claim_store_0 1%nat
                Sample.claim_2 eq_refl) as (c' & Hl & Hpk & Hsel & _).
    destruct (Hsel eq_refl) as (Hst & Hrun & Hrem).
    exists c'. split; [exact Hl|]. split; [exact Hpk|].
    split; [exact Hst|]. split; [exact Hrun|]. split; [exact Hrem|].
    intros ->. discriminate Hst.
Defined.

(** Handed every claim of the store, [update_claim_valuated] likewise sets
    the claim whose item has no price to VALUATED, that item counting for
    nothing. *)
Lemma update_claim_valuated_every_claim :
  Claim_objects
    (update_claim_valuated (fun _ => true) Sample.run_1 (fun _ => Some 0)
       Sample.claim_store_0) !! 1%nat
  = Some (mkClaim 2 STATUS_VALUATED (Some 1) (Some 0) (mkdate 2020 3 11) None
            (Some (mkdate 2020 3 30))).
Proof. reflexivity. Qed.

(** ** The orchestrator: what a run changes *)

Section EngineFacts.
Context {num : Type} `{PyNum num}.
Variable reg : string -> option (Calculation num).

Lemma advance_id (w : World num) : advance w (claim_store w) [] = w.
Proof. destruct w. unfold advance. cbn. by rewrite app_nil_r. Qed.

Lemma advance_advance (w : World num) s1 h1 s2 h2 :
  advance (advance w s1 h1) s2 h2 = advance w s2 (h1 ++ h2).
Proof. unfold advance. cbn. by rewrite app_assoc. Qed.

(** [update_work_data] reads the database and changes nothing in it. *)
Lemma update_work_data_reads wd product sd ed ac (w : World num) r w' :
  update_work_data wd product sd ed ac w = (r, w') ->
  w' = w /\
  forall ac' wd',
    r = Ok (ac', wd') ->
    wd_product wd' = wd_product wd /\
    payment_plans wd' = payment_plans wd.
Proof.
  unfold update_work_data, bind, gets, ret, lift. cbn.
  destruct (ac !! PyDate.str sd); cbn.
  - intros [= <- <-]. split; [done|]. intros ac' wd' [= <- <-]. done.
  - destruct (get_allocated_premium _ sd ed); cbn; intros [= <- <-].
    + split; [done|]. intros ac' wd' [= <- <-]. done.
    + split; [done | discriminate].
Qed.

Lemma dispatch_calculation_history context plan wd user loc sd ed
    (w : World num) r w' :
  dispatch_calculation reg context plan wd user loc sd ed w = (r, w') ->
  exists s h,
    w' = advance w s h /\
    h `prefix_of` dispatched reg context plan wd sd ed /\
    (forall u, r = Ok u -> h = dispatched reg context plan wd sd ed).
Proof.
  unfold dispatch_calculation, dispatched.
  destruct (reg (calculation plan)) as [calc|].
  - unfold bind, log, on_claim_store, ret, raise. cbn.
    destruct (calculate_if_active_for_object calc plan context wd user loc
                sd ed (claim_store w)) as [[rcr | e] s1] eqn:E; cbn.
    + intros Hrun.
      exists s1, [Called (mkDispatch context (product_id (wd_product wd))
                            (plan_id plan) sd ed);
                  Completed (mkDispatch context (product_id (wd_product wd))
                               (plan_id plan) sd ed)].
      destruct rcr as [|[|x xs] rest]; cbn in Hrun;
        injection Hrun as <- <-; unfold advance; cbn;
        rewrite <- app_assoc; cbn; done.
    + intros [= <- <-].
      exists s1, [Called (mkDispatch context (product_id (wd_product wd))
                            (plan_id plan) sd ed)].
      unfold advance. cbn. split; [done|]. split; [|discriminate].
      by apply prefix_cons, prefix_nil.
  - intros [= <- <-]. exists (claim_store w), []. rewrite advance_id. done.
Qed.

Lemma plan_events_dispatched context plan wd ed sd :
  get_start_date ed (periodicity plan) = Ok (Some sd) ->
  plan_events reg context (product_id (wd_product wd)) ed plan
  = dispatched reg context plan wd sd ed.
Proof. intros E. unfold plan_events, dispatched. by rewrite E. Qed.

Lemma trigger_plans_history plans : forall context wd ed loc ac user
    (w : World num) r w',
  trigger_plans reg plans context wd ed (wd_product wd) loc ac user w
  = (r, w') ->
  exists s h,
    w' = advance w s h /\
    h `prefix_of` pass_events reg context (product_id (wd_product wd)) ed
                    plans /\
    (forall ac' wd',
       r = Ok (ac', wd') ->
       h = pass_events reg context (product_id (wd_product wd)) ed plans /\
       wd_product wd' = wd_product wd /\
       payment_plans wd' = payment_plans wd).
Proof.
  induction plans as [|plan rest IH];
    intros context wd ed loc ac user w r w' Hrun.
  - injection Hrun as <- <-.
    exists (claim_store w), []. rewrite advance_id.
    split; [done|]. split; [done|]. intros ac' wd' [= <- <-]. done.
  - cbn [trigger_plans] in Hrun. unfold pass_events. cbn [flat_map].
    fold (pass_events reg context (product_id (wd_product wd)) ed rest).
    unfold bind at 1 in Hrun. unfold lift at 1 in Hrun.
    destruct (get_start_date ed (periodicity plan)) as [[sd|]|e] eqn:Esd.
    + rewrite (plan_events_dispatched context plan wd ed sd Esd).
      unfold bind at 1 in Hrun.
      destruct (update_work_data wd (wd_product wd) sd ed ac w)
        as [[[ac1 wd1]|e] w1] eqn:Eu;
        destruct (update_work_data_reads _ _ _ _ _ _ _ _ Eu) as [-> Hu].
      * destruct (Hu ac1 wd1 eq_refl) as [Hp1 Hpl1]. clear Hu.
        unfold bind at 1 in Hrun.
        destruct (dispatch_calculation reg context plan wd1 user loc sd ed w)
          as [[[]|e] w1] eqn:Ed;
          destruct (dispatch_calculation_history _ _ _ _ _ _ _ _ _ _ Ed)
            as (s1 & h1 & -> & Hpre1 & Hok1);
          assert (Hd : dispatched reg context plan wd1 sd ed
                       = dispatched reg context plan wd sd ed)
            by (unfold dispatched; by rewrite Hp1);
          rewrite Hd in *; clear Hd.
        -- rewrite <- Hp1 in Hrun.
           destruct (IH _ _ _ _ _ _ _ _ _ Hrun)
             as (s2 & h2 & -> & Hpre2 & Hok2).
           rewrite Hp1 in *. rewrite (Hok1 tt eq_refl) in *.
           exists s2, (dispatched reg context plan wd sd ed ++ h2)%list.
           rewrite advance_advance.
           split; [done|]. split; [by apply prefix_app|].
           intros ac' wd' Hr. destruct (Hok2 ac' wd' Hr) as (-> & ? & ?).
           split; [done|]. split; [done | congruence].
        -- injection Hrun as <- <-. exists s1, h1. split; [done|].
           split; [by apply prefix_app_r | discriminate].
      * injection Hrun as <- <-.
        exists (claim_store w), []. rewrite advance_id.
        split; [done|]. split; [apply prefix_nil | discriminate].
    + assert (Hnone : plan_events reg context (product_id (wd_product wd))
                        ed plan = []).
      { unfold plan_events. by rewrite Esd. }
      rewrite Hnone. cbn [app]. by apply (IH _ _ _ _ _ _ _ _ _ Hrun).
    + injection Hrun as <- <-.
      exists (claim_store w), []. rewrite advance_id.
      split; [done|]. split; [apply prefix_nil | discriminate].
Qed.

Lemma trigger_history context wd ed loc ac user (w : World num) r w' :
  trigger_calculation_based_on_context reg context wd ed (wd_product wd)
    loc ac user w = (r, w') ->
  exists s h,
    w' = advance w s h /\
    h `prefix_of` pass_events reg context (product_id (wd_product wd)) ed
                    (payment_plans wd) /\
    (forall ac' wd',
       r = Ok (ac', wd') ->
       h = pass_events reg context (product_id (wd_product wd)) ed
             (payment_plans wd) /\
       wd_product wd' = wd_product wd /\
       payment_plans wd' = payment_plans wd).
Proof.
  unfold trigger_calculation_based_on_context.
  destruct (payment_plans wd) as [|plan rest] eqn:Ep.
  - intros [= <- <-]. exists (claim_store w), []. rewrite advance_id.
    split; [done|]. split; [done|]. intros ac' wd' [= <- <-]. done.
  - intros Hrun.
    destruct (trigger_plans_history _ _ _ _ _ _ _ _ _ _ Hrun)
      as (s & h & Hw & Hpre & Hok).
    exists s, h. split; [done|]. split; [done|].
    intros ac' wd' Hr. destruct (Hok ac' wd' Hr) as (? & ? & ?).
    split; [done|]. split; [done | congruence].
Qed.

Lemma process_product_history run ed loc user product (w : World num) r w' :
  process_product reg run ed loc user product w = (r, w') ->
  exists s h,
    w' = advance w s h /\
    h `prefix_of` product_events reg ed (PaymentPlan_objects w) product /\
    (forall u, r = Ok u ->
               h = product_events reg ed (PaymentPlan_objects w) product).
Proof.
  unfold process_product, product_events.
  unfold bind at 1. unfold gets at 1.
  set (plans := get_payment_plan_queryset product ed (PaymentPlan_objects w)).
  set (wd := mkWorkData run product ed plans None).
  unfold bind at 1. intros Hrun.
  destruct (trigger_calculation_based_on_context reg BatchValuate wd ed
              product loc ∅ user w) as [[[ac1 wd1]|e] w1] eqn:E1;
    destruct (trigger_history BatchValuate wd ed loc ∅ user w _ _ E1)
      as (s1 & h1 & -> & Hpre1 & Hok1);
    change (wd_product wd) with product in *;
    change (payment_plans wd) with plans in *.
  - destruct (Hok1 ac1 wd1 eq_refl) as (-> & Hp1 & Hpl1).
    unfold bind at 1 in Hrun. rewrite <- Hp1 in Hrun.
    destruct (trigger_calculation_based_on_context reg BatchPayment wd1 ed
                (wd_product wd1) loc ac1 user _)
      as [[[ac2 wd2]|e] w2] eqn:E2;
      destruct (trigger_history BatchPayment wd1 ed loc ac1 user _ _ _ E2)
        as (s2 & h2 & -> & Hpre2 & Hok2);
      rewrite Hp1, Hpl1 in *; injection Hrun as <- <-;
      rewrite advance_advance.
    + destruct (Hok2 ac2 wd2 eq_refl) as (-> & _ & _).
      eexists _, _. split; [reflexivity|]. done.
    + eexists _, _. split; [reflexivity|].
      split; [by apply prefix_app | discriminate].
  - injection Hrun as <- <-. exists s1, h1. split; [done|].
    split; [by apply prefix_app_r | discriminate].
Qed.

Lemma process_products_history products : forall run ed loc user
    (w : World num) r w',
  process_products reg products run ed loc user w = (r, w') ->
  exists s h,
    w' = advance w s h /\
    h `prefix_of` flat_map (product_events reg ed (PaymentPlan_objects w))
                    products /\
    (forall u, r = Ok u ->
               h = flat_map (product_events reg ed (PaymentPlan_objects w))
                     products).
Proof.
  induction products as [|product rest IH];
    intros run ed loc user w r w' Hrun.
  - injection Hrun as <- <-.
    exists (claim_store w), []. rewrite advance_id. done.
  - cbn [process_products flat_map] in *. unfold bind at 1 in Hrun.
    destruct (process_product reg run ed loc user product w)
      as [[[]|e] w1] eqn:E1;
      destruct (process_product_history _ _ _ _ _ _ _ _ E1)
        as (s1 & h1 & -> & Hpre1 & Hok1).
    + rewrite (Hok1 tt eq_refl) in *.
      destruct (IH _ _ _ _ _ _ _ Hrun) as (s2 & h2 & -> & Hpre2 & Hok2).
      cbn [PaymentPlan_objects advance] in Hpre2, Hok2.
      rewrite advance_advance.
      eexists _, _. split; [reflexivity|].
      split; [by apply prefix_app|].
      intros u Hr. by rewrite (Hok2 u Hr).
    + injection Hrun as <- <-. exists s1, h1. split; [done|].
      split; [by apply prefix_app_r | discriminate].
Qed.

(** [do_process_batch] adds its run to the table, whatever follows; the
    rules change the claim tables and the history only. *)
Lemma do_process_batch_effect audit_user_id location_id end_date
    (w : World num) r w' :
  do_process_batch reg audit_user_id location_id end_date w = (r, w') ->
  exists s h,
    w' = mkWorld
           (BatchRun_objects w
            ++ [created_by audit_user_id location_id end_date w])
           (BatchRun_sequence w + 1) (now w) (Product_objects w)
           (PaymentPlan_objects w) (Premium_objects w) s (events w ++ h) /\
    h `prefix_of` run_events reg end_date location_id (Product_objects w)
                    (PaymentPlan_objects w) /\
    (forall v, r = Ok v ->
       v = created_by audit_user_id location_id end_date w /\
       h = run_events reg end_date location_id (Product_objects w)
             (PaymentPlan_objects w)).
Proof.
  unfold do_process_batch, run_events, created_by.
  unfold bind at 1. unfold TimeUtils_now at 1. unfold gets at 1.
  unfold bind at 1. unfold TimeUtils_now at 1. unfold gets at 1.
  unfold bind at 1. unfold BatchRun_objects_create at 1.
  unfold bind at 1. unfold gets at 1. cbn [Product_objects].
  unfold bind at 1. intros Hrun.
  match type of Hrun with
  | context [process_products reg ?ps ?run ?ed ?loc ?u ?w1] =>
      destruct (process_products reg ps run ed loc u w1)
        as [[[]|e] w2] eqn:E;
      destruct (process_products_history _ _ _ _ _ _ _ _ E)
        as (s & h & -> & Hpre & Hok)
  end; cbn in Hok, Hpre; injection Hrun as <- <-; exists s, h.
  - split; [done|]. split; [done|]. intros r [= <-].
    split; [done|]. by apply (Hok tt).
  - split; [done|]. split; [done | discriminate].
Qed.

End EngineFacts.

(** ** The orchestrator: [process_batch] case by case *)

Section ProcessBatchFacts.
Context {num : Type} `{PyNum num}.
Variable reg : string -> option (Calculation num).

Lemma rollback_same (w : World num) : rollback w w = w.
Proof. by destruct w. Qed.

Lemma process_batch_cases u loc period year (w : World num) :
  process_batch reg u loc period year w =
  match active_runs year period (normalize_location loc)
          (BatchRun_objects w) with
  | _ :: _ =>
      (Ok (PyList [str_error (new_ProcessBatchSubmitError 2 None)]), w)
  | [] =>
      match monthrange_days year period with
      | Raise e => (Raise e, w)
      | Ok dim =>
          match PyDate.new year period dim with
          | Raise e => (Raise e, w)
          | Ok end_date =>
              match do_process_batch reg u (normalize_location loc)
                      end_date w with
              | (Ok _, w1) => (Ok PyNone, w1)
              | (Raise exc, w1) =>
                  if is_Exception exc then
                    (Ok (PyList
                           [str_error
                              (new_ProcessBatchSubmitError (-1)
                                 (Some (str_exn exc)))]), w1)
                  else (Raise exc, rollback w w1)
              end
          end
      end
  end.
Proof.
  unfold process_batch, atomic. unfold bind at 1. unfold gets at 1.
  destruct (active_runs year period (normalize_location loc)
              (BatchRun_objects w)) as [|r0 rs]; [|done].
  cbn [map head]. unfold bind at 1. unfold lift at 1.
  destruct (monthrange_days year period) as [dim|e];
    [|by rewrite rollback_same].
  unfold bind at 1. unfold lift at 1.
  destruct (PyDate.new year period dim) as [end_date|e];
    [|by rewrite rollback_same].
  unfold try_except. unfold bind at 1.
  destruct (do_process_batch reg u (normalize_location loc) end_date w)
    as [[run|exc] w1]; [done|].
  destruct (is_Exception exc); done.
Qed.

Lemma location_key_normalize (loc : option Z) :
  location_key (normalize_location loc) = location_key loc.
Proof.
  destruct loc as [l|]; [|done]. cbn.
  destruct (Z.eqb_spec l (-1)); [by subst | done].
Qed.

Lemma active_runs_location year month l l' objects :
  location_key l = location_key l' ->
  active_runs year month l objects = active_runs year month l' objects.
Proof. intros E. unfold active_runs. by rewrite E. Qed.

Lemma active_runs_app year month l a b :
  active_runs year month l (a ++ b)
  = (active_runs year month l a ++ active_runs year month l b)%list.
Proof. apply List.filter_app. Qed.

Lemma active_runs_created year month l u loc end_date (w : World num) :
  active_runs year month l [created_by u loc end_date w]
  = if (PyDate.year end_date =? year) && (PyDate.month end_date =? month)
       && (location_key loc =? location_key l)
    then [created_by u loc end_date w] else [].
Proof.
  unfold active_runs, created_by, nn_location_id. cbn.
  replace (Coalesce loc (-1)) with (location_key loc) by by destruct loc.
  rewrite andb_true_r. by destruct (_ && _ && _).
Qed.

Lemma new_ok (y m d : Z) (x : date) :
  PyDate.new y m d = Ok x -> x = mkdate y m d.
Proof.
  unfold PyDate.new. repeat (destruct (negb _); [discriminate|]).
  by intros [= <-].
Qed.

(** Adding the run of a key that had no active run keeps at most one
    active run per key. *)
Lemma one_active_run_created u loc end_date (w : World num) :
  Spec.one_active_run_per_key (BatchRun_objects w) ->
  active_runs (PyDate.year end_date) (PyDate.month end_date) loc
    (BatchRun_objects w) = [] ->
  Spec.one_active_run_per_key
    (BatchRun_objects w ++ [created_by u loc end_date w]).
Proof.
  intros Hinv Hnone year month l.
  rewrite active_runs_app, length_app, active_runs_created.
  destruct (Z.eqb_spec (PyDate.year end_date) year) as [<-|];
    destruct (Z.eqb_spec (PyDate.month end_date) month) as [<-|];
    destruct (Z.eqb_spec (location_key loc) (location_key l)) as [E|];
    cbn [andb length];
    try (match goal with
         | |- context [active_runs ?y ?m l _] => specialize (Hinv y m l)
         end; lia).
  rewrite (active_runs_location _ _ l loc) by done. rewrite Hnone. cbn. lia.
Qed.

Lemma already_executed_active year month loc objects :
  batch_run_already_executed year month loc objects = true <->
  active_runs year month (normalize_location loc) objects <> [].
Proof.
  unfold batch_run_already_executed.
  rewrite (active_runs_location year month (normalize_location loc) loc)
    by apply location_key_normalize.
  destruct (active_runs year month loc objects); split; done.
Qed.

Lemma already_run_message :
  str_error (new_ProcessBatchSubmitError 2 None)
  = "ProcessBatchSubmitError 2: Already run before".
Proof. vm_compute. reflexivity. Qed.

Lemma processing_error_message (cause : string) :
  str_error (new_ProcessBatchSubmitError (-1) (Some cause))
  = "ProcessBatchSubmitError -1: " +:+
    match cause with
    | "" => "Unknown exception"
    | _ => cause
    end.
Proof.
  unfold str_error, new_ProcessBatchSubmitError. cbn [code msg ERROR_CODES].
  replace (pretty (-1)) with "-1" by (vm_compute; reflexivity).
  by destruct cause.
Qed.

End ProcessBatchFacts.

(** ** Histories in which valuation comes before payment *)

Section HistoryFacts.
Context {num : Type}.
Variable reg : string -> option (Calculation num).

Lemma valuate_before_payment_prefix (h1 h2 : list Event) :
  h1 `prefix_of` h2 ->
  Spec.valuate_before_payment h2 -> Spec.valuate_before_payment h1.
Proof.
  intros [k ->] Hv i d Hi Hc.
  destruct (Hv i d) as (j & Hj & Hl); [by apply lookup_app_l_Some | done |].
  exists j. split; [done|].
  apply lookup_lt_Some in Hi. by rewrite lookup_app_l in Hl by lia.
Qed.

Lemma valuate_before_payment_app (h1 h2 : list Event) :
  Spec.valuate_before_payment h1 -> Spec.valuate_before_payment h2 ->
  Spec.valuate_before_payment (h1 ++ h2).
Proof.
  intros Hv1 Hv2 i d Hi Hc.
  destruct (decide (i < length h1)%nat) as [Hlt | Hge].
  - rewrite lookup_app_l in Hi by done.
    destruct (Hv1 i d Hi Hc) as (j & Hj & Hl).
    exists j. split; [done|]. by rewrite lookup_app_l by lia.
  - rewrite lookup_app_r in Hi by lia.
    destruct (Hv2 _ d Hi Hc) as (j & Hj & Hl).
    exists (length h1 + j)%nat. split; [lia|].
    rewrite lookup_app_r by lia.
    by replace (length h1 + j - length h1)%nat with j by lia.
Qed.

(** The events of a pass are those of its plans that fire and are
    registered. *)
Lemma in_pass_events (e : Event) context product ed plans :
  In e (pass_events reg context product ed plans) ->
  exists plan sd,
    In plan plans /\
    get_start_date ed (periodicity plan) = Ok (Some sd) /\
    reg (calculation plan) <> None /\
    (e = Called (mkDispatch context product (plan_id plan) sd ed) \/
     e = Completed (mkDispatch context product (plan_id plan) sd ed)).
Proof.
  unfold pass_events. rewrite in_flat_map. intros (plan & Hin & He).
  unfold plan_events in He.
  destruct (get_start_date ed (periodicity plan)) as [[sd|]|] eqn:Esd;
    try done.
  destruct (reg (calculation plan)) eqn:Er; [|done].
  exists plan, sd. rewrite Er. cbn in He.
  destruct He as [<- | [<- | []]]; auto.
Qed.

Lemma completed_in_pass_events context product ed plans plan sd :
  In plan plans ->
  get_start_date ed (periodicity plan) = Ok (Some sd) ->
  reg (calculation plan) <> None ->
  In (Completed (mkDispatch context product (plan_id plan) sd ed))
    (pass_events reg context product ed plans).
Proof.
  intros Hin Esd Er. unfold pass_events. rewrite in_flat_map.
  exists plan. split; [done|]. unfold plan_events. rewrite Esd.
  destruct (reg (calculation plan)); [|done]. cbn. auto.
Qed.

Lemma valuate_before_payment_product ed plans product :
  Spec.valuate_before_payment (product_events reg ed plans product).
Proof.
  unfold product_events.
  set (ps := get_payment_plan_queryset product ed plans).
  intros i d Hi Hc.
  destruct (decide (i < length (pass_events reg BatchValuate
                                  (product_id product) ed ps))%nat)
    as [Hlt | Hge].
  - rewrite lookup_app_l in Hi by done.
    apply list_elem_of_lookup_2, list_elem_of_In, in_pass_events in Hi.
    destruct Hi as (plan & sd & _ & _ & _ & [E | E]); [|done].
    injection E as ->. cbn in Hc. discriminate.
  - rewrite lookup_app_r in Hi by lia.
    apply list_elem_of_lookup_2, list_elem_of_In, in_pass_events in Hi.
    destruct Hi as (plan & sd & Hin & Esd & Er & [E | E]); [|done].
    injection E as ->. cbn [d_product d_plan d_start d_end].
    pose proof (completed_in_pass_events BatchValuate (product_id product)
                  ed ps plan sd Hin Esd Er) as Hdone.
    apply list_elem_of_In, list_elem_of_lookup in Hdone as [j Hj].
    exists j. pose proof (lookup_lt_Some _ _ _ Hj).
    split; [lia|]. by rewrite lookup_app_l by lia.
Qed.

Lemma valuate_before_payment_run ed loc products plans :
  Spec.valuate_before_payment (run_events reg ed loc products plans).
Proof.
  unfold run_events.
  induction (get_product_queryset ed loc products) as [|product rest IH].
  - intros i d Hi. done.
  - cbn [flat_map]. apply valuate_before_payment_app; [|done].
    apply valuate_before_payment_product.
Qed.

End HistoryFacts.

(** ** The claims on the orchestrator *)

Section OrchestratorClaims.
Context {num : Type} `{PyNum num}.
Variable reg : string -> option (Calculation num).

(** Once [do_process_batch] has run for a key without active run, the
    run it created is the active run of that key, however it ended. *)
Lemma run_recorded u loc period year dim end_date (w : World num) r w1 :
  active_runs year period (normalize_location loc) (BatchRun_objects w)
  = [] ->
  PyDate.new year period dim = Ok end_date ->
  do_process_batch reg u (normalize_location loc) end_date w = (r, w1) ->
  BatchRun_objects w1
  = (BatchRun_objects w
     ++ [created_by u (normalize_location loc) end_date w])%list /\
  PyDate.year end_date = year /\ PyDate.month end_date = period /\
  active_runs year period (normalize_location loc) (BatchRun_objects w1)
  = [created_by u (normalize_location loc) end_date w].
Proof.
  intros Hnone Hnew Hrun.
  destruct (do_process_batch_effect reg _ _ _ _ _ _ Hrun)
    as (s & h & -> & _ & _).
  apply new_ok in Hnew. subst end_date. cbn [BatchRun_objects].
  split; [done|]. split; [done|]. split; [done|].
  rewrite active_runs_app, Hnone, active_runs_created. cbn.
  by rewrite !Z.eqb_refl.
Qed.

(** C2: a call for a key that has an active run returns the AlreadyRun
    error and leaves the world as it is; a call keeps at most one active
    run per key; and a call that follows a call that returned, for the
    same key, returns the AlreadyRun error. *)
Theorem process_batch_idempotent u loc period year (w : World num) :
  (batch_run_already_executed year period loc (BatchRun_objects w) = true ->
   process_batch reg u loc period year w
   = (Ok (PyList ["ProcessBatchSubmitError 2: Already run before"]), w)) /\
  (Spec.one_active_run_per_key (BatchRun_objects w) ->
   Spec.one_active_run_per_key
     (BatchRun_objects (process_batch reg u loc period year w).2)) /\
  (forall v,
     (process_batch reg u loc period year w).1 = Ok v ->
     process_batch reg u loc period year
       (process_batch reg u loc period year w).2
     = (Ok (PyList ["ProcessBatchSubmitError 2: Already run before"]),
        (process_batch reg u loc period year w).2)).
Proof.
  rewrite <- already_run_message.
  split; [|split].
  - intros Hex. apply already_executed_active in Hex.
    rewrite process_batch_cases.
    by destruct (active_runs year period (normalize_location loc)
                   (BatchRun_objects w)).
  - intros Hinv. rewrite process_batch_cases.
    destruct (active_runs year period (normalize_location loc)
                (BatchRun_objects w)) as [|r0 rs] eqn:Hact; [|done].
    destruct (monthrange_days year period) as [dim|e]; [|done].
    destruct (PyDate.new year period dim) as [end_date|e] eqn:Hnew; [|done].
    destruct (do_process_batch reg u (normalize_location loc) end_date w)
      as [[run|exc] w1] eqn:Hrun;
      destruct (run_recorded _ _ _ _ _ _ _ _ _ Hact Hnew Hrun)
        as (Hobj & Hy & Hm & _); subst year period.
    + cbn [snd]. rewrite Hobj. by apply one_active_run_created.
    + destruct (is_Exception exc); cbn [snd rollback BatchRun_objects];
        [|done].
      rewrite Hobj. by apply one_active_run_created.
  - intros v. rewrite (process_batch_cases reg u loc period year w).
    destruct (active_runs year period (normalize_location loc)
                (BatchRun_objects w)) as [|r0 rs] eqn:Hact.
    + destruct (monthrange_days year period) as [dim|e]; [|done].
      destruct (PyDate.new year period dim) as [end_date|e] eqn:Hnew;
        [|done].
      destruct (do_process_batch reg u (normalize_location loc) end_date w)
        as [[run|exc] w1] eqn:Hrun;
        destruct (run_recorded _ _ _ _ _ _ _ _ _ Hact Hnew Hrun)
          as (_ & _ & _ & Hact1).
      * intros _. cbn [snd]. rewrite process_batch_cases, Hact1. done.
      * destruct (is_Exception exc); [|done].
        intros _. cbn [snd]. rewrite process_batch_cases, Hact1. done.
    + intros _. cbn [snd]. rewrite process_batch_cases, Hact. done.
Qed.

(** C9 (as amended): [process_batch] returns [None] when the run
    succeeds, the created run being returned by [do_process_batch] only;
    it returns a list of one error, AlreadyRun on the identity check or
    the error of code -1 with the message of the exception that stopped
    the processing; it never returns anything else. *)
Theorem process_batch_returns u loc period year (w : World num) :
  (forall v, (process_batch reg u loc period year w).1 = Ok v ->
             v = PyNone \/ exists m, v = PyList [m]) /\
  (batch_run_already_executed year period loc (BatchRun_objects w) = true ->
   (process_batch reg u loc period year w).1
   = Ok (PyList ["ProcessBatchSubmitError 2: Already run before"])) /\
  (forall dim end_date r w1,
     batch_run_already_executed year period loc (BatchRun_objects w)
     = false ->
     monthrange_days year period = Ok dim ->
     PyDate.new year period dim = Ok end_date ->
     do_process_batch reg u (normalize_location loc) end_date w = (r, w1) ->
     match r with
     | Ok run =>
         process_batch reg u loc period year w = (Ok PyNone, w1) /\
         In run (BatchRun_objects w1)
     | Raise exc =>
         if is_Exception exc then
           process_batch reg u loc period year w
           = (Ok (PyList ["ProcessBatchSubmitError -1: " +:+
                          match str_exn exc with
                          | "" => "Unknown exception"
                          | cause => cause
                          end]), w1)
         else
           process_batch reg u loc period year w
           = (Raise exc, rollback w w1)
     end).
Proof.
  split; [|split].
  - intros v. rewrite process_batch_cases.
    destruct (active_runs _ _ _ _); [|intros [= <-]; eauto].
    destruct (monthrange_days year period); [|done].
    destruct (PyDate.new _ _ _); [|done].
    destruct (do_process_batch _ _ _ _ _) as [[run|exc] w1];
      [intros [= <-]; eauto|].
    destruct (is_Exception exc); [intros [= <-]; eauto | done].
  - intros Hex. apply already_executed_active in Hex.
    rewrite process_batch_cases, already_run_message.
    by destruct (active_runs _ _ _ _).
  - intros dim end_date r w1 Hex Hdim Hnew Hrun.
    assert (Hact : active_runs year period (normalize_location loc)
                     (BatchRun_objects w) = []).
    { destruct (active_runs _ _ _ _) eqn:E; [done|].
      assert (batch_run_already_executed year period loc
                (BatchRun_objects w) = true)
        by (apply already_executed_active; by rewrite E).
      congruence. }
    rewrite process_batch_cases, Hact, Hdim, Hnew, Hrun.
    destruct r as [run|exc].
    + split; [done|].
      destruct (do_process_batch_effect reg _ _ _ _ _ _ Hrun)
        as (s & h & -> & _ & Hok).
      destruct (Hok run eq_refl) as [-> _]. cbn [BatchRun_objects].
      apply in_or_app. right. by left.
    + destruct (is_Exception exc); [|done].
      rewrite processing_error_message. by destruct (str_exn exc).
Qed.

(** C10: the location -1 is made [None] before anything else, so [-1]
    and [None] are one key and one behaviour. *)
Theorem process_batch_location_sentinel u period year (w : World num) :
  normalize_location (Some (-1)) = None /\
  process_batch reg u (Some (-1)) period year w
  = process_batch reg u None period year w /\
  batch_run_already_executed year period (Some (-1)) (BatchRun_objects w)
  = batch_run_already_executed year period None (BatchRun_objects w).
Proof. split; [done|]. split; reflexivity. Qed.

(** C7: for a plan whose calculation is not registered the dispatcher
    calls nothing, changes nothing and raises nothing; the loop goes on
    with the plans that remain, the window of the plan having been
    assembled. *)
Theorem dispatch_unregistered context plan rest wd user loc product ac ed
    (w : World num) :
  reg (calculation plan) = None ->
  (forall sd,
     dispatch_calculation reg context plan wd user loc sd ed w
     = (Ok tt, w)) /\
  plan_events reg context (product_id product) ed plan = [] /\
  trigger_plans reg (plan :: rest) context wd ed product loc ac user w
  = match get_start_date ed (periodicity plan) with
    | Raise e => (Raise e, w)
    | Ok None =>
        trigger_plans reg rest context wd ed product loc ac user w
    | Ok (Some sd) =>
        match update_work_data wd product sd ed ac w with
        | (Ok (ac', wd'), w') =>
            trigger_plans reg rest context wd' ed product loc ac' user w'
        | (Raise e, w') => (Raise e, w')
        end
    end.
Proof.
  intros Hreg. split; [|split].
  - intros sd. unfold dispatch_calculation. by rewrite Hreg.
  - unfold plan_events. rewrite Hreg.
    by destruct (get_start_date ed (periodicity plan)) as [[?|]|].
  - cbn [trigger_plans]. unfold bind at 1. unfold lift at 1.
    destruct (get_start_date ed (periodicity plan)) as [[sd|]|e]; try done.
    unfold bind at 1.
    destruct (update_work_data wd product sd ed ac w)
      as [[[ac1 wd1]|e] w1]; [|done].
    unfold bind at 1. unfold dispatch_calculation. by rewrite Hreg.
Qed.

(** C5 (as amended): in the history of a run every call for payment
    comes after the valuation for the same product, plan and window has
    returned; for each product the valuation of all its plans comes
    before the payment of any of them, and both passes over a product
    are over before the next product is looked at. *)
Theorem do_process_batch_valuate_before_payment u loc ed (w : World num) :
  exists h,
    events (do_process_batch reg u loc ed w).2 = (events w ++ h)%list /\
    Spec.valuate_before_payment h /\
    h `prefix_of` run_events reg ed loc (Product_objects w)
                    (PaymentPlan_objects w) /\
    (forall r, (do_process_batch reg u loc ed w).1 = Ok r ->
               h = run_events reg ed loc (Product_objects w)
                     (PaymentPlan_objects w)).
Proof.
  destruct (do_process_batch reg u loc ed w) as [r w1] eqn:Hrun.
  destruct (do_process_batch_effect reg _ _ _ _ _ _ Hrun)
    as (s & h & -> & Hpre & Hok).
  exists h. cbn [snd fst events]. split; [done|]. split.
  - eapply valuate_before_payment_prefix; [exact Hpre|].
    apply valuate_before_payment_run.
  - split; [done|]. intros r' ->. by destruct (Hok r' eq_refl).
Qed.

End OrchestratorClaims.

Lemma one_active_run_singleton (r : BatchRun) :
  Spec.one_active_run_per_key [r].
Proof.
  intros year month l. unfold active_runs. cbn [List.filter].
  destruct (_ && _); cbn; lia.
Qed.

Lemma process_batch_idempotent_sample :
  process_batch Sample.registry 7 None 3 2020 Sample.world_1
  = (Ok (PyList ["ProcessBatchSubmitError 2: Already run before"]),
     Sample.world_1) /\
  Spec.one_active_run_per_key
    (BatchRun_objects
       (process_batch Sample.registry 7 None 3 2020 Sample.world_1).2) /\
  process_batch Sample.registry 7 None 3 2020
    (process_batch Sample.registry 7 None 3 2020 Sample.world_1).2
  = (Ok (PyList ["ProcessBatchSubmitError 2: Already run before"]),
     (process_batch Sample.registry 7 None 3 2020 Sample.world_1).2).
Proof.
  destruct (process_batch_idempotent Sample.registry 7 None 3 2020
              Sample.world_1) as (H1 & H2 & H3).
  split; [apply H1; reflexivity|]. split.
  - apply H2. apply one_active_run_singleton.
  - eapply H3. vm_compute. reflexivity.
Defined.

Lemma process_batch_returns_sample :
  process_batch Sample.registry 7 None 3 2020 Sample.world_0
  = (Ok PyNone,
     (do_process_batch Sample.registry 7 None Sample.march_last
        Sample.world_0).2) /\
  In Sample.run_1
    (BatchRun_objects
       (do_process_batch Sample.registry 7 None Sample.march_last
          Sample.world_0).2).
Proof.
  destruct (process_batch_returns Sample.registry 7 None 3 2020
              Sample.world_0) as (_ & _ & H3).
  assert (E1 : batch_run_already_executed 2020 3 None
                 (BatchRun_objects Sample.world_0) = false)
    by (vm_compute; reflexivity).
  assert (E2 : monthrange_days 2020 3 = Ok 31) by (vm_compute; reflexivity).
  assert (E3 : PyDate.new 2020 3 31 = Ok Sample.march_last)
    by (vm_compute; reflexivity).
  assert (E4 : do_process_batch Sample.registry 7 (normalize_location None)
                 Sample.march_last Sample.world_0
               = (Ok Sample.run_1,
                  (do_process_batch Sample.registry 7 None Sample.march_last
                     Sample.world_0).2))
    by (vm_compute; reflexivity).
  exact (H3 31 Sample.march_last (Ok Sample.run_1) _ E1 E2 E3 E4).
Defined.

(** C9 as stated fails: the run of March 2020 succeeds, and what
    [process_batch] returns is [None], not the run that was created. *)
Lemma process_batch_drops_created_run :
  (do_process_batch Sample.registry 7 None Sample.march_last
     Sample.world_0).1 = Ok Sample.run_1 /\
  (process_batch Sample.registry 7 None 3 2020 Sample.world_0).1
  = Ok PyNone /\
  (process_batch Sample.registry 7 None 3 2020 Sample.world_0).1
  <> Ok (PyBatchRun Sample.run_1).
Proof.
  assert (E : (process_batch Sample.registry 7 None 3 2020
                 Sample.world_0).1 = Ok PyNone)
    by (vm_compute; reflexivity).
  split; [vm_compute; reflexivity|]. split; [exact E|].
  rewrite E. discriminate.
Qed.

Lemma dispatch_unregistered_sample :
  (forall sd,
     dispatch_calculation Sample.registry BatchValuate Sample.plan_12
       Sample.work_data_0 7 None sd Sample.march_last Sample.world_0
     = (Ok tt, Sample.world_0)) /\
  plan_events Sample.registry BatchValuate 1 Sample.march_last Sample.plan_12
  = [].
Proof.
  destruct (dispatch_unregistered Sample.registry BatchValuate Sample.plan_12
              [] Sample.work_data_0 7 None Sample.product_1 ∅
              Sample.march_last Sample.world_0 eq_refl) as (H1 & H2 & _).
  split; [exact H1 | exact H2].
Defined.

Lemma do_process_batch_history_sample :
  exists h,
    events (do_process_batch Sample.registry 7 None Sample.march_last
              Sample.world_0).2 = (events Sample.world_0 ++ h)%list /\
    Spec.valuate_before_payment h /\
    h `prefix_of` run_events Sample.registry Sample.march_last None
                    (Product_objects Sample.world_0)
                    (PaymentPlan_objects Sample.world_0) /\
    (forall r,
       (do_process_batch Sample.registry 7 None Sample.march_last
          Sample.world_0).1 = Ok r ->
       h = run_events Sample.registry Sample.march_last None
             (Product_objects Sample.world_0)
             (PaymentPlan_objects Sample.world_0)).
Proof.
  exact (do_process_batch_valuate_before_payment Sample.registry 7 None
           Sample.march_last Sample.world_0).
Defined.

(** C5 as stated fails: with two plans on a product the second plan is
    valuated before the first plan is paid; the history is not the one in
    which each plan gets both contexts before the next plan. *)
Lemma payment_after_all_valuations :
  events (do_process_batch Sample.registry 7 None Sample.march_last
            Sample.world_0).2
  = [Called (Sample.march_dispatch BatchValuate 10);
     Completed (Sample.march_dispatch BatchValuate 10);
     Called (Sample.march_dispatch BatchValuate 11);
     Completed (Sample.march_dispatch BatchValuate 11);
     Called (Sample.march_dispatch BatchPayment 10);
     Completed (Sample.march_dispatch BatchPayment 10);
     Called (Sample.march_dispatch BatchPayment 11);
     Completed (Sample.march_dispatch BatchPayment 11)] /\
  events (do_process_batch Sample.registry 7 None Sample.march_last
            Sample.world_0).2
  <> Spec.plan_by_plan 1 (fun _ => (Sample.march_first, Sample.march_last))
       [Sample.plan_10; Sample.plan_11].
Proof.
  match goal with
  | |- ?a = ?b /\ _ => assert (E : a = b) by (vm_compute; reflexivity)
  end.
  split; [exact E|]. rewrite E. vm_compute. discriminate.
Qed.

(** The scenario of section 8: a monthly plan, a claim with an item valued
    300 and a service valued 200, no earlier run.  After the run the claim
    is VALUATED, carries the run and is remunerated 500; the claim with an
    item without price is as it was. *)
Lemma process_batch_end_to_end :
  Claim_objects
    (claim_store
       (process_batch Sample.registry 7 None 3 2020 Sample.world_0).2)
  = [mkClaim 1 STATUS_VALUATED (Some 1) (Some 50000) (mkdate 2020 3 10) None
       (Some (mkdate 2020 3 30));
     Sample.claim_2] /\
  BatchRun_objects
    (process_batch Sample.registry 7 None 3 2020 Sample.world_0).2
  = [Sample.run_1].
Proof. vm_compute. split; reflexivity. Qed.

(** When a rule fails, the error of code -1 carries its message; the run
    that was created stays in the table, the exception being caught inside
    the atomic block. *)
Lemma process_batch_failing_rule :
  (process_batch Sample.registry 7 None 3 2020 Sample.world_2).1
  = Ok (PyList ["ProcessBatchSubmitError -1: no price list"]) /\
  BatchRun_objects
    (process_batch Sample.registry 7 None 3 2020 Sample.world_2).2
  = [Sample.run_1].
Proof. vm_compute. split; reflexivity. Qed.

(** ** Report data *)

Module ReportFacts.
Import Report.



























(** *** Rows as the query returns them *)





(** *** Group sums of well-formed rows *)







(** *** Enrichment of a well-formed row *)





(** *** Sorting rows with string keys *)






(** *** The aggregation of well-formed rows *)





End ReportFacts.

(** ** The claim on [ReportDataService.fetch] *)

Section FetchClaims.
Variable gettext : string -> string.
Variable uspSSRSProcessBatchWithClaim : list Report.value ->
  result (list (option (list (list Report.value)))).
Variable uspSSRSProcessBatch : list Report.value ->
  result (list (option (list (list Report.value)))).

Let fetch := Report.fetch gettext uspSSRSProcessBatchWithClaim
               uspSSRSProcessBatch.
Let report_rows := Report.report_rows uspSSRSProcessBatchWithClaim
                     uspSSRSProcessBatch.

(** [fetch] on the rows the query returned. *)
Lemma fetch_on_rows prms rows :
  report_rows prms = Ok rows ->
  fetch prms
  = rbind (Report.comprehension
             (Report.row_of (Report.show_claims_of prms)) rows) (fun data =>
    match data with
    | [] => Raise (Report.nodata gettext)
    | _ :: _ =>
        if bool_decide (default "H" (prms !! "group") = "H") then
          rbind (Report.regions_sum data (Report.show_claims_of prms))
            (fun rs =>
          rbind (Report.districts_sum data (Report.show_claims_of prms))
            (fun ds =>
          rbind (Report.health_facilities_sum data
                   (Report.show_claims_of prms)) (fun hs =>
          Report.add_sums_by_hf data rs ds hs
            (Report.show_claims_of prms))))
        else
          rbind (Report.regions_sum data (Report.show_claims_of prms))
            (fun rs =>
          rbind (Report.districts_sum data (Report.show_claims_of prms))
            (fun ds =>
          rbind (Report.products_sum data (Report.show_claims_of prms))
            (fun ps =>
          Report.add_sums_by_prod data rs ds ps
            (Report.show_claims_of prms))))
    end).
Proof.
  unfold fetch, report_rows, Report.fetch, Report.report_rows,
    Report.process_batch_report_data_with_claims,
    Report.process_batch_report_data, Report.row_of.
  intros Hrows. destruct (Report.show_claims_of prms); rewrite Hrows;
    reflexivity.
Qed.

End FetchClaims.

(** On the sample the one line comes back with its three sums. *)
Lemma fetch_summary_sample_value :
  rmap (map (fun r : gmap string Report.value =>
               (r !! "RegionName", r !! "RemuneratedAmount",
                r !! "SUMR_RemuneratedAmount", r !! "SUMD_RemuneratedAmount",
                r !! "SUMHF_RemuneratedAmount")))
    (Report.fetch Sample.no_translation Sample.usp_nothing Sample.usp_summary
       ∅)
  = Ok [(Some (Report.VStr "Ultha"), Some (Report.VNum 50000),
         Some (Report.VNum 50000), Some (Report.VNum 50000),
         Some (Report.VNum 50000))].
Proof. vm_compute. reflexivity. Qed.

(** With no row the error is raised. *)
Lemma fetch_nothing_sample :
  Report.fetch Sample.no_translation Sample.usp_summary Sample.usp_nothing ∅
  = Raise (ValueError "claim_batch.reports.nodata").
Proof. vm_compute. reflexivity. Qed.

(** * Further properties of the module *)

(** ** The window of a plan *)

Lemma leb_first_day (y m m' d : Z) :
  m' <= m -> 1 <= d -> PyDate.leb (mkdate y m' 1) (mkdate y m d) = true.
Proof.
  intros Hm Hd. unfold PyDate.leb, PyDate.ltb. cbn [year month day].
  rewrite Z.ltb_irrefl, Z.eqb_refl. cbn [orb andb].
  destruct (Z.ltb_spec m m'); [lia|]. cbn [orb].
  destruct (Z.eqb_spec m m'); cbn [andb negb]; [|done].
  destruct (Z.ltb_spec d 1); [lia | done].
Qed.

Lemma get_start_date_april (end_date : date) :
  valid end_date -> month end_date = 4 ->
  get_start_date end_date 4 = Raise (ValueError "month must be in 1..12").
Proof.
  intros (Hy & Hm & Hd) H4. unfold get_start_date. rewrite H4. cbn.
  rewrite PyDateFacts.new_bad_month; [done | done | lia].
Qed.

(** X1: [get_start_date] fails only for periodicity 4 in April; a start
    date it returns is a date, the first day of a month of the year of the
    end date, not after the end date, [periodicity - 1] months before the
    month of the end date, and four months before it for periodicity 4. *)
Theorem get_start_date_window (end_date : date) (periodicity : Z) :
  valid end_date ->
  (forall e, get_start_date end_date periodicity = Raise e ->
             periodicity = 4 /\ month end_date = 4) /\
  (forall start_date,
     get_start_date end_date periodicity = Ok (Some start_date) ->
     valid start_date /\
     year start_date = year end_date /\ day start_date = 1 /\
     PyDate.leb start_date end_date = true /\
     month end_date - month start_date
     = if periodicity =? 4 then 4 else periodicity - 1).
Proof.
  intros Hv.
  destruct (decide (periodicity = 4 /\ month end_date = 4))
    as [[-> H4] | Hnot].
  - rewrite (get_start_date_april end_date Hv H4). split; [done|].
    intros sd. discriminate.
  - rewrite (get_start_date_table _ _ Hv Hnot). split; [discriminate|].
    intros sd [= Hres]. destruct Hv as (Hy & Hm & Hd).
    assert (Hsd : forall m',
              1 <= m' <= month end_date ->
              Some (Spec.first_day (year end_date) m') = Some sd ->
              valid sd /\ year sd = year end_date /\ day sd = 1 /\
              PyDate.leb sd end_date = true /\ month sd = m').
    { intros m' Hm' [= <-]. unfold Spec.first_day. cbn [year month day].
      split; [apply PyDateFacts.first_day_valid; lia|].
      split; [done|]. split; [done|]. split; [|done].
      destruct end_date as [y m d]. cbn [year month day] in *.
      apply leb_first_day; lia. }
    unfold Spec.resolve in Hres.
    repeat match type of Hres with
           | context [periodicity =? ?k] =>
               destruct (Z.eqb_spec periodicity k); subst
           end;
      repeat match type of Hres with
             | context [?a =? 0] => destruct (Z.eqb_spec a 0)
             | context [?a =? 12] => destruct (Z.eqb_spec a 12)
             end;
      try discriminate;
      (apply Hsd in Hres; [|try (Z.div_mod_to_equations; lia)]);
      destruct Hres as (? & ? & ? & ? & Hmonth); rewrite Hmonth;
      (split; [done|]); (split; [done|]); (split; [done|]);
      (split; [done|]); cbn; lia.
Qed.

Lemma get_start_date_window_june :
  valid (mkdate 2021 1 1) /\
  year (mkdate 2021 1 1) = 2021 /\ day (mkdate 2021 1 1) = 1 /\
  PyDate.leb (mkdate 2021 1 1) (mkdate 2021 6 30) = true /\
  6 - 1 = (if 6 =? 4 then 4 else 6 - 1).
Proof.
  destruct (get_start_date_window (mkdate 2021 6 30) 6
              ltac:(valid_date)) as [_ Hok].
  exact (Hok (mkdate 2021 1 1) ltac:(vm_compute; reflexivity)).
Defined.

(** ** The key of the allocation cache *)

Lemma four_digits_years :
  forallb (fun y =>
    (String.length (four_digits y) =? 4)%nat
    && (number (four_digits y) 0 =? y)) (seqZ 1 9999) = true.
Proof. vm_compute. reflexivity. Qed.

Lemma two_digits_days :
  forallb (fun n =>
    (String.length (two_digits n) =? 2)%nat
    && (number (two_digits n) 0 =? n)) (seqZ 1 31) = true.
Proof. vm_compute. reflexivity. Qed.

Lemma four_digits_shape (y : Z) :
  1 <= y <= 9999 ->
  exists a b c e,
    four_digits y = String a (String b (String c (String e EmptyString))) /\
    number (String a (String b (String c (String e EmptyString)))) 0 = y.
Proof.
  intros Hy. pose proof four_digits_years as Hall.
  rewrite forallb_forall in Hall. specialize (Hall y).
  destruct (four_digits y) as [|a [|b [|c [|e [|? ?]]]]] eqn:E;
    try (exfalso; assert (Hin : In y (seqZ 1 9999))
           by (apply list_elem_of_In, elem_of_seqZ; lia);
         specialize (Hall Hin); cbn in Hall; discriminate).
  exists a, b, c, e. split; [done|].
  assert (Hin : In y (seqZ 1 9999))
    by (apply list_elem_of_In, elem_of_seqZ; lia).
  specialize (Hall Hin). apply andb_true_iff in Hall as [_ Hn].
  by apply Z.eqb_eq in Hn.
Qed.

Lemma two_digits_shape (n : Z) :
  1 <= n <= 31 ->
  exists a b,
    two_digits n = String a (String b EmptyString) /\
    number (String a (String b EmptyString)) 0 = n.
Proof.
  intros Hn. pose proof two_digits_days as Hall.
  rewrite forallb_forall in Hall. specialize (Hall n).
  destruct (two_digits n) as [|a [|b [|? ?]]] eqn:E;
    try (exfalso; assert (Hin : In n (seqZ 1 31))
           by (apply list_elem_of_In, elem_of_seqZ; lia);
         specialize (Hall Hin); cbn in Hall; discriminate).
  exists a, b. split; [done|].
  assert (Hin : In n (seqZ 1 31))
    by (apply list_elem_of_In, elem_of_seqZ; lia).
  specialize (Hall Hin). apply andb_true_iff in Hall as [_ Hn'].
  by apply Z.eqb_eq in Hn'.
Qed.

Lemma date_of_str_str (d : date) : valid d -> date_of_str (PyDate.str d) = d.
Proof.
  intros (Hy & Hm & Hd). unfold MINYEAR, MAXYEAR in Hy.
  assert (Hd' : 1 <= day d <= 31).
  { split; [lia|]. etrans; [apply Hd|]. unfold days_in_month.
    PyDateFacts.month_split Hm;
      match goal with
      | H : month d = _ |- _ => rewrite H
      end; destruct (is_leap (year d)); cbn; lia. }
  destruct (four_digits_shape (year d) Hy) as (a & b & c & e & Ey & Ny).
  destruct (two_digits_shape (month d) ltac:(lia)) as (m1 & m2 & Em & Nm).
  destruct (two_digits_shape (day d) Hd') as (d1 & d2 & Ed & Nd).
  unfold PyDate.str, date_of_str. rewrite Ey, Em, Ed.
  match goal with
  | |- context [String.substring 0 4 ?s] =>
      change (String.substring 0 4 s)
        with (String a (String b (String c (String e EmptyString))));
      change (String.substring 5 2 s)
        with (String m1 (String m2 EmptyString));
      change (String.substring 8 2 s)
        with (String d1 (String d2 EmptyString))
  end.
  rewrite Ny, Nm, Nd. by destruct d.
Qed.

(** X2: the key under which [update_work_data] caches the allocation of a
    window, [str(start_date)], determines the start date: the date can be
    read back from the key, so two windows with different start dates
    never share an entry of the cache. *)
Theorem str_start_date_key (d1 d2 : date) :
  valid d1 -> valid d2 ->
  date_of_str (PyDate.str d1) = d1 /\
  (PyDate.str d1 = PyDate.str d2 -> d1 = d2).
Proof.
  intros H1 H2. split; [by apply date_of_str_str|]. intros E.
  rewrite <- (date_of_str_str d1 H1), <- (date_of_str_str d2 H2).
  by rewrite E.
Qed.

Lemma str_start_date_key_march :
  date_of_str (PyDate.str (mkdate 2020 3 1)) = mkdate 2020 3 1 /\
  (PyDate.str (mkdate 2020 3 1) = PyDate.str (mkdate 2020 1 1) ->
   mkdate 2020 3 1 = mkdate 2020 1 1).
Proof.
  apply (str_start_date_key (mkdate 2020 3 1) (mkdate 2020 1 1));
    valid_date.
Defined.

(** ** Report periods *)

(** X3: [get_period] never answers with the semester type '2' nor with the
    year type '1': a window of six or of twelve months meets the test of
    the quarter first and is reported as a quarter, with the end month
    divided by 3. *)
Theorem get_period_never_semester_nor_year (start_date end_date : date) :
  (get_period start_date end_date).1 <> Some "2" /\
  (get_period start_date end_date).1 <> Some "1" /\
  (month start_date <> month end_date ->
   (month start_date mod 6 = 1 /\ month end_date mod 6 = 0) \/
   (month start_date = 1 /\ month end_date = 12) ->
   get_period start_date end_date
   = (Some "4", Some (IdFloat (true_div (month end_date) 3)))).
Proof.
  unfold get_period.
  destruct (Z.eqb_spec (month start_date) (month end_date)) as [E | E].
  { cbn. split; [discriminate|]. split; [discriminate | done]. }
  destruct (Z.eqb_spec (month start_date mod 3) 1) as [E1 | E1];
    destruct (Z.eqb_spec (month end_date mod 3) 0) as [E2 | E2];
    cbn [andb fst].
  1: { split; [discriminate|]. split; [discriminate | done]. }
  all: destruct (Z.eqb_spec (month start_date mod 6) 1) as [E3 | E3];
    destruct (Z.eqb_spec (month end_date mod 6) 0) as [E4 | E4];
    cbn [andb fst];
    try (exfalso; Z.div_mod_to_equations; lia).
  all: destruct (Z.eqb_spec (month start_date) 1) as [E5 | E5];
    destruct (Z.eqb_spec (month end_date) 12) as [E6 | E6];
    cbn [andb fst];
    try (exfalso; Z.div_mod_to_equations; lia).
  all: (split; [discriminate|]; split; [discriminate|]);
    intros _ [[? ?] | [? ?]]; exfalso; Z.div_mod_to_equations; lia.
Qed.

Lemma get_period_year_2021 :
  get_period (mkdate 2021 1 1) (mkdate 2021 12 31)
  = (Some "4", Some (IdFloat (true_div 12 3))).
Proof.
  destruct (get_period_never_semester_nor_year (mkdate 2021 1 1)
              (mkdate 2021 12 31)) as (_ & _ & H).
  apply H; [cbn; lia | right; split; reflexivity].
Defined.

(** X4: [get_period] on the window [get_start_date] gives for a periodicity
    and an end date: a month for periodicity 1, a quarter for the
    periodicities 3, 6 and 12, and nothing at all for the periodicities 2
    and 4. *)
Theorem get_period_of_window (end_date start_date : date) (periodicity : Z) :
  valid end_date ->
  get_start_date end_date periodicity = Ok (Some start_date) ->
  get_period start_date end_date
  = if periodicity =? 1 then (Some "12", Some (IdInt (month end_date)))
    else if (periodicity =? 2) || (periodicity =? 4) then (None, None)
    else (Some "4", Some (IdFloat (true_div (month end_date) 3))).
Proof.
  intros Hv Hsd.
  destruct (decide (periodicity = 4 /\ month end_date = 4))
    as [[-> H4] | Hnot].
  { rewrite (get_start_date_april end_date Hv H4) in Hsd. discriminate. }
  rewrite (get_start_date_table _ _ Hv Hnot) in Hsd.
  injection Hsd as Hres. destruct Hv as (Hy & Hm & Hd).
  destruct end_date as [y m d]. unfold Spec.resolve in Hres.
  cbn [year month day] in *.
  repeat match type of Hres with
         | context [periodicity =? ?k] =>
             destruct (Z.eqb_spec periodicity k); subst
         end;
    repeat match type of Hres with
           | context [?a =? 0] => destruct (Z.eqb_spec a 0)
           | context [?a =? 12] => destruct (Z.eqb_spec a 12)
           end;
    try discriminate;
    injection Hres as <-; unfold get_period, Spec.first_day;
    cbn [year month day];
    PyDateFacts.month_split Hm;
    try (exfalso; Z.div_mod_to_equations; lia); reflexivity.
Qed.

Lemma get_period_of_window_june :
  get_period (mkdate 2021 1 1) (mkdate 2021 6 30)
  = (Some "4", Some (IdFloat (true_div 6 3))).
Proof.
  exact (get_period_of_window (mkdate 2021 6 30) (mkdate 2021 1 1) 6
           ltac:(valid_date) ltac:(vm_compute; reflexivity)).
Defined.

(** ** Capitation: region and district *)

Lemma Location_objects_get_found Location_objects pk location :
  Location_objects_get Location_objects pk = inr location ->
  In location Location_objects /\ loc_id location = pk.
Proof.
  unfold Location_objects_get.
  destruct (List.find _ Location_objects) as [l|] eqn:E; [|done].
  intros [= <-]. apply List.find_some in E as [Hin Hid].
  split; [done|]. by apply Z.eqb_eq.
Qed.

(** X5: [_get_capitation_region_and_district] answers (None, None) for no
    location and for location 0 without reading the table.  What it
    returns for a location is the district with the region above it when
    the location is a district, the region alone when it is a region, and
    (None, None) for a location of any other type; it never returns a
    district without a region. *)
Theorem capitation_region_and_district Location_objects :
  _get_capitation_region_and_district Location_objects None
  = inr (None, None) /\
  _get_capitation_region_and_district Location_objects (Some 0)
  = inr (None, None) /\
  forall location_id region_id district_id,
    _get_capitation_region_and_district Location_objects location_id
    = inr (region_id, district_id) ->
    match district_id, region_id with
    | Some d, Some r =>
        location_id = Some d /\
        exists location,
          In location Location_objects /\ loc_id location = d /\
          loc_type location = "D" /\ loc_parent location = Some r
    | Some d, None => False
    | None, Some r =>
        location_id = Some r /\
        exists location,
          In location Location_objects /\ loc_id location = r /\
          loc_type location = "R"
    | None, None =>
        location_id = None \/ location_id = Some 0 \/
        exists location,
          In location Location_objects /\
          Some (loc_id location) = location_id /\
          loc_type location <> "D" /\ loc_type location <> "R"
    end.
Proof.
  split; [done|]. split; [done|]. intros location_id region_id district_id.
  unfold _get_capitation_region_and_district.
  destruct location_id as [l|]; [|intros [= <- <-]; by left].
  destruct (Z.eqb_spec l 0) as [-> | Hl]; [intros [= <- <-]; auto|].
  destruct (Location_objects_get Location_objects l) as [e | location] eqn:E;
    [done|].
  apply Location_objects_get_found in E as [Hin Hid].
  destruct (String.eqb_spec (loc_type location) "D") as [HD | HD].
  - destruct (loc_parent location) as [parent|] eqn:Hp; [|done].
    intros [= <- <-]. split; [done|]. by exists location.
  - destruct (String.eqb_spec (loc_type location) "R") as [HR | HR].
    + intros [= <- <-]. rewrite Hid. split; [done|]. by exists location.
    + intros [= <- <-]. right. right. exists location. by rewrite Hid.
Qed.

Lemma capitation_region_and_district_sample :
  exists location,
    In location SampleX.Location_objects /\ loc_id location = 2 /\
    loc_type location = "D" /\ loc_parent location = Some 1.
Proof.
  destruct (capitation_region_and_district SampleX.Location_objects)
    as (_ & _ & H).
  exact (proj2 (H (Some 2) (Some 1) (Some 2)
                  ltac:(vm_compute; reflexivity))).
Defined.

(** A ward is answered like no location at all, a district without a
    region above it is an error, and so is a location that is not in the
    table. *)
Lemma capitation_ward_and_orphan :
  _get_capitation_region_and_district SampleX.Location_objects (Some 3)
  = inr (None, None) /\
  _get_capitation_region_and_district SampleX.Location_objects (Some 4)
  = inl (AttributeError "'NoneType' object has no attribute 'id'") /\
  _get_capitation_region_and_district SampleX.Location_objects (Some 9)
  = inl DoesNotExist.
Proof. vm_compute. repeat split. Qed.

(** ** The orchestrator: which rules are called, and what a run leaves *)

Lemma in_product_queryset (product : Product) ed loc products :
  In product (get_product_queryset ed loc products) ->
  In product products /\
  product_validity_to product = None /\
  product_location_id product = loc /\
  PyDate.leb (date_from product) ed = true /\
  match date_to product with
  | Some t => PyDate.leb ed t = true
  | None => True
  end.
Proof.
  unfold get_product_queryset.
  assert (Hq : forall p,
            In p (List.filter (fun p =>
                    is_null (product_validity_to p) &&
                    PyDate.leb (date_from p) ed &&
                    match date_to p with
                    | Some t => PyDate.leb ed t
                    | None => true
                    end) products) ->
            In p products /\ product_validity_to p = None /\
            PyDate.leb (date_from p) ed = true /\
            match date_to p with
            | Some t => PyDate.leb ed t = true
            | None => True
            end).
  { intros p Hp. apply List.filter_In in Hp as [Hin Hf].
    apply andb_true_iff in Hf as [Hf Hto].
    apply andb_true_iff in Hf as [Hnull Hfrom].
    split; [done|]. split; [by destruct (product_validity_to p)|].
    split; [done|]. by destruct (date_to p). }
  destruct loc as [l|]; intros Hin; apply List.filter_In in Hin as [Hin Hl];
    destruct (Hq product Hin) as (? & ? & ? & ?).
  - unfold opt_Z_eqb in Hl. apply bool_decide_eq_true in Hl. done.
  - split; [done|]. split; [done|].
    split; [by destruct (product_location_id product) | done].
Qed.

Lemma in_payment_plan_queryset (plan : PaymentPlan) product ed plans :
  In plan (get_payment_plan_queryset product ed plans) ->
  In plan plans /\
  is_deleted plan = false /\
  benefit_plan plan = product_id product /\
  PyDate.leb (date_valid_from plan) ed = true /\
  PyDate.leb ed (date_valid_to plan) = true.
Proof.
  unfold get_payment_plan_queryset. intros Hin.
  apply List.filter_In in Hin as [Hin Hf].
  apply andb_true_iff in Hf as [Hf Hdel].
  apply andb_true_iff in Hf as [Hf Hplan].
  apply andb_true_iff in Hf as [Hto Hfrom].
  apply Z.eqb_eq in Hplan. apply negb_true_iff in Hdel. done.
Qed.

Section EngineExtras.
Context {num : Type} `{PyNum num}.
Variable reg : string -> option (Calculation num).

(** X6: every call of a rule in a run is for a product of the run's
    location that is in force at the end date, and for a payment plan of
    that product that is not deleted, is valid at the end date, has a
    window ending at the end date and has a registered calculation; a run
    calls nothing else. *)
Theorem do_process_batch_calls_due_plans u loc ed (w : World num) :
  exists h,
    events (do_process_batch reg u loc ed w).2 = (events w ++ h)%list /\
    Forall (fun e =>
      exists product plan sd context,
        (e = Called (mkDispatch context (product_id product) (plan_id plan)
                       sd ed) \/
         e = Completed (mkDispatch context (product_id product)
                          (plan_id plan) sd ed)) /\
        In product (Product_objects w) /\
        product_validity_to product = None /\
        product_location_id product = loc /\
        PyDate.leb (date_from product) ed = true /\
        match date_to product with
        | Some t => PyDate.leb ed t = true
        | None => True
        end /\
        In plan (PaymentPlan_objects w) /\
        is_deleted plan = false /\
        benefit_plan plan = product_id product /\
        PyDate.leb (date_valid_from plan) ed = true /\
        PyDate.leb ed (date_valid_to plan) = true /\
        get_start_date ed (periodicity plan) = Ok (Some sd) /\
        reg (calculation plan) <> None) h.
Proof.
  destruct (do_process_batch reg u loc ed w) as [r w1] eqn:Hrun.
  destruct (do_process_batch_effect reg _ _ _ _ _ _ Hrun)
    as (s & h & -> & Hpre & _).
  exists h. cbn [snd events]. split; [done|].
  apply Forall_forall. intros e He.
  assert (Hin : In e (run_events reg ed loc (Product_objects w)
                        (PaymentPlan_objects w))).
  { destruct Hpre as [k ->]. apply in_or_app. left.
    by apply list_elem_of_In. }
  unfold run_events in Hin. apply in_flat_map in Hin as (product & Hp & Hin).
  apply in_product_queryset in Hp as (Hp & Hvt & Hloc & Hfrom & Hto).
  unfold product_events in Hin.
  assert (Hpass : exists context,
            In e (pass_events reg context (product_id product) ed
                    (get_payment_plan_queryset product ed
                       (PaymentPlan_objects w)))).
  { apply in_app_or in Hin as [Hin | Hin]; eauto. }
  destruct Hpass as [context Hpass].
  apply in_pass_events in Hpass as (plan & sd & Hplan & Hsd & Hreg & He').
  apply in_payment_plan_queryset in Hplan as (? & ? & ? & ? & ?).
  exists product, plan, sd, context. done.
Qed.

(** A pass over plans none of which is due does nothing. *)
Lemma trigger_plans_idle plans : forall context wd ed product loc ac user
    (w : World num),
  Forall (fun plan => get_start_date ed (periodicity plan) = Ok None) plans ->
  trigger_plans reg plans context wd ed product loc ac user w
  = (Ok (ac, wd), w).
Proof.
  induction plans as [|plan rest IH];
    intros context wd ed product loc ac user w Hall; [done|].
  apply Forall_cons in Hall as [Hplan Hrest].
  cbn [trigger_plans]. unfold bind at 1. unfold lift at 1.
  rewrite Hplan. by apply IH.
Qed.

Lemma process_products_idle products : forall run ed loc user
    (w : World num),
  (forall product plan,
     In product products ->
     In plan (get_payment_plan_queryset product ed (PaymentPlan_objects w)) ->
     get_start_date ed (periodicity plan) = Ok None) ->
  process_products reg products run ed loc user w = (Ok tt, w).
Proof.
  induction products as [|product rest IH]; intros run ed loc user w Hall;
    [done|].
  cbn [process_products]. unfold bind at 1.
  assert (Hone : process_product reg run ed loc user product w = (Ok tt, w)).
  { unfold process_product. unfold bind at 1. unfold gets at 1.
    assert (Hplans : Forall (fun plan =>
                       get_start_date ed (periodicity plan) = Ok None)
                       (get_payment_plan_queryset product ed
                          (PaymentPlan_objects w))).
    { apply Forall_forall. intros plan Hplan.
      apply (Hall product plan); [by left | by apply list_elem_of_In]. }
    unfold trigger_calculation_based_on_context. cbn [payment_plans].
    destruct (get_payment_plan_queryset product ed (PaymentPlan_objects w))
      as [|plan plans] eqn:Eq; [done|].
    unfold bind at 1. rewrite trigger_plans_idle by done.
    cbn [payment_plans].
    unfold bind at 1. rewrite trigger_plans_idle by done. done. }
  rewrite Hone. apply IH. intros p plan Hp. apply Hall. by right.
Qed.

(** X7: when no plan of the products of the location is due at the end
    date, a run records itself and does nothing else: it returns the run
    it created, calls no rule, leaves the claim tables as they are and
    reads no contribution, whatever state the contributions are in. *)
Theorem do_process_batch_nothing_due u loc ed (w : World num) :
  (forall product plan,
     In product (get_product_queryset ed loc (Product_objects w)) ->
     In plan (get_payment_plan_queryset product ed (PaymentPlan_objects w)) ->
     get_start_date ed (periodicity plan) = Ok None) ->
  do_process_batch reg u loc ed w
  = (Ok (created_by u loc ed w),
     mkWorld (BatchRun_objects w ++ [created_by u loc ed w])
       (BatchRun_sequence w + 1) (now w) (Product_objects w)
       (PaymentPlan_objects w) (Premium_objects w) (claim_store w)
       (events w)).
Proof.
  intros Hall. unfold do_process_batch, created_by.
  unfold bind at 1. unfold TimeUtils_now at 1. unfold gets at 1.
  unfold bind at 1. unfold TimeUtils_now at 1. unfold gets at 1.
  unfold bind at 1. unfold BatchRun_objects_create at 1.
  unfold bind at 1. unfold gets at 1. cbn [Product_objects].
  unfold bind at 1. rewrite process_products_idle; [done|].
  cbn [PaymentPlan_objects]. exact Hall.
Qed.

(** X8: a period that is not a month of a year is not reported as an
    error of the batch: when no run is recorded for it, [process_batch]
    raises [ValueError], for a month outside 1..12 from
    [calendar.monthrange] and for a year outside 1..9999 from the date
    constructor, and changes nothing. *)
Theorem process_batch_bad_period u loc period year (w : World num) :
  batch_run_already_executed year period loc (BatchRun_objects w) = false ->
  (~ 1 <= period <= 12 ->
   process_batch reg u loc period year w
   = (Raise (ValueError ("bad month number " +:+ pretty period +:+
                         "; must be 1-12")), w)) /\
  (1 <= period <= 12 -> ~ 1 <= year <= 9999 ->
   process_batch reg u loc period year w
   = (Raise (ValueError ("year " +:+ pretty year +:+ " is out of range")),
      w)).
Proof.
  intros Hex.
  assert (Hact : active_runs year period (normalize_location loc)
                   (BatchRun_objects w) = []).
  { destruct (active_runs _ _ _ _) eqn:E; [done|].
    assert (batch_run_already_executed year period loc (BatchRun_objects w)
            = true) by (apply already_executed_active; by rewrite E).
    congruence. }
  rewrite process_batch_cases, Hact. split.
  - intros Hp. unfold monthrange_days.
    destruct (Z.leb_spec 1 period), (Z.leb_spec period 12); try lia; done.
  - intros Hp Hy. unfold monthrange_days, PyDate.new, MINYEAR, MAXYEAR.
    destruct (Z.leb_spec 1 period), (Z.leb_spec period 12); try lia.
    cbn [andb negb].
    destruct (Z.leb_spec 1 year), (Z.leb_spec year 9999); try lia; done.
Qed.

(** X9: [process_batch] returns the error of code 2 exactly when a run is
    recorded for the period and location: no failure of the processing is
    reported as AlreadyRun. *)
Theorem process_batch_already_run_iff u loc period year (w : World num) :
  (process_batch reg u loc period year w).1
  = Ok (PyList ["ProcessBatchSubmitError 2: Already run before"]) <->
  batch_run_already_executed year period loc (BatchRun_objects w) = true.
Proof.
  rewrite already_executed_active, process_batch_cases.
  destruct (active_runs year period (normalize_location loc)
              (BatchRun_objects w)) as [|r0 rs].
  - split; [|done]. intros Hret. exfalso.
    destruct (monthrange_days year period) as [dim|e]; [|done].
    destruct (PyDate.new year period dim) as [end_date|e]; [|done].
    destruct (do_process_batch reg u (normalize_location loc) end_date w)
      as [[run|exc] w1]; [done|].
    destruct (is_Exception exc); [|done].
    cbn [fst] in Hret. rewrite processing_error_message in Hret.
    cbn in Hret. discriminate.
  - split; [done|]. intros _. by rewrite already_run_message.
Qed.


(** *** The cache of allocated contributions *)

Lemma update_work_data_cache wd product sd ed ac (w : World num) ac1 wd1 w1 :
  update_work_data wd product sd ed ac w = (Ok (ac1, wd1), w1) ->
  ac ⊆ ac1 /\
  exists v,
    ac1 !! PyDate.str sd = Some v /\
    option_map (allocated_contributions num) (window wd1) = Some v.
Proof.
  unfold update_work_data, bind, gets, ret, lift. cbn.
  destruct (ac !! PyDate.str sd) as [v|] eqn:Eac; cbn.
  - intros [= <- <- <-]. split; [done|]. exists v. done.
  - destruct (get_allocated_premium _ sd ed) as [v|e]; cbn; [|done].
    intros [= <- <- <-]. split; [by apply insert_subseteq|].
    exists v. by rewrite lookup_insert_eq.
Qed.

Lemma update_work_data_hit wd product sd ed ac v (w : World num) :
  ac !! PyDate.str sd = Some v ->
  exists wd1,
    update_work_data wd product sd ed ac w = (Ok (ac, wd1), w) /\
    option_map (allocated_contributions num) (window wd1) = Some v.
Proof.
  intros Hac. unfold update_work_data, bind, gets, ret, lift. cbn.
  rewrite Hac. eexists. split; [reflexivity|]. done.
Qed.

Lemma trigger_plans_cache plans : forall context wd ed product loc ac user
    (w : World num) ac' wd' w',
  trigger_plans reg plans context wd ed product loc ac user w
  = (Ok (ac', wd'), w') ->
  ac ⊆ ac' /\
  forall plan sd,
    In plan plans -> get_start_date ed (periodicity plan) = Ok (Some sd) ->
    is_Some (ac' !! PyDate.str sd).
Proof.
  induction plans as [|plan rest IH];
    intros context wd ed product loc ac user w ac' wd' w' Hrun.
  - injection Hrun as <- <- <-. split; [done|]. intros plan sd [].
  - cbn [trigger_plans] in Hrun.
    unfold bind at 1 in Hrun. unfold lift at 1 in Hrun.
    destruct (get_start_date ed (periodicity plan)) as [[sd|]|e] eqn:Esd;
      [| |done].
    + unfold bind at 1 in Hrun.
      destruct (update_work_data wd product sd ed ac w)
        as [[[ac1 wd1]|e] w1] eqn:Eu; [|done].
      destruct (update_work_data_cache _ _ _ _ _ _ _ _ _ Eu)
        as (Hsub1 & v & Hv & _).
      unfold bind at 1 in Hrun.
      destruct (dispatch_calculation reg context plan wd1 user loc sd ed w1)
        as [[[]|e] w2]; [|done].
      destruct (IH _ _ _ _ _ _ _ _ _ _ _ Hrun) as [Hsub2 Hrest].
      split; [by etrans|].
      intros plan' sd' [<- | Hin] Hsd'.
      * assert (sd' = sd) as -> by congruence.
        exists v. by eapply lookup_weaken.
      * by eapply Hrest.
    + destruct (IH _ _ _ _ _ _ _ _ _ _ _ Hrun) as [Hsub Hrest].
      split; [done|].
      intros plan' sd' [<- | Hin] Hsd'; [congruence | by eapply Hrest].
Qed.

(** X11: a pass over the plans of a product that returns has put the
    allocated contribution of every window it met into the cache and has
    kept the entries the cache had; for each of these windows the next
    pass takes the value from the cache: the window data is assembled
    without computing an allocation, so it cannot fail there, whatever the
    contributions are by then. *)
Theorem trigger_calculation_caches_allocations context wd ed product loc ac
    user (w : World num) ac' wd' :
  (trigger_calculation_based_on_context reg context wd ed product loc ac
     user w).1 = Ok (ac', wd') ->
  ac ⊆ ac' /\
  forall plan sd,
    In plan (payment_plans wd) ->
    get_start_date ed (periodicity plan) = Ok (Some sd) ->
    exists v,
      ac' !! PyDate.str sd = Some v /\
      forall wd0 (w0 : World num),
        exists wd1,
          update_work_data wd0 product sd ed ac' w0 = (Ok (ac', wd1), w0) /\
          option_map (allocated_contributions num) (window wd1) = Some v.
Proof.
  unfold trigger_calculation_based_on_context.
  destruct (payment_plans wd) as [|plan0 plans0] eqn:Ep.
  - intros [= <- <-]. split; [done|]. intros plan sd [].
  - destruct (trigger_plans reg (plan0 :: plans0) context wd ed product loc
                ac user w) as [r w'] eqn:Hrun.
    cbn [fst]. intros ->.
    destruct (trigger_plans_cache _ _ _ _ _ _ _ _ _ _ _ _ Hrun)
      as [Hsub Hall].
    split; [done|]. intros plan sd Hin Hsd.
    destruct (Hall plan sd Hin Hsd) as [v Hv]. exists v. split; [done|].
    intros wd0 w0. by apply update_work_data_hit.
Qed.

End EngineExtras.

Lemma do_process_batch_nothing_due_january :
  do_process_batch Sample.registry 7 None SampleX.january_last
    SampleX.world_4
  = (Ok (mkBatchRun 1 None 2020 1 1000 7 1000 None),
     mkWorld [mkBatchRun 1 None 2020 1 1000 7 1000 None] 2 1000
       [Sample.product_1] [SampleX.plan_15] [Sample.empty_premium]
       Sample.claim_store_0 []).
Proof.
  apply (do_process_batch_nothing_due Sample.registry 7 None
           SampleX.january_last SampleX.world_4).
  intros product plan Hp Hplan.
  apply in_payment_plan_queryset in Hplan as [Hplan _].
  cbn in Hplan. destruct Hplan as [<- | []]. reflexivity.
Defined.

Lemma process_batch_bad_period_sample :
  process_batch Sample.registry 7 None 13 2020 Sample.world_0
  = (Raise (ValueError "bad month number 13; must be 1-12"), Sample.world_0).
Proof.
  destruct (process_batch_bad_period Sample.registry 7 None 13 2020
              Sample.world_0 ltac:(vm_compute; reflexivity)) as [Hm _].
  apply Hm. lia.
Defined.


(** The same run stopped by the failure of a rule: the claims the rule
    had written stay VALUATED under a run that failed. *)
Lemma process_batch_failed_run_written :
  (process_batch SampleX.faulty_registry 7 None 3 2020 SampleX.world_5).1
  = Ok (PyList ["ProcessBatchSubmitError -1: no price list"]) /\
  map status
    (Claim_objects
       (claim_store
          (process_batch SampleX.faulty_registry 7 None 3 2020 SampleX.world_5).2))
  = [STATUS_VALUATED; STATUS_VALUATED] /\
  BatchRun_objects
    (process_batch SampleX.faulty_registry 7 None 3 2020 SampleX.world_5).2
  = [Sample.run_1].
Proof. vm_compute. repeat split. Qed.

Lemma trigger_calculation_caches_allocations_sample :
  exists v : Qc,
    (<["2020-03-01" := Q2Qc 31]> ∅ : gmap string Qc) !! PyDate.str
      Sample.march_first = Some v /\
    forall wd0 (w0 : World Qc),
      exists wd1,
        update_work_data wd0 Sample.product_1 Sample.march_first
          Sample.march_last (<["2020-03-01" := Q2Qc 31]> ∅) w0
        = (Ok (<["2020-03-01" := Q2Qc 31]> ∅, wd1), w0) /\
        option_map (allocated_contributions Qc) (window wd1) = Some v.
Proof.
  assert (E : (trigger_calculation_based_on_context Sample.registry
                 BatchValuate Sample.work_data_0 Sample.march_last
                 Sample.product_1 None ∅ 7 Sample.world_0).1
              = Ok (<["2020-03-01" := Q2Qc 31]> ∅,
                    (default (∅, Sample.work_data_0)
                       match (trigger_calculation_based_on_context
                                Sample.registry BatchValuate
                                Sample.work_data_0 Sample.march_last
                                Sample.product_1 None ∅ 7
                                Sample.world_0).1 with
                       | Ok x => Some x
                       | Raise _ => None
                       end).2)).
  { vm_compute. reflexivity. }
  destruct (trigger_calculation_caches_allocations Sample.registry
              BatchValuate Sample.work_data_0 Sample.march_last
              Sample.product_1 None ∅ 7 Sample.world_0 _ _ E) as [_ Hall].
  apply (Hall Sample.plan_10 Sample.march_first).
  - cbn. auto.
  - vm_compute. reflexivity.
Defined.

(** ** Claim finalization, once more *)

(** X12: [update_claim_valuated] writes the claim table only, keeps its
    rows in place, and what it writes to a claim depends on the claim's
    key, its items and its services alone: applied a second time, with a
    claim-level value that is a function of the claim's key, it changes
    nothing. *)
Theorem update_claim_valuated_twice (claims : Claim -> bool)
    (run : BatchRun) (claim_based_value : Claim -> option Z)
    (s : ClaimStore) :
  (forall c c', claim_pk c = claim_pk c' ->
                claim_based_value c = claim_based_value c') ->
  update_claim_valuated claims run claim_based_value
    (update_claim_valuated claims run claim_based_value s)
  = update_claim_valuated claims run claim_based_value s /\
  ClaimItem_objects (update_claim_valuated claims run claim_based_value s)
  = ClaimItem_objects s /\
  ClaimService_objects (update_claim_valuated claims run claim_based_value s)
  = ClaimService_objects s /\
  map (fun c => (claim_pk c, claim_validity_from c, claim_validity_to c,
                 process_stamp c))
    (Claim_objects (update_claim_valuated claims run claim_based_value s))
  = map (fun c => (claim_pk c, claim_validity_from c, claim_validity_to c,
                   process_stamp c)) (Claim_objects s).
Proof.
  intros Hpk. unfold update_claim_valuated.
  cbn [Claim_objects ClaimItem_objects ClaimService_objects].
  split; [|split; [done|split; [done|]]].
  - f_equal. rewrite map_map. apply map_ext. intros c.
    destruct (claims c) eqn:Hc; [|by rewrite Hc].
    match goal with
    | |- (if claims ?c1 then _ else _) = _ => destruct (claims c1)
    end; [|done].
    cbn [claim_pk claim_validity_from claim_validity_to process_stamp].
    do 4 f_equal. by apply Hpk.
  - rewrite map_map. apply map_ext. intros c. by destruct (claims c).
Qed.

Lemma update_claim_valuated_twice_sample :
  update_claim_valuated Sample.valuated_claims Sample.run_1 (fun _ => Some 0)
    (update_claim_valuated Sample.valuated_claims Sample.run_1
       (fun _ => Some 0) Sample.claim_store_0)
  = update_claim_valuated Sample.valuated_claims Sample.run_1
      (fun _ => Some 0) Sample.claim_store_0.
Proof.
  apply (update_claim_valuated_twice Sample.valuated_claims Sample.run_1
           (fun _ => Some 0) Sample.claim_store_0).
  intros c c' _. reflexivity.
Defined.

(** ** Allocated contribution, on exact rationals *)

Module AllocationExact.

Lemma leb_toordinal (a b : date) :
  valid a -> valid b -> PyDate.leb a b = (toordinal a <=? toordinal b).
Proof.
  intros Ha Hb. unfold PyDate.leb.
  rewrite (PyDateFacts.toordinal_ltb b a Hb Ha). symmetry.
  apply Z.leb_antisym.
Qed.

Lemma inject_nonzero (d : Z) : d <> 0 -> Q2Qc (inject_Z d) <> 0%Qc.
Proof.
  intros Hd E. apply Q2Qc_eq_iff in E. apply Hd.
  unfold Qeq in E. cbn in E. lia.
Qed.

Lemma inject_add (d1 d2 : Z) :
  Q2Qc (inject_Z (d1 + d2))
  = (Q2Qc (inject_Z d1) + Q2Qc (inject_Z d2))%Qc.
Proof.
  apply Qc_is_canon. cbn [this Qcplus Q2Qc]. rewrite !Qred_correct.
  rewrite inject_Z_plus. apply Qeq_refl.
Qed.

Lemma inject_zero : Q2Qc (inject_Z 0) = 0%Qc.
Proof. by apply Qc_is_canon. Qed.

(** The loop adds the share of each contribution. *)
Lemma allocate_shares (premiums : list (Premium Qc)) (s e : date) :
  forall acc : Qc,
    Forall (fun p => policy_duration p <> 0) premiums ->
    allocate premiums s e acc
    = Ok (acc + foldr (fun p t => share p s e + t) 0 premiums)%Qc.
Proof.
  induction premiums as [|p rest IH]; intros acc Hall.
  - cbn. f_equal. ring.
  - apply Forall_cons in Hall as [Hp Hrest]. cbn [allocate foldr].
    destruct (Z.eqb_spec (policy_duration p) 0); [done|].
    rewrite IH by done. f_equal. unfold share.
    cbn [add div_int mul_int Qc_PyNum]. ring.
Qed.

Lemma foldr_filter_shares (f : Premium Qc -> bool) (g : Premium Qc -> Qc)
    (premiums : list (Premium Qc)) :
  foldr (fun p t => g p + t)%Qc 0%Qc (List.filter f premiums)
  = foldr (fun p t => (if f p then g p else 0) + t)%Qc 0%Qc premiums.
Proof.
  induction premiums as [|p rest IH]; [done|]. cbn [List.filter foldr].
  destruct (f p); cbn [foldr]; rewrite IH; [done | ring].
Qed.

Lemma foldr_add_shares (g g1 g2 : Premium Qc -> Qc)
    (premiums : list (Premium Qc)) :
  Forall (fun p => g p = g1 p + g2 p)%Qc premiums ->
  foldr (fun p t => g p + t)%Qc 0%Qc premiums
  = (foldr (fun p t => g1 p + t) 0 premiums
     + foldr (fun p t => g2 p + t) 0 premiums)%Qc.
Proof.
  induction 1 as [|p rest Hp _ IH]; cbn [foldr]; [ring|].
  rewrite IH, Hp. ring.
Qed.

Lemma share_days (p : Premium Qc) (s e s' e' : date) :
  allocation_diff p s e = allocation_diff p s' e' ->
  share p s e = share p s' e'.
Proof. unfold share. by intros ->. Qed.

Lemma share_days_add (p : Premium Qc) (s e s1 e1 s2 e2 : date) :
  allocation_diff p s e = allocation_diff p s1 e1 + allocation_diff p s2 e2 ->
  share p s e = (share p s1 e1 + share p s2 e2)%Qc.
Proof.
  unfold share. intros ->. cbn [div_int mul_int Qc_PyNum].
  rewrite inject_add. unfold Qcdiv. ring.
Qed.

Lemma allocation_diff_ordinal (p : Premium Qc) (s e : date) :
  valid s -> valid e ->
  valid (effective_date (policy p)) -> valid (expiry_date (policy p)) ->
  allocation_diff p s e
  = Z.min (toordinal e) (toordinal (expiry_date (policy p)))
    - Z.max (toordinal (effective_date (policy p))) (toordinal s) + 1.
Proof.
  intros Hs He Hf Hx. unfold allocation_diff, sub_days.
  by rewrite PyDateFacts.toordinal_max, PyDateFacts.toordinal_min.
Qed.

Lemma ratio_bounds (d D : Z) :
  1 <= d <= D ->
  (0 <= Q2Qc (inject_Z d) / Q2Qc (inject_Z D))%Qc /\
  (Q2Qc (inject_Z d) / Q2Qc (inject_Z D) <= 1)%Qc.
Proof.
  intros Hd. unfold Qcle. cbn [this Qcdiv Qcmult Qcinv Q2Qc].
  rewrite !Qred_correct.
  change (Qred 0) with (inject_Z 0). change (Qred 1) with (inject_Z 1).
  assert (HD : (inject_Z 0 < inject_Z D)%Q) by (rewrite <- Zlt_Qlt; lia).
  split.
  - apply Qle_shift_div_l; [done|]. rewrite Qmult_0_l.
    change 0%Q with (inject_Z 0). rewrite <- Zle_Qle. lia.
  - apply Qle_shift_div_r; [done|]. rewrite Qmult_1_l.
    rewrite <- Zle_Qle. lia.
Qed.

Lemma share_bounds (p : Premium Qc) (s e : date) :
  (0 <= amount p)%Qc ->
  1 <= allocation_diff p s e <= policy_duration p ->
  (0 <= share p s e)%Qc /\ (share p s e <= amount p)%Qc.
Proof.
  intros Ha Hd. destruct (ratio_bounds _ _ Hd) as [H0 H1].
  unfold share. cbn [div_int mul_int Qc_PyNum].
  set (r := (Q2Qc (inject_Z (allocation_diff p s e))
             / Q2Qc (inject_Z (policy_duration p)))%Qc) in *.
  replace (amount p * Q2Qc (inject_Z (allocation_diff p s e))
           / Q2Qc (inject_Z (policy_duration p)))%Qc
    with (r * amount p)%Qc by (unfold r, Qcdiv; ring).
  split.
  - replace 0%Qc with (0 * amount p)%Qc by ring.
    by apply Qcmult_le_compat_r.
  - replace (amount p) with (1 * amount p)%Qc at 2 by ring.
    by apply Qcmult_le_compat_r.
Qed.

End AllocationExact.

(** X13: a contribution whose policy lies inside the window, from its
    effective date to its expiry, is allocated in full: for such
    contributions [get_allocated_premium] is the sum of the amounts. *)
Theorem get_allocated_premium_inside (premiums : list (Premium Qc))
    (start_date end_date : date) :
  valid start_date -> valid end_date ->
  Forall (fun p =>
    valid (effective_date (policy p)) /\ valid (expiry_date (policy p)) /\
    PyDate.leb start_date (effective_date (policy p)) = true /\
    PyDate.leb (effective_date (policy p)) (expiry_date (policy p)) = true /\
    PyDate.leb (expiry_date (policy p)) end_date = true) premiums ->
  get_allocated_premium premiums start_date end_date
  = Ok (foldr (fun p t => amount p + t) 0 premiums)%Qc.
Proof.
  intros Hs He Hall. unfold get_allocated_premium.
  assert (Hdur : Forall (fun p : Premium Qc => policy_duration p <> 0)
                   premiums).
  { eapply Forall_impl; [exact Hall|]. intros p (Hf & Hx & _ & Hfx & _).
    apply PyDateFacts.toordinal_leb in Hfx; [|done..].
    unfold policy_duration, sub_days. lia. }
  rewrite AllocationExact.allocate_shares by done. f_equal.
  cbn [of_int Qc_PyNum]. rewrite AllocationExact.inject_zero.
  rewrite Qcplus_0_l.
  induction Hall as [|p rest (Hf & Hx & Hsf & Hfx & Hxe) _ IH]; [done|].
  apply Forall_cons in Hdur as [Hp Hrest]. cbn [foldr].
  rewrite IH by done. f_equal.
  apply PyDateFacts.toordinal_leb in Hsf, Hfx, Hxe; try done.
  unfold share.
  rewrite AllocationExact.allocation_diff_ordinal by done.
  replace (Z.min (toordinal end_date) (toordinal (expiry_date (policy p)))
           - Z.max (toordinal (effective_date (policy p)))
               (toordinal start_date) + 1)
    with (policy_duration p) by (unfold policy_duration, sub_days; lia).
  cbn [div_int mul_int Qc_PyNum]. apply Qcdiv_mult_l.
  by apply AllocationExact.inject_nonzero.
Qed.

Lemma get_allocated_premium_inside_quarter :
  get_allocated_premium [SampleX.quarter_premium; SampleX.february_premium]
    (mkdate 2020 1 1) Sample.march_last
  = Ok (Q2Qc 91 + (Q2Qc 58 + 0))%Qc.
Proof.
  apply (get_allocated_premium_inside
           [SampleX.quarter_premium; SampleX.february_premium]
           (mkdate 2020 1 1) Sample.march_last);
    [valid_date | valid_date |].
  repeat constructor; try valid_date.
Defined.

(** X14: allocation is additive over adjacent windows.  For contributions
    whose policies do not end before they start, what
    [get_allocated_premium] allocates from the contributions of a window,
    as [get_contribution_queryset] selects them, is the sum of what it
    allocates for the two parts of the window, each with its own
    selection: the window of a quarter gets what its three months get. *)
Theorem get_allocated_premium_adjacent (product : Product)
    (premiums : list (Premium Qc)) (a m m' b : date) :
  valid a -> valid m -> valid m' -> valid b ->
  toordinal m' = toordinal m + 1 ->
  PyDate.leb a m = true -> PyDate.leb m' b = true ->
  Forall (fun p =>
    valid (effective_date (policy p)) /\ valid (expiry_date (policy p)) /\
    PyDate.leb (effective_date (policy p)) (expiry_date (policy p)) = true)
    premiums ->
  exists v1 v2 : Qc,
    get_allocated_premium (get_contribution_queryset product a m premiums)
      a m = Ok v1 /\
    get_allocated_premium (get_contribution_queryset product m' b premiums)
      m' b = Ok v2 /\
    get_allocated_premium (get_contribution_queryset product a b premiums)
      a b = Ok (v1 + v2)%Qc.
Proof.
  intros Ha Hm Hm' Hb Hnext Ham Hmb Hall.
  apply PyDateFacts.toordinal_leb in Ham, Hmb; try done.
  assert (Hdur : forall s e,
            Forall (fun p : Premium Qc => policy_duration p <> 0)
              (get_contribution_queryset product s e premiums)).
  { intros s e. apply Forall_forall. intros p Hp.
    apply list_elem_of_In in Hp. unfold get_contribution_queryset in Hp.
    apply List.filter_In in Hp as [Hp _]. apply list_elem_of_In in Hp.
    rewrite Forall_forall in Hall.
    destruct (Hall p Hp) as (Hf & Hx & Hfx).
    apply PyDateFacts.toordinal_leb in Hfx; [|done..].
    unfold policy_duration, sub_days. lia. }
  unfold get_allocated_premium.
  rewrite !AllocationExact.allocate_shares by done.
  eexists _, _. split; [reflexivity|]. split; [reflexivity|]. f_equal.
  cbn [of_int Qc_PyNum]. rewrite AllocationExact.inject_zero.
  rewrite !Qcplus_0_l. unfold get_contribution_queryset.
  rewrite !AllocationExact.foldr_filter_shares.
  apply AllocationExact.foldr_add_shares.
  eapply Forall_impl; [exact Hall|]. intros p (Hf & Hx & Hfx).
  apply PyDateFacts.toordinal_leb in Hfx; [|done..].
  rewrite !AllocationExact.leb_toordinal by done.
  pose proof (AllocationExact.allocation_diff_ordinal p a b Ha Hb Hf Hx)
    as Dab.
  pose proof (AllocationExact.allocation_diff_ordinal p a m Ha Hm Hf Hx)
    as Dam.
  pose proof (AllocationExact.allocation_diff_ordinal p m' b Hm' Hb Hf Hx)
    as Dmb.
  destruct (is_null (premium_validity_to p)
            && (policy_product (policy p) =? product_id product)) eqn:Hsel.
  2:{ apply andb_false_iff in Hsel.
      assert (Hoff : forall c1 c2,
                c1 && c2 && is_null (premium_validity_to p)
                && (policy_product (policy p) =? product_id product)
                = false).
      { intros c1 c2. destruct Hsel as [-> | ->];
          by rewrite ?andb_false_r. }
      rewrite !Hoff. ring. }
  apply andb_true_iff in Hsel as [-> ->]. rewrite !andb_true_r.
  destruct (Z.leb_spec (toordinal (effective_date (policy p)))
              (toordinal b)),
    (Z.leb_spec (toordinal a) (toordinal (expiry_date (policy p)))),
    (Z.leb_spec (toordinal (effective_date (policy p))) (toordinal m)),
    (Z.leb_spec (toordinal m') (toordinal (expiry_date (policy p))));
    cbn [andb]; try lia;
    rewrite ?Qcplus_0_l, ?Qcplus_0_r;
    first [ reflexivity
          | apply AllocationExact.share_days; lia
          | apply AllocationExact.share_days_add; lia ].
Qed.

Lemma get_allocated_premium_adjacent_quarter :
  exists v1 v2 : Qc,
    get_allocated_premium
      (get_contribution_queryset Sample.product_1 (mkdate 2020 1 1)
         (mkdate 2020 2 29)
         [SampleX.quarter_premium; SampleX.february_premium;
          SampleX.spring_premium])
      (mkdate 2020 1 1) (mkdate 2020 2 29) = Ok v1 /\
    get_allocated_premium
      (get_contribution_queryset Sample.product_1 Sample.march_first
         Sample.march_last
         [SampleX.quarter_premium; SampleX.february_premium;
          SampleX.spring_premium])
      Sample.march_first Sample.march_last = Ok v2 /\
    get_allocated_premium
      (get_contribution_queryset Sample.product_1 (mkdate 2020 1 1)
         Sample.march_last
         [SampleX.quarter_premium; SampleX.february_premium;
          SampleX.spring_premium])
      (mkdate 2020 1 1) Sample.march_last = Ok (v1 + v2)%Qc.
Proof.
  apply (get_allocated_premium_adjacent Sample.product_1
           [SampleX.quarter_premium; SampleX.february_premium;
            SampleX.spring_premium]
           (mkdate 2020 1 1) (mkdate 2020 2 29) Sample.march_first
           Sample.march_last);
    try valid_date; try reflexivity.
  repeat constructor; try valid_date.
Defined.

(** On the sample quarter: 60 + 58 for January and February, 31 + 34 for
    March, 183 for the quarter. *)
Lemma get_allocated_premium_quarter_values :
  let premiums := [SampleX.quarter_premium; SampleX.february_premium;
                   SampleX.spring_premium] in
  Sample.as_Q (get_allocated_premium
                 (get_contribution_queryset Sample.product_1
                    (mkdate 2020 1 1) (mkdate 2020 2 29) premiums)
                 (mkdate 2020 1 1) (mkdate 2020 2 29)) = Some (118 # 1)%Q /\
  Sample.as_Q (get_allocated_premium
                 (get_contribution_queryset Sample.product_1
                    Sample.march_first Sample.march_last premiums)
                 Sample.march_first Sample.march_last) = Some (65 # 1)%Q /\
  Sample.as_Q (get_allocated_premium
                 (get_contribution_queryset Sample.product_1
                    (mkdate 2020 1 1) Sample.march_last premiums)
                 (mkdate 2020 1 1) Sample.march_last) = Some (183 # 1)%Q.
Proof. vm_compute. repeat split. Qed.

(** X15: of a contribution that [get_contribution_queryset] selects for a
    window, with an amount that is not negative and a policy that does not
    end before it starts, [get_allocated_premium] allocates at least
    nothing and at most the amount: the allocation of a window lies
    between 0 and the total of the contributions selected for it. *)
Theorem get_allocated_premium_bounds (product : Product)
    (premiums : list (Premium Qc)) (start_date end_date : date) :
  valid start_date -> valid end_date ->
  PyDate.leb start_date end_date = true ->
  Forall (fun p =>
    valid (effective_date (policy p)) /\ valid (expiry_date (policy p)) /\
    PyDate.leb (effective_date (policy p)) (expiry_date (policy p)) = true /\
    (0 <= amount p)%Qc) premiums ->
  exists v : Qc,
    get_allocated_premium
      (get_contribution_queryset product start_date end_date premiums)
      start_date end_date = Ok v /\
    (0 <= v)%Qc /\
    (v <= foldr (fun p t => amount p + t) 0
            (get_contribution_queryset product start_date end_date
               premiums))%Qc.
Proof.
  intros Hs He Hse Hall.
  apply PyDateFacts.toordinal_leb in Hse; try done.
  assert (Hsel : Forall (fun p : Premium Qc =>
                   (0 <= amount p)%Qc /\
                   1 <= allocation_diff p start_date end_date
                   <= policy_duration p)
                   (get_contribution_queryset product start_date end_date
                      premiums)).
  { apply Forall_forall. intros p Hp. apply list_elem_of_In in Hp.
    unfold get_contribution_queryset in Hp.
    apply List.filter_In in Hp as [Hp Hf]. apply list_elem_of_In in Hp.
    rewrite Forall_forall in Hall.
    destruct (Hall p Hp) as (Hf' & Hx & Hfx & Ha). split; [done|].
    apply andb_true_iff in Hf as [Hf _]. apply andb_true_iff in Hf as [Hf _].
    apply andb_true_iff in Hf as [Hfe Hsx].
    apply PyDateFacts.toordinal_leb in Hfx, Hfe, Hsx; try done.
    rewrite AllocationExact.allocation_diff_ordinal by done.
    unfold policy_duration, sub_days. lia. }
  unfold get_allocated_premium.
  rewrite AllocationExact.allocate_shares.
  2:{ eapply Forall_impl; [exact Hsel|]. intros p [_ Hd]. lia. }
  eexists. split; [reflexivity|].
  cbn [of_int Qc_PyNum]. rewrite AllocationExact.inject_zero, Qcplus_0_l.
  induction Hsel as [|p rest [Ha Hd] _ [IH0 IH1]]; cbn [foldr].
  - split; apply Qcle_refl.
  - destruct (AllocationExact.share_bounds p start_date end_date Ha Hd)
      as [H0 H1].
    split.
    + replace 0%Qc with (0 + 0)%Qc by ring. by apply Qcplus_le_compat.
    + by apply Qcplus_le_compat.
Qed.

Lemma get_allocated_premium_bounds_march :
  exists v : Qc,
    get_allocated_premium
      (get_contribution_queryset Sample.product_1 Sample.march_first
         Sample.march_last
         [SampleX.quarter_premium; SampleX.february_premium;
          SampleX.spring_premium])
      Sample.march_first Sample.march_last = Ok v /\
    (0 <= v)%Qc /\
    (v <= foldr (fun p t => amount p + t) 0
            (get_contribution_queryset Sample.product_1 Sample.march_first
               Sample.march_last
               [SampleX.quarter_premium; SampleX.february_premium;
                SampleX.spring_premium]))%Qc.
Proof.
  apply (get_allocated_premium_bounds Sample.product_1
           [SampleX.quarter_premium; SampleX.february_premium;
            SampleX.spring_premium] Sample.march_first Sample.march_last);
    try valid_date; try reflexivity.
  repeat constructor; try valid_date; vm_compute; discriminate.
Defined.

(** ** Report data: result sets, sums and order *)

Module ReportExtras.
Import Report ReportTotals.

(** *** The last result set *)

Lemma last_result_set_from (cur : cursor) : forall data,
  fold_left (fun data set =>
    match set with
    | Some rows => Some rows
    | None => data
    end) cur data
  = match last (omap id cur) with
    | Some rows => Some rows
    | None => data
    end.
Proof.
  induction cur as [|set cur IH]; intros data; [done|].
  cbn [fold_left]. rewrite IH. destruct set as [rows|]; cbn; [|done].
  rewrite last_cons. by destruct (last (omap id cur)).
Qed.

Lemma last_result_set_last (cur : cursor) :
  last_result_set cur = last (omap id cur).
Proof.
  unfold last_result_set. rewrite last_result_set_from.
  by destruct (last (omap id cur)).
Qed.

(** *** Inverting the list operations *)

Lemma comprehension_in {A B} (f : A -> result B) (l : list A) : forall l',
  comprehension f l = Ok l' ->
  forall y, In y l' -> exists x, In x l /\ f x = Ok y.
Proof.
  induction l as [|x l IH]; intros l'; cbn.
  - intros [= <-] y [].
  - destruct (f x) as [y0|] eqn:Ex; [|done]. cbn.
    destruct (comprehension f l) as [ys|]; [|done]. cbn.
    intros [= <-] y [<- | Hy].
    + exists x. auto.
    + destruct (IH ys eq_refl y Hy) as (x' & ? & ?). exists x'. auto.
Qed.

Lemma insert_by_key_inv {A} (x : list value * A) l : forall l',
  insert_by_key x l = Ok l' -> l' ≡ₚ x :: l.
Proof.
  induction l as [|y l IH]; intros l'; cbn.
  - by intros [= <-].
  - destruct (tuple_lt y.1 x.1) as [[]|]; cbn; [| by intros [= <-] | done].
    destruct (insert_by_key x l) as [l0|]; cbn; [|done].
    intros [= <-]. rewrite (IH l0 eq_refl). apply Permutation_swap.
Qed.

Lemma sort_by_key_inv {A} (l : list (list value * A)) : forall l',
  sort_by_key l = Ok l' -> l' ≡ₚ l.
Proof.
  induction l as [|x l IH]; intros l'; cbn.
  - by intros [= <-].
  - destruct (sort_by_key l) as [l0|]; cbn; [|done].
    intros Hins. apply insert_by_key_inv in Hins.
    by rewrite Hins, (IH l0 eq_refl).
Qed.

(** The decorated list: each row with its own key. *)
Lemma decorate_inv (key : row -> list (result value)) (data : list row) :
  forall dec,
    comprehension (fun r =>
      rmap (fun k => (k, r)) (comprehension (fun v => v) (key r))) data
    = Ok dec ->
    map snd dec = data /\
    Forall (fun y => comprehension (fun v => v) (key y.2) = Ok y.1) dec.
Proof.
  induction data as [|r data IH]; intros dec; cbn [comprehension].
  - by intros [= <-].
  - destruct (comprehension (fun v => v) (key r)) as [k|] eqn:Ek; [|done].
    cbn [rmap rbind].
    destruct (comprehension _ data) as [dec0|]; [|done]. cbn [rbind].
    intros [= <-]. destruct (IH dec0 eq_refl) as [Hs Hk]. cbn.
    split; [by rewrite Hs | by constructor].
Qed.

Lemma sorted_inv (key : row -> list (result value)) (data out : list row) :
  sorted data key = Ok out -> out ≡ₚ data.
Proof.
  unfold sorted.
  destruct (comprehension _ data) as [dec|] eqn:Ed; [|done]. cbn [rbind].
  destruct (sort_by_key dec) as [l|] eqn:Es; [|done]. cbn.
  intros [= <-]. apply decorate_inv in Ed as [<- _].
  apply Permutation_map. by apply sort_by_key_inv.
Qed.

(** *** What a group sum is *)

Lemma rows_of_group_cons by_ k (r : row) df :
  rows_of_group by_ k (r :: df)
  = if bool_decide (group_key by_ r = Some k)
    then r :: rows_of_group by_ k df
    else rows_of_group by_ k df.
Proof. reflexivity. Qed.

(** The dictionary of a grouping has an entry for each group that has a
    row, and the entry is the total of the column over the rows of the
    group. *)
Lemma groupby_sum_total by_ col df : forall m,
  groupby_sum by_ col df = Ok m ->
  forall k,
    m !! k = match rows_of_group by_ k df with
             | [] => None
             | _ :: _ => Some (group_total by_ col k df)
             end.
Proof.
  induction df as [|r rest IH]; intros m Hm k.
  - injection Hm as <-. by rewrite lookup_empty.
  - cbn [groupby_sum] in Hm.
    destruct (groupby_sum by_ col rest) as [m0|e]; [|done].
    cbn [rbind] in Hm. specialize (IH m0 eq_refl).
    unfold group_total. rewrite rows_of_group_cons.
    destruct (group_key by_ r) as [k0|] eqn:Ek.
    2:{ injection Hm as <-. rewrite bool_decide_eq_false_2 by done.
        apply IH. }
    assert (Hm' : m = add_to_group k0 (amount_of col r) m0).
    { unfold amount_of.
      destruct (r !! col) as [[|s|z|d]|]; try done; by injection Hm as <-. }
    subst m. unfold add_to_group. case_bool_decide as Hk.
    + injection Hk as ->. rewrite lookup_insert_eq, (IH k). cbn [foldr].
      unfold group_total.
      destruct (rows_of_group by_ k rest); cbn -[amount_of];
        apply (f_equal Some); lia.
    + rewrite lookup_insert_ne by congruence. apply IH.
Qed.

Lemma groupby_sum_columns_lookup by_ cols df : forall f,
  groupby_sum_columns by_ cols df = Ok f ->
  forall c, In c cols ->
            exists m, f !! c = Some m /\ groupby_sum by_ c df = Ok m.
Proof.
  induction cols as [|c0 cols IH]; intros f Hf c Hc; [done|].
  cbn [groupby_sum_columns] in Hf.
  destruct (negb (has_column df c0)); [done|].
  destruct (groupby_sum by_ c0 df) as [m0|] eqn:E0; [|done].
  cbn [rbind] in Hf.
  destruct (groupby_sum_columns by_ cols df) as [f0|]; [|done].
  cbn [rbind] in Hf. injection Hf as <-.
  destruct (decide (c0 = c)) as [-> | Hne].
  - exists m0. by rewrite lookup_insert_eq.
  - rewrite lookup_insert_ne by done. apply (IH f0 eq_refl).
    by destruct Hc.
Qed.

(** The key a row is looked up with is made of its cells. *)
Lemma key_cells (r : row) cols : forall ks,
  comprehension (fun v => v) (map (getitem r) cols) = Ok ks ->
  ks = cells r cols.
Proof.
  induction cols as [|c cols IH]; intros ks; cbn.
  - by intros [= <-].
  - unfold getitem at 1. destruct (r !! c) as [v|]; [|done]. cbn.
    destruct (comprehension _ (map (getitem r) cols)) as [ks0|]; [|done].
    cbn. intros [= <-]. by rewrite (IH ks0 eq_refl).
Qed.

Lemma sum_at_total by_ df show_claims s c (r : row) v :
  groupby_sums by_ df show_claims = Ok s ->
  In c (summed_columns show_claims) ->
  sum_at show_claims s c (map (getitem r) by_) = Ok v ->
  v = VNum (group_total by_ c (cells r by_) df).
Proof.
  unfold groupby_sums. destruct (List.find _ by_); [done|].
  intros Hs Hc Hv.
  assert (Hgroup : forall m,
            groupby_sum by_ c df = Ok m ->
            group_at m (map (getitem r) by_) = Ok v ->
            v = VNum (group_total by_ c (cells r by_) df)).
  { intros m Hm. unfold group_at.
    destruct (comprehension (fun v => v) (map (getitem r) by_))
      as [ks|] eqn:Ek; [|done].
    cbn [rbind]. apply key_cells in Ek as ->.
    rewrite (groupby_sum_total _ _ _ _ Hm).
    destruct (rows_of_group by_ (cells r by_) df); [done|].
    by intros [= <-]. }
  destruct show_claims; cbn [summed_columns] in Hc; unfold sum_at in Hv.
  - destruct (groupby_sum_columns by_ money_columns df) as [f|] eqn:Ef;
      [|done].
    cbn in Hs. injection Hs as <-. unfold frame_at in Hv.
    destruct (groupby_sum_columns_lookup _ _ _ _ Ef c Hc) as (m & Hfm & Hm).
    rewrite Hfm in Hv. by eapply Hgroup.
  - destruct (negb _); [done|].
    destruct (groupby_sum by_ "RemuneratedAmount" df) as [m|] eqn:Em;
      [|done].
    cbn in Hs. injection Hs as <-. destruct Hc as [<- | []].
    unfold series_at in Hv. by eapply Hgroup.
Qed.

(** *** What a dictionary display holds *)

Lemma dict_of_lookup entries : forall acc m,
  dict_of entries acc = Ok m ->
  NoDup (map fst entries) ->
  (forall k, ~ In k (map fst entries) -> m !! k = acc !! k) /\
  (forall k e, In (k, e) entries -> exists v, e = Ok v /\ m !! k = Some v).
Proof.
  induction entries as [|[k0 e0] rest IH]; intros acc m Hm Hnd.
  - injection Hm as <-. split; [done|]. intros k e [].
  - cbn [dict_of] in Hm. destruct e0 as [v0|]; [|done]. cbn [rbind] in Hm.
    cbn [map fst] in Hnd. apply NoDup_cons in Hnd as [Hk0 Hnd].
    destruct (IH _ _ Hm Hnd) as [Hout Hin]. split.
    + intros k Hk. cbn [map fst In] in Hk. rewrite Hout by tauto.
      apply lookup_insert_ne. tauto.
    + intros k e [[= <- <-] | Hke]; [|by apply Hin].
      exists v0. split; [done|]. rewrite Hout.
      * apply lookup_insert_eq.
      * intros Hk. apply Hk0. by apply list_elem_of_In.
Qed.

Lemma added_keys_fresh prefix code show_claims :
  prefix = "SUMHF_" \/ prefix = "SUMP_" ->
  In code ["HFCode"; "ProductCode"] ->
  forall c, In c ["RegionName"; "DistrictName"; code] ->
            ~ In c (added_keys prefix show_claims).
Proof.
  intros [-> | ->] [<- | [<- | []]] c [<- | [<- | [<- | []]]];
    destruct show_claims; cbn; intuition discriminate.
Qed.

(** A row that [enrich] returns has the cells of the row it was made
    from, and under each added key the entry of the sums for the row. *)
Lemma enrich_sums prefix code rs ds third show_claims (r r' : row) :
  prefix = "SUMHF_" \/ prefix = "SUMP_" ->
  enrich prefix code rs ds third show_claims r = Ok r' ->
  (forall k, ~ In k (added_keys prefix show_claims) -> r' !! k = r !! k) /\
  forall c,
    In c (summed_columns show_claims) ->
    exists v1 v2 v3,
      sum_at show_claims rs c (map (getitem r) ["RegionName"]) = Ok v1 /\
      r' !! ("SUMR_" +:+ c) = Some v1 /\
      sum_at show_claims ds c
        (map (getitem r) ["RegionName"; "DistrictName"]) = Ok v2 /\
      r' !! ("SUMD_" +:+ c) = Some v2 /\
      sum_at show_claims third c
        (map (getitem r) ["RegionName"; "DistrictName"; code]) = Ok v3 /\
      r' !! (prefix +:+ c) = Some v3.
Proof.
  intros Hprefix. unfold enrich.
  destruct (region_and_district_sums r rs ds show_claims) as [s|] eqn:Es;
    [|done].
  cbn [rbind]. intros Hr'. unfold region_and_district_sums in Es.
  assert (Hs : NoDup (map fst (third_level_sums prefix code r third
                                 show_claims)) /\
               forall k, In k (map fst (third_level_sums prefix code r
                                          third show_claims)) ->
                         ~ In k (map (String.append "SUMR_")
                                   (summed_columns show_claims) ++
                                 map (String.append "SUMD_")
                                   (summed_columns show_claims))).
  { destruct Hprefix as [-> | ->], show_claims; cbn;
      (split; [repeat constructor; cbn; rewrite ?list_elem_of_In; cbn;
               intuition discriminate
              | intuition (subst; discriminate)]). }
  destruct Hs as [Hnd3 Hsep].
  apply dict_of_lookup in Hr' as [Hr_out Hr_in]; [|exact Hnd3].
  assert (Hrd : forall k v, s !! k = Some v ->
                            In k (map (String.append "SUMR_")
                                    (summed_columns show_claims) ++
                                  map (String.append "SUMD_")
                                    (summed_columns show_claims)) ->
                            r' !! k = Some v).
  { intros k v Hk Hin. rewrite Hr_out.
    - by apply lookup_union_Some_l.
    - intros Hin3. by apply (Hsep k). }
  destruct show_claims;
    (apply dict_of_lookup in Es as [Hs_out Hs_in];
       [|repeat constructor; cbn; rewrite ?list_elem_of_In; cbn;
         intuition discriminate]);
    (split;
     [ intros k Hk; unfold added_keys in Hk; rewrite !in_app_iff in Hk;
       rewrite Hr_out;
       [ apply lookup_union_r; rewrite Hs_out;
         [ apply lookup_empty
         | intros Hin; apply Hk; cbn in Hin |- *; tauto ]
       | intros Hin; apply Hk; right; right;
         destruct Hprefix as [-> | ->]; cbn in Hin |- *; tauto ]
     | ]).
  - intros c Hc. cbn in Hc.
    destruct Hc as [<- | [<- | [<- | [<- | []]]]];
      match goal with
      | |- context [sum_at true rs ?c _] =>
          destruct (Hs_in ("SUMR_" +:+ c)
                      (frame_at rs c (region_key r)))
            as (v1 & Hv1 & Hk1); [cbn; tauto|];
          destruct (Hs_in ("SUMD_" +:+ c)
                      (frame_at ds c (district_key r)))
            as (v2 & Hv2 & Hk2); [cbn; tauto|];
          destruct (Hr_in (prefix +:+ c)
                      (frame_at third c (third_key code r)))
            as (v3 & Hv3 & Hk3); [cbn; tauto|];
          exists v1, v2, v3;
          (split; [exact Hv1|]);
          (split; [apply Hrd; [exact Hk1 | cbn; tauto]|]);
          (split; [exact Hv2|]);
          (split; [apply Hrd; [exact Hk2 | cbn; tauto]|]);
          (split; [exact Hv3 | exact Hk3])
      end.
  - intros c Hc. cbn in Hc. destruct Hc as [<- | []].
    destruct (Hs_in "SUMR_RemuneratedAmount" (series_at rs (region_key r)))
      as (v1 & Hv1 & Hk1); [cbn; tauto|].
    destruct (Hs_in "SUMD_RemuneratedAmount"
                (series_at ds (district_key r)))
      as (v2 & Hv2 & Hk2); [cbn; tauto|].
    destruct (Hr_in (prefix +:+ "RemuneratedAmount")
                (series_at third (third_key code r)))
      as (v3 & Hv3 & Hk3); [cbn; tauto|].
    exists v1, v2, v3.
    split; [exact Hv1|]. split; [apply Hrd; [exact Hk1 | cbn; tauto]|].
    split; [exact Hv2|]. split; [apply Hrd; [exact Hk2 | cbn; tauto]|].
    split; [exact Hv3 | exact Hk3].
Qed.

Lemma cells_ext (r r' : row) cols :
  (forall c, In c cols -> r' !! c = r !! c) -> cells r' cols = cells r cols.
Proof.
  intros Hc. unfold cells. apply map_ext_in. intros c Hin.
  by rewrite (Hc c Hin).
Qed.

(** The rows of the aggregation carry the totals of their groups. *)
Lemma add_sums_totals prefix code show_claims data rs ds third enriched out :
  prefix = "SUMHF_" \/ prefix = "SUMP_" ->
  In code ["HFCode"; "ProductCode"] ->
  groupby_sums ["RegionName"] data show_claims = Ok rs ->
  groupby_sums ["RegionName"; "DistrictName"] data show_claims = Ok ds ->
  groupby_sums ["RegionName"; "DistrictName"; code] data show_claims
  = Ok third ->
  comprehension (enrich prefix code rs ds third show_claims) data
  = Ok enriched ->
  sorted enriched (third_key code) = Ok out ->
  Forall (fun r' : row =>
    (exists r, In r data /\
               forall k, ~ In k (added_keys prefix show_claims) ->
                         r' !! k = r !! k) /\
    forall c,
      In c (summed_columns show_claims) ->
      r' !! ("SUMR_" +:+ c)
      = Some (VNum (group_total ["RegionName"] c
                      (cells r' ["RegionName"]) data)) /\
      r' !! ("SUMD_" +:+ c)
      = Some (VNum (group_total ["RegionName"; "DistrictName"] c
                      (cells r' ["RegionName"; "DistrictName"]) data)) /\
      r' !! (prefix +:+ c)
      = Some (VNum (group_total ["RegionName"; "DistrictName"; code] c
                      (cells r' ["RegionName"; "DistrictName"; code])
                      data))) out.
Proof.
  intros Hprefix Hcode Hrs Hds Hts He Hout.
  apply sorted_inv in Hout. apply Forall_forall. intros r' Hr'.
  rewrite Hout in Hr'. apply list_elem_of_In in Hr'.
  destruct (comprehension_in _ _ _ He r' Hr') as (r & Hr & Her).
  destruct (enrich_sums _ _ _ _ _ _ _ _ Hprefix Her) as [Hsame Hsums].
  split; [by exists r|]. intros c Hc.
  destruct (Hsums c Hc) as (v1 & v2 & v3 & Hv1 & Hk1 & Hv2 & Hk2 & Hv3 & Hk3).
  pose proof (added_keys_fresh prefix code show_claims Hprefix Hcode)
    as Hfresh.
  rewrite (cells_ext r r' ["RegionName"]),
    (cells_ext r r' ["RegionName"; "DistrictName"]),
    (cells_ext r r' ["RegionName"; "DistrictName"; code]).
  - rewrite Hk1, Hk2, Hk3.
    by rewrite (sum_at_total _ _ _ _ _ _ _ Hrs Hc Hv1),
      (sum_at_total _ _ _ _ _ _ _ Hds Hc Hv2),
      (sum_at_total _ _ _ _ _ _ _ Hts Hc Hv3).
  - intros k Hk. apply Hsame, Hfresh. exact Hk.
  - intros k Hk. apply Hsame, Hfresh. cbn in Hk |- *. tauto.
  - intros k Hk. apply Hsame, Hfresh. cbn in Hk |- *. tauto.
Qed.


(** *** The columns of a row *)

Lemma row_of_columns show_claims t (r : row) :
  row_of show_claims t = Ok r ->
  (is_Some (r !! "ClaimCode") <-> show_claims = true) /\
  r !! "SUMHF_RemuneratedAmount" = None /\
  r !! "SUMP_RemuneratedAmount" = None.
Proof.
  unfold row_of, with_claims_row, summary_row.
  destruct show_claims; intros Hr;
    (apply dict_of_lookup in Hr as [Hout Hin];
       [|repeat constructor; cbn; rewrite ?list_elem_of_In; cbn;
         intuition discriminate]).
  - split; [split; [done|]|].
    + intros _. destruct (Hin "ClaimCode" (index t 0)) as (v & _ & ->);
        [by left | done].
    + split; (rewrite Hout; [apply lookup_empty|]); cbn;
        intuition discriminate.
  - split; [split; [|done]|].
    + rewrite Hout, lookup_empty; [by intros [? ?]|].
      cbn. intuition discriminate.
    + split; (rewrite Hout; [apply lookup_empty|]); cbn;
        intuition discriminate.
Qed.

(** *** The order of the rows *)










(** *** Each row and its enriched row *)




End ReportExtras.

(** ** [ReportDataService.fetch] on an empty and on a non-empty result *)

Section FetchEnriched.
Variable gettext : string -> string.
Variable uspSSRSProcessBatchWithClaim : list Report.value ->
  result (list (option (list (list Report.value)))).
Variable uspSSRSProcessBatch : list Report.value ->
  result (list (option (list (list Report.value)))).

Let fetch := Report.fetch gettext uspSSRSProcessBatchWithClaim
               uspSSRSProcessBatch.
Let report_rows := Report.report_rows uspSSRSProcessBatchWithClaim
                     uspSSRSProcessBatch.


End FetchEnriched.



(** ** [ReportDataService.fetch] and the report view *)

Section FetchExtras.
Variable gettext : string -> string.
Variable uspSSRSProcessBatchWithClaim : list Report.value ->
  result (list (option (list (list Report.value)))).
Variable uspSSRSProcessBatch : list Report.value ->
  result (list (option (list (list Report.value)))).

Let fetch := Report.fetch gettext uspSSRSProcessBatchWithClaim
               uspSSRSProcessBatch.
Let report_rows := Report.report_rows uspSSRSProcessBatchWithClaim
                     uspSSRSProcessBatch.

(** X16: of the result sets a stored procedure leaves, the data of the
    report is the last one that can be fetched, whatever comes before or
    after it; when none can be fetched [fetch] fails with the [TypeError]
    of iterating over [None], not with the no-data error. *)
Theorem fetch_last_result_set prms cur :
  (if Report.show_claims_of prms
   then uspSSRSProcessBatchWithClaim (Report.procedure_arguments prms)
   else uspSSRSProcessBatch (Report.procedure_arguments prms)) = Ok cur ->
  match last (omap id cur) with
  | Some rows => report_rows prms = Ok rows
  | None =>
      fetch prms = Raise (TypeError "'NoneType' object is not iterable")
  end.
Proof.
  intros Hcur. pose proof (ReportExtras.last_result_set_last cur) as Hlast.
  unfold fetch, report_rows, Report.fetch, Report.report_rows,
    Report.process_batch_report_data_with_claims,
    Report.process_batch_report_data, Report.fetchall_last.
  destruct (Report.show_claims_of prms); rewrite Hcur; cbn [rbind];
    rewrite Hlast; by destruct (last (omap id cur)).
Qed.

(** What a call of [fetch] that returns went through. *)
Lemma fetch_inv prms rows out :
  report_rows prms = Ok rows ->
  fetch prms = Ok out ->
  exists data rs ds third enriched,
    Report.comprehension (Report.row_of (Report.show_claims_of prms)) rows
    = Ok data /\
    Report.groupby_sums ["RegionName"] data (Report.show_claims_of prms)
    = Ok rs /\
    Report.groupby_sums ["RegionName"; "DistrictName"] data
      (Report.show_claims_of prms) = Ok ds /\
    Report.groupby_sums
      ["RegionName"; "DistrictName"; ReportTotals.third_column prms] data
      (Report.show_claims_of prms) = Ok third /\
    Report.comprehension
      (Report.enrich (Report.prefix_of_group prms)
         (ReportTotals.third_column prms) rs ds third
         (Report.show_claims_of prms)) data = Ok enriched /\
    Report.sorted enriched
      (Report.third_key (ReportTotals.third_column prms)) = Ok out /\
    (bool_decide (default "H" (prms !! "group") = "H") = true /\
     Report.prefix_of_group prms = "SUMHF_" /\
     ReportTotals.third_column prms = "HFCode" \/
     bool_decide (default "H" (prms !! "group") = "H") = false /\
     Report.prefix_of_group prms = "SUMP_" /\
     ReportTotals.third_column prms = "ProductCode").
Proof.
  intros Hrows Hfetch. unfold fetch in Hfetch.
  rewrite (fetch_on_rows gettext _ _ prms rows Hrows) in Hfetch.
  destruct (Report.comprehension
              (Report.row_of (Report.show_claims_of prms)) rows)
    as [data|] eqn:Hdata; [|done].
  cbn [rbind] in Hfetch. exists data.
  destruct data as [|r0 data0] eqn:Ed; [done|]. rewrite <- Ed in *.
  clear Ed r0 data0. revert Hfetch.
  unfold Report.prefix_of_group, ReportTotals.third_column,
    Report.regions_sum, Report.districts_sum, Report.health_facilities_sum,
    Report.products_sum, Report.add_sums_by_hf, Report.add_sums_by_prod.
  destruct (bool_decide (default "H" (prms !! "group") = "H")) eqn:Hg;
    intros Hfetch;
    (destruct (Report.groupby_sums ["RegionName"] data
                 (Report.show_claims_of prms)) as [rs|] eqn:Hrs; [|done]);
    cbn [rbind] in Hfetch;
    (destruct (Report.groupby_sums ["RegionName"; "DistrictName"] data
                 (Report.show_claims_of prms)) as [ds|] eqn:Hds; [|done]);
    cbn [rbind] in Hfetch;
    match type of Hfetch with
    | context [Report.groupby_sums ?by_ data ?sc] =>
        destruct (Report.groupby_sums by_ data sc) as [third|] eqn:Hts;
        [|done]
    end;
    cbn [rbind] in Hfetch;
    match type of Hfetch with
    | context [Report.comprehension ?f data] =>
        destruct (Report.comprehension f data) as [enriched|] eqn:He;
        [|done]
    end;
    cbn [rbind] in Hfetch;
    exists rs, ds, third, enriched; repeat (split; [done|]);
    [left | right]; done.
Qed.

Lemma fetch_inv_prefix prms :
  (Report.prefix_of_group prms = "SUMHF_"
   \/ Report.prefix_of_group prms = "SUMP_") /\
  In (ReportTotals.third_column prms) ["HFCode"; "ProductCode"].
Proof.
  unfold Report.prefix_of_group, ReportTotals.third_column.
  destruct (bool_decide _); cbn; auto.
Qed.

(** X17: in every row [fetch] returns, the field SUMR_ of a summed
    column is the total of that column over the rows of the report that
    have the row's region, the field SUMD_ the total over the rows with
    its region and district, and the field SUMHF_ (or SUMP_) the total
    over the rows with its region, district and facility (or product). *)
Theorem fetch_sums_are_totals prms rows out :
  report_rows prms = Ok rows ->
  fetch prms = Ok out ->
  exists data,
    Report.comprehension (Report.row_of (Report.show_claims_of prms)) rows
    = Ok data /\
    Forall (fun r' : gmap string Report.value =>
      forall c,
        In c (Report.summed_columns (Report.show_claims_of prms)) ->
        r' !! ("SUMR_" +:+ c)
        = Some (Report.VNum
                  (ReportTotals.group_total ["RegionName"] c
                     (ReportTotals.cells r' ["RegionName"]) data)) /\
        r' !! ("SUMD_" +:+ c)
        = Some (Report.VNum
                  (ReportTotals.group_total ["RegionName"; "DistrictName"] c
                     (ReportTotals.cells r' ["RegionName"; "DistrictName"])
                     data)) /\
        r' !! (Report.prefix_of_group prms +:+ c)
        = Some (Report.VNum
                  (ReportTotals.group_total
                     ["RegionName"; "DistrictName";
                      ReportTotals.third_column prms] c
                     (ReportTotals.cells r'
                        ["RegionName"; "DistrictName";
                         ReportTotals.third_column prms]) data))) out.
Proof.
  intros Hrows Hfetch.
  destruct (fetch_inv prms rows out Hrows Hfetch)
    as (data & rs & ds & third & enriched & Hdata & Hrs & Hds & Hts & He
        & Hout & _).
  destruct (fetch_inv_prefix prms) as [Hprefix Hcode].
  exists data. split; [done|].
  pose proof (ReportExtras.add_sums_totals _ _ _ _ _ _ _ _ _ Hprefix Hcode
                Hrs Hds Hts He Hout) as Hall.
  eapply Forall_impl; [exact Hall|]. by intros r' [_ Hsums].
Qed.

(** X18: the view picks its template by the same two parameters as
    [fetch] builds the rows: the rows carry the facility sums exactly
    under a facility template ([pbh], [pbc_H]), the product sums exactly
    under a product template ([pbp], [pbc_P]), and the columns of a claim
    exactly under a template with claims ([pbc_H], [pbc_P]). *)
Theorem report_template_matches_rows prms rows out :
  report_rows prms = Ok rows ->
  fetch prms = Ok out ->
  Forall (fun r' : gmap string Report.value =>
    (is_Some (r' !! "SUMHF_RemuneratedAmount") <->
     (_report prms).2 = pbh \/ (_report prms).2 = pbc_H) /\
    (is_Some (r' !! "SUMP_RemuneratedAmount") <->
     (_report prms).2 = pbp \/ (_report prms).2 = pbc_P) /\
    (is_Some (r' !! "ClaimCode") <->
     (_report prms).2 = pbc_H \/ (_report prms).2 = pbc_P)) out.
Proof.
  intros Hrows Hfetch.
  destruct (fetch_inv prms rows out Hrows Hfetch)
    as (data & rs & ds & third & enriched & Hdata & Hrs & Hds & Hts & He
        & Hout & Hcase).
  destruct (fetch_inv_prefix prms) as [Hprefix Hcode].
  pose proof (ReportExtras.add_sums_totals _ _ _ _ _ _ _ _ _ Hprefix Hcode
                Hrs Hds Hts He Hout) as Hall.
  eapply Forall_impl; [exact Hall|].
  intros r' [(r & Hr & Hsame) Hsums].
  destruct (ReportExtras.comprehension_in _ _ _ Hdata r Hr) as (t & _ & Ht).
  destruct (ReportExtras.row_of_columns _ _ _ Ht) as (Hclaim & Hhf & Hp).
  assert (Hc : In "RemuneratedAmount"
                 (Report.summed_columns (Report.show_claims_of prms))).
  { destruct (Report.show_claims_of prms); cbn; tauto. }
  destruct (Hsums _ Hc) as (_ & _ & Hthird).
  assert (Hcc : r' !! "ClaimCode" = r !! "ClaimCode").
  { apply Hsame. destruct Hprefix as [-> | ->];
      destruct (Report.show_claims_of prms); cbn; intuition discriminate. }
  rewrite Hcc, Hclaim. unfold _report.
  change (bool_decide (default "false" (prms !! "showClaims") = "true"))
    with (Report.show_claims_of prms).
  destruct Hcase as [(Hg & Hpre & _) | (Hg & Hpre & _)];
    rewrite Hg; rewrite Hpre in Hthird, Hsame.
  - assert (Hother : r' !! "SUMP_RemuneratedAmount" = None).
    { rewrite Hsame; [done|].
      destruct (Report.show_claims_of prms); cbn; intuition discriminate. }
    rewrite Hother.
    change ("SUMHF_" +:+ "RemuneratedAmount")
      with "SUMHF_RemuneratedAmount" in Hthird.
    rewrite Hthird.
    destruct (Report.show_claims_of prms); cbn;
      repeat split; intros; try done; try (by eexists); try tauto;
      try (by destruct H as [? ?]); intuition discriminate.
  - assert (Hother : r' !! "SUMHF_RemuneratedAmount" = None).
    { rewrite Hsame; [done|].
      destruct (Report.show_claims_of prms); cbn; intuition discriminate. }
    rewrite Hother.
    change ("SUMP_" +:+ "RemuneratedAmount")
      with "SUMP_RemuneratedAmount" in Hthird.
    rewrite Hthird.
    destruct (Report.show_claims_of prms); cbn;
      repeat split; intros; try done; try (by eexists); try tauto;
      try (by destruct H as [? ?]); intuition discriminate.
Qed.


End FetchExtras.

Lemma fetch_last_result_set_silent :
  Report.fetch Sample.no_translation Sample.usp_nothing SampleX.usp_silent ∅
  = Raise (TypeError "'NoneType' object is not iterable").
Proof.
  exact (fetch_last_result_set Sample.no_translation Sample.usp_nothing
           SampleX.usp_silent ∅ [None] eq_refl).
Defined.

Lemma sample_report_rows :
  Report.report_rows Sample.usp_nothing SampleX.usp_lines ∅
  = Ok SampleX.summary_lines.
Proof. vm_compute. reflexivity. Qed.

Lemma sample_report_out :
  Report.fetch Sample.no_translation Sample.usp_nothing SampleX.usp_lines ∅
  = Ok SampleX.report_out.
Proof.
  unfold SampleX.report_out.
  destruct (Report.fetch Sample.no_translation Sample.usp_nothing
              SampleX.usp_lines ∅) as [out|e] eqn:E; [reflexivity|].
  apply (f_equal (fun r : result (list (gmap string Report.value)) =>
                    match r with Ok _ => true | Raise _ => false end)) in E.
  vm_compute in E. discriminate.
Qed.

Lemma fetch_sums_are_totals_sample :
  exists data,
    Report.comprehension (Report.row_of (Report.show_claims_of ∅))
      SampleX.summary_lines = Ok data /\
    Forall (fun r' : gmap string Report.value =>
      forall c,
        In c (Report.summed_columns (Report.show_claims_of ∅)) ->
        r' !! ("SUMR_" +:+ c)
        = Some (Report.VNum
                  (ReportTotals.group_total ["RegionName"] c
                     (ReportTotals.cells r' ["RegionName"]) data)) /\
        r' !! ("SUMD_" +:+ c)
        = Some (Report.VNum
                  (ReportTotals.group_total ["RegionName"; "DistrictName"] c
                     (ReportTotals.cells r' ["RegionName"; "DistrictName"])
                     data)) /\
        r' !! (Report.prefix_of_group ∅ +:+ c)
        = Some (Report.VNum
                  (ReportTotals.group_total
                     ["RegionName"; "DistrictName";
                      ReportTotals.third_column ∅] c
                     (ReportTotals.cells r'
                        ["RegionName"; "DistrictName";
                         ReportTotals.third_column ∅]) data)))
      SampleX.report_out.
Proof.
  exact (fetch_sums_are_totals Sample.no_translation Sample.usp_nothing
           SampleX.usp_lines ∅ SampleX.summary_lines SampleX.report_out
           sample_report_rows sample_report_out).
Defined.

Lemma report_template_matches_rows_sample :
  Forall (fun r' : gmap string Report.value =>
    (is_Some (r' !! "SUMHF_RemuneratedAmount") <->
     (_report ∅).2 = pbh \/ (_report ∅).2 = pbc_H) /\
    (is_Some (r' !! "SUMP_RemuneratedAmount") <->
     (_report ∅).2 = pbp \/ (_report ∅).2 = pbc_P) /\
    (is_Some (r' !! "ClaimCode") <->
     (_report ∅).2 = pbc_H \/ (_report ∅).2 = pbc_P)) SampleX.report_out.
Proof.
  exact (report_template_matches_rows Sample.no_translation
           Sample.usp_nothing SampleX.usp_lines ∅ SampleX.summary_lines
           SampleX.report_out sample_report_rows sample_report_out).
Defined.


(** On the sample the line of Jamu comes before the line of Rapta; each
    carries the 70000 of the region and the amount of its own district and
    facility. *)
Lemma fetch_sample_values :
  map (fun r : gmap string Report.value =>
         (r !! "DistrictName", r !! "SUMR_RemuneratedAmount",
          r !! "SUMD_RemuneratedAmount", r !! "SUMHF_RemuneratedAmount"))
    SampleX.report_out
  = [(Some (Report.VStr "Jamu"), Some (Report.VNum 70000),
      Some (Report.VNum 20000), Some (Report.VNum 20000));
     (Some (Report.VStr "Rapta"), Some (Report.VNum 70000),
      Some (Report.VNum 50000), Some (Report.VNum 50000))].
Proof. vm_compute. reflexivity. Qed.
